(** * Arvados container pipeline: queue monitor, runner, output capture
      and priority model

    A shallow embedding of the parts of the Arvados sources that schedule
    and run containers, followed by the properties proved about them.

    Definitions:
    - [Squeue]: services/crunch-dispatch-slurm/squeue.go, the monitor of
      the SLURM queue;
    - [CrunchRun]: [ContainerRunner.Run] and [UpdateContainerFinal] of
      services/crunch-run/crunchrun.go;
    - [OS]: the file system calls, [filepath.Walk] and a file system in
      memory;
    - [Output]: [derefOutputSymlink], [UploadOutputFile] and
      [CaptureOutput] of crunchrun.go;
    - [MD5], [Upload]: the collection writer of
      services/crunch-run/upload.go;
    - [Logging]: the rate-limited logger of the runner;
    - [Store]: requests, containers, the priority sweep
      ([UpdatePriority.update_priority]) and the operations of the store;
    - [Writer]: [Open], [Write] and [Close] of upload.go;
    - [Attach]: [ProcessDockerAttach] of crunchrun.go;
    - [Mounts]: [SetupMounts] of crunchrun.go.

    Properties: [SqueueProofs], [CrunchRunProofs], [OutputProofs],
    [UploadProofs], [StoreProofs], [LoggingProofs], and then
    [SqueueSnapshot], [RunProofs], [CaptureProofs], [WriterProofs],
    [SweepProofs], [AttachProofs], [MountsProofs].

    Go [int] values are modelled as [Z]; Go maps as stdpp [gmap]s; Go
    strings as [string]; a Go [error] as an option. *)

From Stdlib Require Import ZArith String Ascii List Lia Bool.
From stdpp Require Import gmap strings pretty.
Import ListNotations.

Local Open Scope Z_scope.
Local Open Scope string_scope.

(** ** Strings helpers shared by the modules *)

(** [strings.HasPrefix(s, p)] *)
Definition HasPrefix (s p : string) : bool := String.prefix p s.

(** [s[n:]] for [n <= len(s)] *)
Fixpoint drop_string (n : nat) (s : string) : string :=
  match n, s with
  | O, _ => s
  | S n', String _ s' => drop_string n' s'
  | S _, EmptyString => EmptyString
  end.

(** [strings.Split(s, "\n")]: the pieces between newlines; there is always
    at least one piece. *)
Definition newline : ascii := Ascii.ascii_of_nat 10.

Fixpoint split_lines_aux (cur : string) (s : string) : list string :=
  match s with
  | EmptyString => [cur]
  | String c s' =>
      if Ascii.eqb c newline
      then cur :: split_lines_aux EmptyString s'
      else split_lines_aux (cur ++ String c EmptyString) s'
  end.

Definition split_lines (s : string) : list string :=
  split_lines_aux EmptyString s.

(** * The queue monitor (squeue.go) *)

Module Squeue.

(** [type jobPriority struct { niceness int; currentPriority int }] *)
Record jobPriority : Type := mkJobPriority {
  niceness : Z;
  currentPriority : Z
}.

(** [SqueueChecker]: of the Go struct only [uuids] carries data; the
    condition variable is modelled by [Wait] below.  A nil Go map reads
    like the empty map. *)
Record SqueueChecker : Type := mkSqueueChecker {
  uuids : gmap string jobPriority
}.

(** The checker before the first successful [check]: [uuids] is nil. *)
Definition fresh : SqueueChecker := {| uuids := ∅ |}.

(** Outcome of one run of the [squeue] command inside [check]. *)
Inductive poll : Type :=
| PollOk (stdout : string)
| PollErr.

Section WithSscan.

(** [fmt.Sscan(line, &uuid, &nice, &prio)] belongs to the Go library; it
    is a parameter here.  Fields that could not be scanned keep their zero
    values (the empty string and 0). *)
Variable Sscan : string -> string * Z * Z.

(** The loop body of [check]: one line of output. *)
Definition record_line (m : gmap string jobPriority) (line : string)
  : gmap string jobPriority :=
  let '(uuid, nice, prio) := Sscan line in
  if String.eqb uuid "" then m
  else <[uuid := mkJobPriority nice prio]> m.

(** The map that [check] builds from the output of the command. *)
Definition published (stdout : string) : gmap string jobPriority :=
  fold_left record_line (split_lines stdout) ∅.

(** [check]: on failure of the command nothing changes and nobody is woken
    up; on success the map is rebuilt from scratch and [Broadcast] is
    called.  The boolean tells whether [Broadcast] was called. *)
Definition check (sqc : SqueueChecker) (p : poll) : SqueueChecker * bool :=
  match p with
  | PollErr => (sqc, false)
  | PollOk stdout => ({| uuids := published stdout |}, true)
  end.

(** [sqc.Wait()]: the caller sleeps until a [Broadcast].  [polls] are the
    runs of [check] that the ticker goroutine performs from the moment the
    caller went to sleep; the result is the checker as the woken caller
    finds it, or [None] when no run in [polls] broadcasts (the caller is
    still asleep).  The woken caller is taken to re-acquire the lock before
    the next tick. *)
Fixpoint Wait (sqc : SqueueChecker) (polls : list poll)
  : option (SqueueChecker * list poll) :=
  match polls with
  | [] => None
  | p :: rest =>
      let '(sqc', woken) := check sqc p in
      if woken then Some (sqc', rest) else Wait sqc' rest
  end.

(** [HasUUID]: waits, then looks the name up. *)
Definition HasUUID (sqc : SqueueChecker) (polls : list poll) (uuid : string)
  : option bool :=
  match Wait sqc polls with
  | Some (sqc', _) =>
      Some (match uuids sqc' !! uuid with Some _ => true | None => false end)
  | None => None
  end.

(** [GetNiceness]: takes the lock and reads [uuids]; there is no [Wait]. *)
Definition GetNiceness (sqc : SqueueChecker) (uuid : string) : Z :=
  match uuids sqc !! uuid with
  | Some n => niceness n
  | None => -1
  end.

(** [All]: waits, then collects the keys (in Go, in no particular order). *)
Definition All (sqc : SqueueChecker) (polls : list poll)
  : option (list string) :=
  match Wait sqc polls with
  | Some (sqc', _) => Some ((map_to_list (uuids sqc')).*1)
  | None => None
  end.

(** The three queries behind one interface: the answer of a query issued
    in state [sqc] while the ticker performs [polls], [None] while the
    caller is blocked. *)
Inductive query : Type :=
| QHasUUID (uuid : string)
| QGetNiceness (uuid : string)
| QAll.

Inductive answer : Type :=
| ABool (b : bool)
| AInt (n : Z)
| ANames (l : list string).

Definition run_query (q : query) (sqc : SqueueChecker) (polls : list poll)
  : option answer :=
  match q with
  | QHasUUID uuid => ABool <$> HasUUID sqc polls uuid
  | QGetNiceness uuid => Some (AInt (GetNiceness sqc uuid))
  | QAll => ANames <$> All sqc polls
  end.

(** What a query reads when it is answered from the snapshot [m]. *)
Definition read_snapshot (q : query) (m : gmap string jobPriority) : answer :=
  match q with
  | QHasUUID uuid => ABool (match m !! uuid with Some _ => true | None => false end)
  | QGetNiceness uuid =>
      AInt (match m !! uuid with Some n => niceness n | None => -1 end)
  | QAll => ANames ((map_to_list m).*1)
  end.

Definition is_ok (p : poll) : bool :=
  match p with PollOk _ => true | PollErr => false end.

Definition failed_poll (p : poll) : bool := negb (is_ok p).

End WithSscan.

(** An instance of [Sscan] for the examples: fields separated by spaces,
    the numbers in decimal notation, as [squeue --format="%j %y %Q"]
    prints them.  Scanning stops at the first field that does not scan. *)
Fixpoint fields_aux (cur : string) (s : string) : list string :=
  match s with
  | EmptyString => if String.eqb cur "" then [] else [cur]
  | String c s' =>
      if Ascii.eqb c " "%char
      then (if String.eqb cur "" then fields_aux "" s'
            else cur :: fields_aux "" s')
      else fields_aux (cur ++ String c EmptyString) s'
  end.

Definition digit_of (c : ascii) : option Z :=
  let n := Z.of_nat (Ascii.nat_of_ascii c) in
  if (48 <=? n)%Z && (n <=? 57)%Z then Some (n - 48) else None.

Fixpoint parse_digits (acc : Z) (s : string) : option Z :=
  match s with
  | EmptyString => Some acc
  | String c s' =>
      match digit_of c with
      | Some d => parse_digits (10 * acc + d) s'
      | None => None
      end
  end.

Definition parse_int (s : string) : option Z :=
  match s with
  | EmptyString => None
  | String "-"%char (String c r) => Z.opp <$> parse_digits 0 (String c r)
  | _ => parse_digits 0 s
  end.

Definition Sscan_decimal (line : string) : string * Z * Z :=
  match fields_aux "" line with
  | [] => ("", 0, 0)
  | [uuid] => (uuid, 0, 0)
  | uuid :: nice :: rest =>
      match parse_int nice with
      | None => (uuid, 0, 0)
      | Some n =>
          match rest with
          | [] => (uuid, n, 0)
          | prio :: _ => (uuid, n, default 0 (parse_int prio))
          end
      end
  end.

End Squeue.

(** * The runner (crunch-run): container life cycle *)

Module CrunchRun.

(** A Go [error] is its message; [nil] is [None]. *)
Definition error : Type := option string.

(** Values of [arvadosclient.Dict] entries used by the runner. *)
Inductive value : Type :=
| VString (s : string)
| VInt (n : Z).

(** The steps of a run that the properties below speak about; a report
    to the API server carries the record that was sent. *)
Inductive call : Type :=
| CallFetchContainerRecord
| CallLoadImage
| CallSetupMounts
| CallCreateContainer
| CallUpdateContainerRunning
| CallStartContainer
| CallWaitFinish
| CallCaptureOutput
| CallStopHoststat
| CallCommitLogs
| CallUpdateContainerFinal (update : gmap string value)
| CallCleanupDirs.

(** The fields of [ContainerRunner] that [Run] and its finalization read
    and write.  [calls] records, oldest first, the steps carried out. *)
Record ContainerRunner : Type := mkRunner {
  finalState : string;
  ExitCode : option Z;
  LogsPDH : option string;
  OutputPDH : option string;
  ContainerID : string;
  cCancelled : bool;
  calls : list call
}.

Definition set_finalState (r : ContainerRunner) (s : string) :=
  mkRunner s (ExitCode r) (LogsPDH r) (OutputPDH r) (ContainerID r)
           (cCancelled r) (calls r).
Definition set_ExitCode (r : ContainerRunner) (c : option Z) :=
  mkRunner (finalState r) c (LogsPDH r) (OutputPDH r) (ContainerID r)
           (cCancelled r) (calls r).
Definition set_LogsPDH (r : ContainerRunner) (p : option string) :=
  mkRunner (finalState r) (ExitCode r) p (OutputPDH r) (ContainerID r)
           (cCancelled r) (calls r).
Definition set_OutputPDH (r : ContainerRunner) (p : option string) :=
  mkRunner (finalState r) (ExitCode r) (LogsPDH r) p (ContainerID r)
           (cCancelled r) (calls r).
Definition set_ContainerID (r : ContainerRunner) (i : string) :=
  mkRunner (finalState r) (ExitCode r) (LogsPDH r) (OutputPDH r) i
           (cCancelled r) (calls r).
Definition set_cCancelled (r : ContainerRunner) (b : bool) :=
  mkRunner (finalState r) (ExitCode r) (LogsPDH r) (OutputPDH r)
           (ContainerID r) b (calls r).
Definition log_call (r : ContainerRunner) (c : call) :=
  mkRunner (finalState r) (ExitCode r) (LogsPDH r) (OutputPDH r)
           (ContainerID r) (cCancelled r) (calls r ++ [c]).

(** The runner as [NewContainerRunner] leaves it. *)
Definition NewContainerRunner : ContainerRunner :=
  mkRunner "" None None None "" false [].

(** What the world does during one run: the results of the calls to the
    API server, Docker and the file system, and the moments at which a
    signal (or the exit of arv-mount) makes the handler call [stop]. *)
Record world : Type := mkWorld {
  fetchContainerRecord_err : error;
  LoadImage_err : error;
  (* [checkBrokenNode]: does the message match [errorBlacklist]? *)
  matchesBlacklist : string -> bool;
  SetupMounts_err : error;
  (* the container id Docker returns, or the error *)
  CreateContainer_res : string + string;
  LogHostInfo_err : error;
  LogNodeRecord_err : error;
  LogContainerRecord_err : error;
  signal_before_running : bool;
  signal_at_update_running : bool;
  UpdateContainerRunning_err : error;
  signal_before_start : bool;
  StartContainer_err : error;
  (* exit code, or the error of [ContainerWait] *)
  WaitFinish_res : string + Z;
  signal_during_wait : bool;
  (* a signal caught after the body has returned, before the deferred
     function looks at the state and tests [IsCancelled] *)
  signal_before_finalize : bool;
  (* a signal caught later in the deferred function, during the capture,
     the log commit or the report: the handler stays installed until
     [stopSignals] *)
  signal_during_finalize : bool;
  (* [CaptureOutput]: an error, or the value left in [OutputPDH] *)
  CaptureOutput_res : string + option string;
  stopHoststat_err : error;
  (* [CommitLogs]: an error, or the hash of the log collection *)
  CommitLogs_res : string + string;
  UpdateContainerFinal_err : error
}.

(** [stop]: without a container there is nothing to stop and the flag
    stays as it is. *)
Definition stop (r : ContainerRunner) : ContainerRunner :=
  if String.eqb (ContainerID r) "" then r else set_cCancelled r true.

(** Delivery of a signal to the handler installed by [setupSignals]. *)
Definition deliver (sig : bool) (r : ContainerRunner) : ContainerRunner :=
  if sig then stop r else r.

(** [checkBrokenNode] (the hook it runs does not touch the runner). *)
Definition checkBrokenNode (w : world) (goterr : string) : bool :=
  matchesBlacklist w goterr.

(** [UpdateContainerFinal]: the record sent to the API server. *)
Definition final_update (r : ContainerRunner) : gmap string value :=
  let update : gmap string value := {[ "state" := VString (finalState r) ]} in
  let update :=
    match LogsPDH r with
    | Some l => <["log" := VString l]> update
    | None => update
    end in
  if String.eqb (finalState r) "Complete" then
    let update :=
      match ExitCode r with
      | Some c => <["exit_code" := VInt c]> update
      | None => update
      end in
    match OutputPDH r with
    | Some o => <["output" := VString o]> update
    | None => update
    end
  else update.

Definition UpdateContainerFinal (w : world) (r : ContainerRunner)
  : ContainerRunner * error :=
  (log_call r (CallUpdateContainerFinal (final_update r)),
   UpdateContainerFinal_err w).

(** [CaptureOutput], [stopHoststat], [CommitLogs] as seen from [Run];
    how the result of [CaptureOutput] comes about is the subject of the
    module [Output]. *)
Definition CaptureOutput (w : world) (r : ContainerRunner)
  : ContainerRunner * error :=
  let r := log_call r CallCaptureOutput in
  match CaptureOutput_res w with
  | inl e => (r, Some e)
  | inr None => (r, None)
  | inr (Some pdh) => (set_OutputPDH r (Some pdh), None)
  end.

Definition stopHoststat (w : world) (r : ContainerRunner)
  : ContainerRunner * error :=
  (log_call r CallStopHoststat, stopHoststat_err w).

Definition CommitLogs (w : world) (r : ContainerRunner)
  : ContainerRunner * error :=
  let r := log_call r CallCommitLogs in
  match LogsPDH r with
  | Some _ => (r, None)
  | None =>
      match CommitLogs_res w with
      | inl e => (r, Some e)
      | inr pdh => (set_LogsPDH r (Some pdh), None)
      end
  end.

(** [checkErr] of the deferred function: the first error wins, and an
    error during finalization turns "Complete" into "Cancelled". *)
Definition checkErr (re : ContainerRunner * error) (e : error)
  : ContainerRunner * error :=
  let '(r, err) := re in
  match e with
  | None => (r, err)
  | Some m =>
      let err' := match err with None => Some m | Some _ => err end in
      if String.eqb (finalState r) "Complete"
      then (set_finalState r "Cancelled", err')
      else (r, err')
  end.

(** One finalization step [checkErr(f())]. *)
Definition checked (f : ContainerRunner -> ContainerRunner * error)
    (re : ContainerRunner * error) : ContainerRunner * error :=
  let '(r', e) := f (fst re) in checkErr (r', snd re) e.

(** The second deferred function of [Run].  The handler that
    [setupSignals] installed is removed by [stopSignals] only in the
    deferred function that runs last, so a signal can still be caught
    while this one runs.  [IsCancelled] is tested once; nothing reads the
    flag after that test, so a signal caught later (during the capture,
    the log commit or the report) sets the flag and changes nothing else,
    whatever its moment. *)
Definition finalize (w : world) (r : ContainerRunner) (err : error)
  : ContainerRunner * error :=
  let '(r, err) := checkErr (r, err) err in
  let r := deliver (signal_before_finalize w) r in
  if String.eqb (finalState r) "Queued" then
    let r := deliver (signal_during_finalize w) r in
    (fst (UpdateContainerFinal w r), err)
  else
    let r := if cCancelled r then set_finalState r "Cancelled" else r in
    let r := deliver (signal_during_finalize w) r in
    let re := checked (CaptureOutput w) (r, err) in
    let re := checked (stopHoststat w) re in
    let re := checked (CommitLogs w) re in
    checked (UpdateContainerFinal w) re.

(** The first deferred function of [Run] (it runs last). *)
Definition cleanup (r : ContainerRunner) : ContainerRunner :=
  log_call r CallCleanupDirs.

(** The body of [Run], up to its [return]. *)
Definition Run_body (w : world) (r : ContainerRunner)
  : ContainerRunner * error :=
  let r := set_finalState r "Queued" in
  let r := log_call r CallFetchContainerRecord in
  match fetchContainerRecord_err w with
  | Some e => (r, Some e)
  | None =>
  let r := log_call r CallLoadImage in
  match LoadImage_err w with
  | Some e =>
      let r := if negb (checkBrokenNode w e)
               then set_finalState r "Cancelled" else r in
      (r, Some ("While loading container image: " ++ e))
  | None =>
  let r := log_call r CallSetupMounts in
  match SetupMounts_err w with
  | Some e =>
      (set_finalState r "Cancelled", Some ("While setting up mounts: " ++ e))
  | None =>
  let r := log_call r CallCreateContainer in
  match CreateContainer_res w with
  | inl e => (r, Some e)
  | inr id =>
  let r := set_ContainerID r id in
  match LogHostInfo_err w with
  | Some e => (r, Some e)
  | None =>
  match LogNodeRecord_err w with
  | Some e => (r, Some e)
  | None =>
  match LogContainerRecord_err w with
  | Some e => (r, Some e)
  | None =>
  let r := deliver (signal_before_running w) r in
  if cCancelled r then (r, None) else
  let r := deliver (signal_at_update_running w) r in
  let r := log_call r CallUpdateContainerRunning in
  match (if cCancelled r then Some "Cancelled"
         else UpdateContainerRunning_err w) with
  | Some e => (r, Some e)
  | None =>
  let r := set_finalState r "Cancelled" in
  let r := deliver (signal_before_start w) r in
  let r := log_call r CallStartContainer in
  match (if cCancelled r then Some "Cancelled"
         else StartContainer_err w) with
  | Some e => (r, Some e)
  | None =>
  let r := log_call r CallWaitFinish in
  let r := deliver (signal_during_wait w) r in
  match WaitFinish_res w with
  | inl e => (r, Some ("container wait: " ++ e))
  | inr code =>
      let r := set_ExitCode r (Some code) in
      if negb (cCancelled r) then (set_finalState r "Complete", None)
      else (r, None)
  end end end end end end end end end end.

(** [Run]: the body, then the deferred functions in reverse order of their
    registration. *)
Definition Run (w : world) (r : ContainerRunner) : ContainerRunner * error :=
  let '(r, err) := Run_body w r in
  let '(r, err) := finalize w r err in
  (cleanup r, err).

(** The reports sent to the API server by [UpdateContainerFinal]. *)
Definition final_reports (r : ContainerRunner) : list (gmap string value) :=
  omap (fun c => match c with
                 | CallUpdateContainerFinal u => Some u
                 | _ => None
                 end) (calls r).

(** The steps a run went through, reports reduced to their position. *)
Definition step_of (c : call) : call :=
  match c with
  | CallUpdateContainerFinal _ => CallUpdateContainerFinal ∅
  | c => c
  end.

Definition steps (r : ContainerRunner) : list call := map step_of (calls r).

(** The states reported to the API server, in order. *)
Definition reported_states (r : ContainerRunner) : list (option value) :=
  map (fun u : gmap string value => u !! "state") (final_reports r).

(** A run in which everything succeeds up to and including
    [UpdateContainerRunning]; the rest is left to the arguments. *)
Definition world_running (start_err : error) (wait : string + Z)
    (sig_wait : bool) (capture : string + option string)
    (logs : string + string) : world :=
  mkWorld None None (fun _ => false) None (inr "abcde") None None None
          false false None false start_err wait sig_wait false false
          capture None logs None.

(** A run in which [LoadImage] fails with the given message. *)
Definition world_image_error (msg : string) (blacklisted : bool) : world :=
  mkWorld None (Some msg) (fun _ => blacklisted) None (inr "abcde") None None
          None false false None false None (inr 0) false false false
          (inr None) None (inr "logs-pdh") None.

(** A cancelled run whose logs were committed: the container ran, the
    wait failed, output and logs were saved. *)
Definition cancelled_run : ContainerRunner :=
  fst (Run (world_running None (inl "context canceled") true
                          (inr (Some "output-pdh")) (inr "logs-pdh"))
           NewContainerRunner).

(** Where a run stands once its state is no longer "Queued": the state
    is "Cancelled" or "Complete", and it is "Cancelled" whenever [flag]
    holds. *)
Definition settled (flag : Prop) (r : ContainerRunner) : Prop :=
  (finalState r = "Cancelled" \/ finalState r = "Complete")
  /\ (flag -> finalState r = "Cancelled").

(** A run that completes while a signal is caught during its
    finalization, after the test of [IsCancelled]. *)
Definition world_late_signal : world :=
  mkWorld None None (fun _ => false) None (inr "abcde") None None None
          false false None false None (inr 3) false false true
          (inr (Some "output-pdh")) None (inr "logs-pdh") None.

End CrunchRun.

(** * The file system as the runner sees it *)

Module OS.

(** Go errors that the code tells apart by identity, and all the others
    by their message. *)
Inductive goerror : Type :=
| EOF                       (* io.EOF *)
| ErrNotInOutputDir         (* the variable of that name in crunchrun.go *)
| Err (msg : string).       (* fmt.Errorf, *os.PathError, ... *)

Definition error : Type := option goerror.

Definition is_err (e : error) : bool :=
  match e with Some _ => true | None => false end.

(** [os.FileMode], as far as the code looks at it. *)
Inductive FileMode : Type :=
| ModeRegular
| ModeDir
| ModeSymlink
| ModeIrregular.   (* named pipes, sockets, devices *)

Record FileInfo : Type := mkFileInfo {
  Name : string;
  Size : Z;
  Mode : FileMode
}.

Definition IsDir (i : FileInfo) : bool :=
  match Mode i with ModeDir => true | _ => false end.
Definition IsRegular (i : FileInfo) : bool :=
  match Mode i with ModeRegular => true | _ => false end.
(** [info.Mode()&os.ModeSymlink != 0] *)
Definition IsSymlink (i : FileInfo) : bool :=
  match Mode i with ModeSymlink => true | _ => false end.

(** The calls into [os], [io/ioutil] and [path/filepath]. *)
Record filesystem : Type := mkFS {
  Lstat : string -> goerror + FileInfo;
  Stat : string -> goerror + FileInfo;
  Readlink : string -> goerror + string;
  EvalSymlinks : string -> goerror + string;
  (* sorted names of a directory, as [filepath.Walk] and [ioutil.ReadDir]
     obtain them *)
  ReadDirNames : string -> goerror + list string;
  (* [os.Open]: [None] when the file can be opened *)
  Open : string -> error;
  (* [dir.Readdirnames(1)] on a freshly opened directory *)
  Readdirnames1 : string -> list string * error;
  (* the bytes [io.Copy] reads from an opened file *)
  ReadFile : string -> goerror + list Byte.byte;
  Join : string -> string -> string;   (* filepath.Join, two arguments *)
  Dir : string -> string               (* filepath.Dir *)
}.

Section Walk.

Variable fs : filesystem.
Context {S : Type}.

(** The callback of [filepath.Walk]; [info] is nil when [Lstat] failed.
    [None] stands for a callback that did not come back (see the fuel of
    the callers). *)
Variable walkFn : string -> option FileInfo -> error -> S -> option (S * error).

(** [filepath.walk] of the Go library (the names of a directory are read
    before the callback is called for it).  The callbacks of this program
    never return [filepath.SkipDir], so every error stops the walk.
    [depth] bounds the nesting of directories that is followed. *)
Fixpoint walk (depth : nat) (path : string) (info : FileInfo) (s : S)
  : option (S * error) :=
  match depth with
  | O => None
  | Datatypes.S d =>
      if negb (IsDir info) then walkFn path (Some info) None s
      else
        let '(names, err) :=
          match ReadDirNames fs path with
          | inl e => ([], Some e)
          | inr ns => (ns, None)
          end in
        match walkFn path (Some info) err s with
        | None => None
        | Some (s, err1) =>
            if is_err err || is_err err1 then Some (s, err1)
            else
              (fix each (names : list string) (s : S) : option (S * error) :=
                 match names with
                 | [] => Some (s, None)
                 | name :: rest =>
                     let filename := Join fs path name in
                     let visit :=
                       match Lstat fs filename with
                       | inl e => walkFn filename None (Some e) s
                       | inr fileInfo => walk d filename fileInfo s
                       end in
                     match visit with
                     | None => None
                     | Some (s, Some e) => Some (s, Some e)
                     | Some (s, None) => each rest s
                     end
                 end) names s
        end
  end.

(** [filepath.Walk] *)
Definition Walk (depth : nat) (root : string) (s : S) : option (S * error) :=
  match Lstat fs root with
  | inl e => walkFn root None (Some e) s
  | inr info => walk depth root info s
  end.

End Walk.

(** [visits fs path info p i]: the walk that starts at [path] (whose
    [Lstat] gave [info]) comes to the entry [p] with [Lstat] result [i],
    going down through directories only, as [filepath.walk] does. *)
Inductive visits (fs : filesystem)
  : string -> FileInfo -> string -> FileInfo -> Prop :=
| visits_here (path : string) (info : FileInfo) : visits fs path info path info
| visits_below (path : string) (info : FileInfo) (names : list string)
    (name : string) (fileInfo : FileInfo) (p : string) (i : FileInfo) :
    IsDir info = true ->
    ReadDirNames fs path = inr names ->
    In name names ->
    Lstat fs (Join fs path name) = inr fileInfo ->
    visits fs (Join fs path name) fileInfo p i ->
    visits fs path info p i.

(** ** A file system in memory, for the examples

    Every entry is given by its absolute path, its name and what it is;
    the targets of links are absolute paths. *)
Inductive node : Type :=
| File (data : list Byte.byte)
| Directory (names : list string)   (* sorted *)
| Link (target : string)
| Fifo.

Definition memfs : Type := list (string * (string * node)).

Definition no_such_file : goerror := Err "no such file or directory".

Definition mem_lookup (m : memfs) (p : string) : option (string * node) :=
  snd <$> List.find (fun e => String.eqb (fst e) p) m.

(** The path reached by following links, at most [fuel] of them. *)
Fixpoint mem_resolve (m : memfs) (fuel : nat) (p : string) : option string :=
  match mem_lookup m p with
  | Some (_, Link t) =>
      match fuel with
      | O => None
      | S fuel' => mem_resolve m fuel' t
      end
  | Some _ => Some p
  | None => None
  end.

Definition mem_info (name : string) (n : node) : FileInfo :=
  match n with
  | File data => mkFileInfo name (Z.of_nat (List.length data)) ModeRegular
  | Directory _ => mkFileInfo name 4096 ModeDir
  | Link t => mkFileInfo name (Z.of_nat (String.length t)) ModeSymlink
  | Fifo => mkFileInfo name 0 ModeIrregular
  end.

Definition mem_Lstat (m : memfs) (p : string) : goerror + FileInfo :=
  match mem_lookup m p with
  | Some (name, n) => inr (mem_info name n)
  | None => inl no_such_file
  end.

Definition mem_EvalSymlinks (m : memfs) (p : string) : goerror + string :=
  match mem_resolve m 40 p with
  | Some q => inr q
  | None => inl no_such_file
  end.

Definition mem_Stat (m : memfs) (p : string) : goerror + FileInfo :=
  match mem_EvalSymlinks m p with
  | inr q => mem_Lstat m q
  | inl e => inl e
  end.

Definition mem_node (m : memfs) (p : string) : option node :=
  match mem_EvalSymlinks m p with
  | inr q => snd <$> mem_lookup m q
  | inl _ => None
  end.

(** The directory part of a path: what precedes the last slash. *)
Fixpoint dirname_aux (acc cur : string) (s : string) : string :=
  match s with
  | EmptyString => acc
  | String c s' =>
      if Ascii.eqb c "/"%char
      then dirname_aux (acc ++ cur) (String c EmptyString) s'
      else dirname_aux acc (cur ++ String c EmptyString) s'
  end.

Definition mem_fs (m : memfs) : filesystem :=
  mkFS
    (mem_Lstat m)
    (mem_Stat m)
    (fun p => match mem_lookup m p with
              | Some (_, Link t) => inr t
              | Some _ => inl (Err "invalid argument")
              | None => inl no_such_file
              end)
    (mem_EvalSymlinks m)
    (fun p => match mem_node m p with
              | Some (Directory names) => inr names
              | Some _ => inl (Err "not a directory")
              | None => inl no_such_file
              end)
    (fun p => match mem_node m p with
              | Some _ => None
              | None => Some no_such_file
              end)
    (fun p => match mem_node m p with
              | Some (Directory []) => ([], Some EOF)
              | Some (Directory (name :: _)) => ([name], None)
              | _ => ([], Some (Err "not a directory"))
              end)
    (fun p => match mem_node m p with
              | Some (File data) => inr data
              | Some _ => inl (Err "is a directory")
              | None => inl no_such_file
              end)
    (fun a b => a ++ "/" ++ b)
    (fun p => dirname_aux "" "" p).

End OS.

(** * Output capture in the runner (crunchrun.go) *)

Module Output.
Import OS.

(** [arvados.Mount], the fields read during output capture. *)
Record Mount : Type := mkMount {
  Kind : string;
  Writable : bool;
  PortableDataHash : string;
  Path : string;
  ExcludeFromOutput : bool
}.

(** The zero value, which a Go map yields for a missing key. *)
Definition zeroMount : Mount := mkMount "" false "" "" false.

(** [arvados.Collection], the fields read during output capture. *)
Record Collection : Type := mkCollection {
  CollectionPDH : string;
  ManifestText : string
}.

Definition zeroCollection : Collection := mkCollection "" "".

(** The fields of [ContainerRunner] read during output capture;
    [OutputPath] is the field of the embedded container record. *)
Record runner : Type := mkRunner {
  UUID : string;
  HostOutputDir : string;
  OutputPath : string;
  Mounts : gmap string Mount;
  wantAPI : bool     (* RuntimeConstraints.API is set and true *)
}.

(** [var limitFollowSymlinks = 10] *)
Definition limitFollowSymlinks : nat := 10.

Definition emptyLocator : string := "d41d8cd98f00b204e9800998ecf8427e+0".

Record deref : Type := mkDeref {
  d_tgt : string;
  d_readlinktgt : string;
  d_info : FileInfo;
  d_err : error;
  d_hops : nat       (* number of calls of os.Readlink, for the proofs *)
}.

Section Capture.

Variable fs : filesystem.
Variable runner_ : runner.

(** The target of a link read from [path], as a path of the host: a
    relative target is resolved against the directory of [path], and a
    target below the output path of the container is moved below the
    output directory of the host. *)
Definition host_target (path readlinktgt : string) : string :=
  let tgt := readlinktgt in
  let tgt := if negb (HasPrefix tgt "/")
             then Join fs (Dir fs path) tgt else tgt in
  if HasPrefix tgt (OutputPath runner_ ++ "/")
     && negb (HasPrefix tgt (HostOutputDir runner_ ++ "/"))
  then Join fs (HostOutputDir runner_)
         (drop_string (String.length (OutputPath runner_)) tgt)
  else tgt.

(** The loop of [derefOutputSymlink].  [remaining] is
    [limitFollowSymlinks - followed]: it reaches 0 exactly when
    [followed >= limitFollowSymlinks]. *)
Fixpoint derefLoop (remaining followed : nat) (path : string)
    (info : FileInfo) (tgt readlinktgt nextlink : string) : deref :=
  if negb (IsSymlink info) then mkDeref tgt readlinktgt info None followed
  else
    match remaining with
    | O =>
        mkDeref tgt readlinktgt info
          (Some (Err ("Followed more than 10 symlinks from path " ++ path)))
          followed
    | S remaining' =>
        match Readlink fs nextlink with
        | inl e => mkDeref tgt "" info (Some e) followed
        | inr readlinktgt =>
            let tgt := host_target path readlinktgt in
            if negb (HasPrefix tgt (HostOutputDir runner_ ++ "/"))
            then mkDeref tgt readlinktgt info (Some ErrNotInOutputDir)
                   (S followed)
            else
              match Lstat fs tgt with
              | inl e =>
                  mkDeref tgt readlinktgt info
                    (Some (Err ("Symlink in output points to invalid location "
                                ++ readlinktgt)))
                    (S followed)
              | inr info =>
                  derefLoop remaining' (S followed) path info tgt readlinktgt tgt
              end
        end
    end.

Definition derefOutputSymlink (path : string) (startinfo : FileInfo) : deref :=
  derefLoop limitFollowSymlinks 0 path startinfo path "" path.

(** Is [p] the mount point [bind] or a path below it? *)
Definition under (p bind : string) : bool :=
  String.eqb p bind || HasPrefix p (bind ++ "/").

Definition mount_of (bind : string) : Mount :=
  default zeroMount (Mounts runner_ !! bind).

(** The first loop over [binds] in [UploadOutputFile]: is the empty
    directory covered by a mount that is not the empty collection? *)
Definition covered_by_bind (binds : list string) (containerPath : string)
  : bool :=
  existsb (fun bind =>
             under containerPath bind
             && negb (String.eqb (PortableDataHash (mount_of bind)) emptyLocator))
          binds.

(** The second loop over [binds]: the first read-only mount that holds
    the target. *)
Definition find_bind (binds : list string) (tgt : string) : option string :=
  List.find (fun bind => under tgt bind && negb (Writable (mount_of bind)))
            binds.

(** What output capture uses from code outside crunchrun.go: the uploader
    behind [WalkUpload] and [CollectionWriter], the API client and the
    manifest library.  [W] is the state of the uploader. *)
Context {W : Type}.
Variable UploadFile : string -> string -> W -> W * error.
Variable GetCollection : string -> goerror + Collection.
Variable Extract : string -> string -> string -> string * error.

(** State threaded through the walk: the uploader and the global
    [outputCollections] cache. *)
Definition state : Type := W * gmap string Collection.

(** [getCollectionManifestForPath] *)
Definition getCollectionManifestForPath (mnt : Mount) (bindSuffix : string)
    (st : state) : state * (string * error) :=
  let '(w, cache) := st in
  let collection := default zeroCollection (cache !! PortableDataHash mnt) in
  let fetched :=
    if String.eqb (CollectionPDH collection) "" then
      match GetCollection (PortableDataHash mnt) with
      | inl e => inl e
      | inr c => inr (c, <[PortableDataHash mnt := c]> cache)
      end
    else inr (collection, cache) in
  match fetched with
  | inl _ =>
      (st, ("", Some (Err ("While getting collection for "
                           ++ PortableDataHash mnt))))
  | inr (collection, cache) =>
      if String.eqb (ManifestText collection) "" then ((w, cache), ("", None))
      else
        match Extract (ManifestText collection) (Path mnt) bindSuffix with
        | (_, Some _) =>
            ((w, cache), ("", Some (Err ("Error parsing manifest for "
                                         ++ PortableDataHash mnt))))
        | (text, None) => ((w, cache), (text, None))
        end
  end.

(** [UploadOutputFile].  The result is the new state, the manifest text
    and the error.  [fuel] bounds the nesting of the calls through
    [filepath.Walk], [depth] the directory depth of each such walk; [None]
    means one of them ran out.  Slices such as [path[len(HostOutputDir):]]
    are taken with [drop_string]; in Go they panic when [path] is shorter. *)
Fixpoint UploadOutputFile (fuel depth : nat) (path : string)
    (info : option FileInfo) (infoerr : error) (binds : list string)
    (st : state) (relocateFrom relocateTo : string) (followed : nat)
  : option (state * (string * error)) :=
  match fuel with
  | O => None
  | S fuel' =>
  match infoerr, info with
  | Some e, _ => Some (st, ("", Some e))
  | None, None => None   (* Walk passes an info whenever the error is nil *)
  | None, Some info =>
  if IsDir info then
    match Open fs path with
    | Some direrr => Some (st, ("", Some direrr))
    | None =>
        let '(names, eof) := Readdirnames1 fs path in
        if (Nat.eqb (List.length names) 0)
           && (match eof with Some EOF => true | _ => false end)
           && negb (String.eqb path (HostOutputDir runner_))
        then
          let containerPath :=
            OutputPath runner_
            ++ drop_string (String.length (HostOutputDir runner_)) path in
          if covered_by_bind binds containerPath then Some (st, ("", None))
          else
            let outputSuffix :=
              drop_string (S (String.length (HostOutputDir runner_))) path in
            Some (st, ("./" ++ outputSuffix ++ " " ++ emptyLocator
                       ++ " 0:0:.keep" ++ String newline "", None))
        else Some (st, ("", None))
    end
  else if Nat.leb limitFollowSymlinks followed then
    Some (st, ("", Some (Err ("Followed more than 10 symlinks from path "
                              ++ path))))
  else
    let relocated :=
      relocateTo ++ drop_string (String.length relocateFrom) path in
    let d := derefOutputSymlink path info in
    match d_err d with
    | Some (Err m) => Some (st, ("", Some (Err m)))
    | Some EOF => Some (st, ("", Some EOF))
    | _ =>
    match find_bind binds (d_tgt d) with
    | Some bind =>
        let mnt := mount_of bind in
        let targetSuffix := drop_string (String.length bind) (d_tgt d) in
        let adjustedMount :=
          mkMount (Kind mnt) (Writable mnt) (PortableDataHash mnt)
                  (Join fs (Path mnt) targetSuffix) (ExcludeFromOutput mnt) in
        let outputSuffix :=
          drop_string (String.length (HostOutputDir runner_)) relocated in
        Some (getCollectionManifestForPath adjustedMount outputSuffix st)
    | None =>
        match d_err d with
        | Some ErrNotInOutputDir =>
            Some (st, ("", Some (Err ("Symlink in output points to invalid location "
                                      ++ d_readlinktgt d
                                      ++ ", must point to path within the output directory."))))
        | _ =>
            if IsRegular (d_info d) then
              let '(w, e) := UploadFile relocated (d_tgt d) (fst st) in
              Some ((w, snd st), ("", e))
            else if IsDir (d_info d) then
              match
                Walk fs
                  (fun walkpath walkinfo walkerr (acc : state * string) =>
                     match UploadOutputFile fuel' depth walkpath walkinfo walkerr
                             binds (fst acc) (d_tgt d) relocated (S followed) with
                     | None => None
                     | Some (st', (m, None)) =>
                         Some ((st', snd acc ++ m), None)
                     | Some (st', (_, Some e)) =>
                         Some ((st', snd acc), Some e)
                     end)
                  depth (d_tgt d) (st, "")
              with
              | None => None
              | Some ((st', manifestText), e) => Some (st', (manifestText, e))
              end
            else Some (st, ("", None))
        end
    end
    end
  end
  end.

(** More of the code outside crunchrun.go, used by [CaptureOutput]. *)
Variable RefreshOutput : goerror + string.   (* Get "containers": Output *)
Variable BeginUpload : W.
Variable EndUpload : W -> W.
Variable cwManifestText : W -> string * error.
(* the FUSE meta file: opening fails, decoding fails, or a manifest *)
Variable ReadMetafile : string -> goerror + (goerror + string).
Variable CreateCollection : string -> goerror + string.

(** [sort.Strings] *)
Fixpoint insert_sorted (x : string) (l : list string) : list string :=
  match l with
  | [] => [x]
  | y :: l' => if String.leb x y then x :: l else y :: insert_sorted x l'
  end.

Definition sort_strings (l : list string) : list string :=
  fold_right insert_sorted [] l.

(** The mount points of kind "collection", sorted. *)
Definition collection_binds : list string :=
  sort_strings
    (map fst (List.filter (fun kv => String.eqb (Kind (snd kv)) "collection")
                          (map_to_list (Mounts runner_)))).

(** [strings.TrimPrefix] *)
Definition TrimPrefix (s p : string) : string :=
  if HasPrefix s p then drop_string (String.length p) s else s.

(** The last loop over [binds] in [CaptureOutput]: the manifests of the
    collections mounted below the output path. *)
Fixpoint append_binds (binds : list string) (st : state)
    (manifestText : string) : state * (string * error) :=
  match binds with
  | [] => (st, (manifestText, None))
  | bind :: rest =>
      let mnt := mount_of bind in
      let bindSuffix := TrimPrefix bind (OutputPath runner_) in
      if String.eqb bindSuffix bind || Nat.leb (String.length bindSuffix) 0
      then append_binds rest st manifestText
      else if ExcludeFromOutput mnt || Writable mnt
      then append_binds rest st manifestText
      else
        match getCollectionManifestForPath mnt bindSuffix st with
        | (st, (_, Some e)) => (st, (manifestText, Some e))
        | (st, (m, None)) => append_binds rest st (manifestText ++ m)
        end
  end.

(** [CaptureOutput]: the error and the value left in [OutputPDH]
    ([None]: not assigned).  [cache] is the global [outputCollections];
    [None] as a whole: the walk ran out of [fuel] or [depth]. *)
Definition CaptureOutput (fuel depth : nat) (cache : gmap string Collection)
  : option (error * option string) :=
  let refreshed :=
    if wantAPI runner_ then
      match RefreshOutput with
      | inl e => Some (Some e, None)
      | inr output =>
          if String.eqb output "" then None else Some (None, Some output)
      end
    else None in
  match refreshed with
  | Some res => Some res
  | None =>
  if String.eqb (HostOutputDir runner_) "" then Some (None, None) else
  match Stat fs (HostOutputDir runner_) with
  | inl _ => Some (Some (Err "While checking host output path"), None)
  | inr _ =>
  let binds := collection_binds in
  let collectionMetafile := HostOutputDir runner_ ++ "/.arvados#collection" in
  let walked : option (state * (string * error)) :=
    match Stat fs collectionMetafile with
    | inl _ =>
        (* Regular directory *)
        match
          Walk fs
            (fun path info err (acc : state * string) =>
               match UploadOutputFile fuel depth path info err binds (fst acc)
                       "" "" 0 with
               | None => None
               | Some (st', (m, None)) => Some ((st', snd acc ++ m), None)
               | Some (st', (_, Some e)) => Some ((st', snd acc), Some e)
               end)
            depth (HostOutputDir runner_) ((BeginUpload, cache), "")
        with
        | None => None
        | Some (((w, cache), manifestText), walkerr) =>
            let w := EndUpload w in
            match walkerr with
            | Some _ =>
                Some ((w, cache),
                      ("", Some (Err "While uploading output files")))
            | None =>
                match cwManifestText w with
                | (_, Some _) =>
                    Some ((w, cache),
                          ("", Some (Err "While uploading output files")))
                | (m, None) => Some ((w, cache), (manifestText ++ m, None))
                end
            end
        end
    | inr _ =>
        (* FUSE mount directory *)
        match ReadMetafile collectionMetafile with
        | inl _ =>
            Some ((BeginUpload, cache),
                  ("", Some (Err "While opening FUSE metafile")))
        | inr (inl _) =>
            Some ((BeginUpload, cache),
                  ("", Some (Err "While reading FUSE metafile")))
        | inr (inr text) => Some ((BeginUpload, cache), (text, None))
        end
    end in
  match walked with
  | None => None
  | Some (_, (_, Some e)) => Some (Some e, None)
  | Some (st, (manifestText, None)) =>
      match append_binds binds st manifestText with
      | (_, (_, Some e)) => Some (Some e, None)
      | (_, (manifestText, None)) =>
          let manifestText := fst (Extract manifestText "." ".") in
          match CreateCollection manifestText with
          | inl _ => Some (Some (Err "While creating output collection"), None)
          | inr pdh => Some (None, Some pdh)
          end
      end
  end
  end
  end.

End Capture.

(** ** Example file systems *)

(** An output directory [/host/out] that holds the file [a.txt], the
    link [link -> /etc/passwd] and the link [loop -> /host/out/loop]. *)
Definition escape_fs : filesystem :=
  mem_fs
    [("/host/out", ("out", Directory ["a.txt"; "link"; "loop"]));
     ("/host/out/a.txt", ("a.txt", File (list_byte_of_string "abc")));
     ("/host/out/link", ("link", Link "/etc/passwd"));
     ("/host/out/loop", ("loop", Link "/host/out/loop"))].

(** An output directory [/host/out] that holds the file [a.txt] and the
    link [copy -> /host/out/a.txt]. *)
Definition inside_fs : filesystem :=
  mem_fs
    [("/host/out", ("out", Directory ["a.txt"; "copy"]));
     ("/host/out/a.txt", ("a.txt", File (list_byte_of_string "abc")));
     ("/host/out/copy", ("copy", Link "/host/out/a.txt"))].

Definition escape_runner : runner :=
  mkRunner "zzzzz-dz642-000000000000000" "/host/out" "/out" ∅ false.

(** A runner with the read-only collection mount [/keep/in]. *)
Definition mounted_runner : runner :=
  mkRunner "zzzzz-dz642-000000000000000" "/host/out" "/out"
           {[ "/keep/in" := mkMount "collection" false
                                    "900150983cd24fb0d6963f7d28e17f72+3" ""
                                    false ]}
           false.

(** The output directory of [mounted_runner] with the file [a.txt], the
    link [data -> /keep/in/a.txt] into the mount and the link
    [link -> /etc/passwd]. *)
Definition mounted_escape_fs : filesystem :=
  mem_fs
    [("/host/out", ("out", Directory ["a.txt"; "data"; "link"]));
     ("/host/out/a.txt", ("a.txt", File (list_byte_of_string "abc")));
     ("/host/out/data", ("data", Link "/keep/in/a.txt"));
     ("/host/out/link", ("link", Link "/etc/passwd"));
     ("/etc/passwd", ("passwd", File (list_byte_of_string "root:x:0:0")))].

(** The same directory with the link [evil -> /host/out/../../etc/passwd]
    in place of [link].  The kernel resolves the [..] of a path: under
    the name [/host/out/../../etc/passwd], [os.Lstat] and the uploader
    find the file [/etc/passwd] of the host. *)
Definition dotdot_fs : filesystem :=
  mem_fs
    [("/host/out", ("out", Directory ["a.txt"; "data"; "evil"]));
     ("/host/out/a.txt", ("a.txt", File (list_byte_of_string "abc")));
     ("/host/out/data", ("data", Link "/keep/in/a.txt"));
     ("/host/out/evil", ("evil", Link "/host/out/../../etc/passwd"));
     ("/host/out/../../etc/passwd",
      ("passwd", File (list_byte_of_string "root:x:0:0")));
     ("/etc/passwd", ("passwd", File (list_byte_of_string "root:x:0:0")))].

(** An uploader that records, for every file, the name it gets in the
    output and the path it is read from, and lists these pairs as its
    manifest; and a store that holds the collection of the mount. *)
Definition record_file (relocated tgt : string) (w : list (string * string))
  : list (string * string) * error :=
  ((w ++ [(relocated, tgt)])%list, None).

Definition list_uploads (w : list (string * string)) : string * error :=
  (String.concat ";" (map (fun e => fst e ++ "<-" ++ snd e) w), None).

Definition mounted_collection (pdh : string) : goerror + Collection :=
  if String.eqb pdh "900150983cd24fb0d6963f7d28e17f72+3"
  then inr (mkCollection pdh
              (". 900150983cd24fb0d6963f7d28e17f72+3 0:3:a.txt"
               ++ String newline ""))
  else inl (Err "not found").

(** An uploader that accepts every file and a store without collections,
    for the examples. *)
Definition accept_file (relocated tgt : string) (w : list string)
  : list string * error :=
  ((w ++ [relocated])%list, None).

Definition no_collection (pdh : string) : goerror + Collection :=
  inl (Err "not found").

Definition extract_all (text path suffix : string) : string * error :=
  (text, None).

End Output.

(** * MD5 (crypto/md5 of the Go library, RFC 1321)

    Used to instantiate the hash of the block store in examples. *)

Module MD5.

Definition mask32 : Z := 4294967295.

Definition add32 (a b : Z) : Z := Z.land (a + b) mask32.

Definition rotl32 (x : Z) (c : Z) : Z :=
  Z.land (Z.lor (Z.shiftl x c) (Z.shiftr x (32 - c))) mask32.

Definition not32 (x : Z) : Z := Z.lxor x mask32.

(** floor(2^32 * abs(sin(i+1))) for i = 0..63 *)
Definition K : list Z :=
  [
   3614090360; 3905402710; 606105819; 3250441966;
   4118548399; 1200080426; 2821735955; 4249261313;
   1770035416; 2336552879; 4294925233; 2304563134;
   1804603682; 4254626195; 2792965006; 1236535329;
   4129170786; 3225465664; 643717713; 3921069994;
   3593408605; 38016083; 3634488961; 3889429448;
   568446438; 3275163606; 4107603335; 1163531501;
   2850285829; 4243563512; 1735328473; 2368359562;
   4294588738; 2272392833; 1839030562; 4259657740;
   2763975236; 1272893353; 4139469664; 3200236656;
   681279174; 3936430074; 3572445317; 76029189;
   3654602809; 3873151461; 530742520; 3299628645;
   4096336452; 1126891415; 2878612391; 4237533241;
   1700485571; 2399980690; 4293915773; 2240044497;
   1873313359; 4264355552; 2734768916; 1309151649;
   4149444226; 3174756917; 718787259; 3951481745
  ].

(** the per-round shift amounts *)
Definition shifts : list Z :=
  [
   7; 12; 17; 22; 7; 12; 17; 22; 7; 12; 17; 22; 7; 12; 17; 22;
   5; 9; 14; 20; 5; 9; 14; 20; 5; 9; 14; 20; 5; 9; 14; 20;
   4; 11; 16; 23; 4; 11; 16; 23; 4; 11; 16; 23; 4; 11; 16; 23;
   6; 10; 15; 21; 6; 10; 15; 21; 6; 10; 15; 21; 6; 10; 15; 21
  ].

(** One of the 64 operations on the state (A, B, C, D), with the 16 words
    [M] of the chunk. *)
Definition round (M : list Z) (st : Z * Z * Z * Z) (i : nat)
  : Z * Z * Z * Z :=
  let '(A, B, C, D) := st in
  let '(F, g) :=
    if Nat.ltb i 16 then
      (Z.lor (Z.land B C) (Z.land (not32 B) D), i)
    else if Nat.ltb i 32 then
      (Z.lor (Z.land D B) (Z.land (not32 D) C), Nat.modulo (5 * i + 1) 16)
    else if Nat.ltb i 48 then
      (Z.lxor (Z.lxor B C) D, Nat.modulo (3 * i + 5) 16)
    else
      (Z.lxor C (Z.lor B (not32 D)), Nat.modulo (7 * i) 16) in
  let F := add32 (add32 (add32 F A) (nth i K 0)) (nth g M 0) in
  (D, add32 B (rotl32 F (nth i shifts 0)), B, C).

(** Four bytes, least significant first, as a word *)
Definition word_of_bytes (b0 b1 b2 b3 : Z) : Z :=
  b0 + 256 * b1 + 65536 * b2 + 16777216 * b3.

Fixpoint words_of_bytes (bs : list Z) : list Z :=
  match bs with
  | b0 :: b1 :: b2 :: b3 :: rest => word_of_bytes b0 b1 b2 b3 :: words_of_bytes rest
  | _ => []
  end.

Definition process_chunk (st : Z * Z * Z * Z) (M : list Z) : Z * Z * Z * Z :=
  let '(a0, b0, c0, d0) := st in
  let '(A, B, C, D) := fold_left (round M) (seq 0 64) st in
  (add32 a0 A, add32 b0 B, add32 c0 C, add32 d0 D).

(** The words of the message, 16 at a time *)
Fixpoint chunks (n : nat) (ws : list Z) : list (list Z) :=
  match n with
  | O => []
  | S n' =>
      match ws with
      | [] => []
      | _ => firstn 16 ws :: chunks n' (skipn 16 ws)
      end
  end.

(** [n] as [k] bytes, least significant first *)
Fixpoint le_bytes (k : nat) (n : Z) : list Z :=
  match k with
  | O => []
  | S k' => Z.modulo n 256 :: le_bytes k' (Z.div n 256)
  end.

(** The message followed by the bit 1, zero bits up to 56 modulo 64
    bytes, and the length in bits as 8 bytes. *)
Definition pad (msg : list Z) : list Z :=
  let len := Z.of_nat (List.length msg) in
  let zeros := Z.to_nat (Z.modulo (55 - len) 64) in
  (msg ++ [128] ++ repeat 0 zeros ++ le_bytes 8 (Z.modulo (8 * len) (2 ^ 64)))%list.

Definition sum (msg : list Byte.byte) : list Z :=
  let bs := pad (map (fun b => Z.of_N (Byte.to_N b)) msg) in
  let ws := words_of_bytes bs in
  let '(a, b, c, d) :=
    fold_left process_chunk (chunks (List.length ws) ws)
      (1732584193, 4023233417, 2562383102, 271733878) in
  (le_bytes 4 a ++ le_bytes 4 b ++ le_bytes 4 c ++ le_bytes 4 d)%list.

Definition hex_digit (n : Z) : ascii :=
  match n with
  | 0 => "0" | 1 => "1" | 2 => "2" | 3 => "3" | 4 => "4" | 5 => "5"
  | 6 => "6" | 7 => "7" | 8 => "8" | 9 => "9" | 10 => "a" | 11 => "b"
  | 12 => "c" | 13 => "d" | 14 => "e" | _ => "f"
  end%char.

Fixpoint hex (bs : list Z) : string :=
  match bs with
  | [] => EmptyString
  | b :: rest =>
      String (hex_digit (Z.div b 16)) (String (hex_digit (Z.modulo b 16)) (hex rest))
  end.

(** [fmt.Sprintf("%x", md5.Sum(data))] *)
Definition hexsum (msg : list Byte.byte) : string := hex (sum msg).

End MD5.

(** * Writing a directory tree into a collection (upload.go) *)

Module Upload.
Import OS.

(** [manifest.FileStreamSegment] *)
Record FileStreamSegment : Type := mkSegment {
  SegPos : Z;
  SegLen : Z;
  SegName : string
}.

(** [CollectionFileWriter] together with its [ManifestStream].  A block
    handed to the uploader goroutine is hashed and stored at once: its
    locator (or the empty string and an error) is appended to [Blocks]. *)
Record CollectionFileWriter : Type := mkWriter {
  StreamName : string;
  Blocks : list string;
  FileStreamSegments : list FileStreamSegment;
  offset : Z;
  length : Z;
  Block : option (list Byte.byte);   (* nil, or the bytes in the block *)
  fn : string;
  errors : list goerror
}.

(** Modelled from the spec: [keepclient.BLOCKSIZE], a constant of the Go
    SDK; blocks of the content-addressed store hold at most 64 MiB
    ([TestSimpleUploadLarge] expects a first block of 67108864 bytes). *)
Definition BLOCKSIZE : Z := 67108864.

Section WithKeep.

(** [fmt.Sprintf("%x", md5.Sum(data))] *)
Variable md5hex : list Byte.byte -> string.
(** [IKeepClient.PutHB]: the locator under which the block was stored *)
Variable PutHB : string -> list Byte.byte -> goerror + string.

(** [m.uploader <- block], and what [goUpload] does with the block *)
Definition upload_block (m : CollectionFileWriter) (data : list Byte.byte)
  : CollectionFileWriter :=
  match PutHB (md5hex data) data with
  | inr signedHash =>
      mkWriter (StreamName m) (Blocks m ++ [signedHash]) (FileStreamSegments m)
               (offset m) (length m) (Block m) (fn m) (errors m)
  | inl e =>
      mkWriter (StreamName m) (Blocks m ++ [""]) (FileStreamSegments m)
               (offset m) (length m) (Block m) (fn m) (errors m ++ [e])
  end.

Definition set_Block (m : CollectionFileWriter) (b : option (list Byte.byte)) :=
  mkWriter (StreamName m) (Blocks m) (FileStreamSegments m)
           (offset m) (length m) b (fn m) (errors m).

(** The loop of [ReadFrom], one byte of the reader at a time: [block] is
    the block being filled; a full block is uploaded and a new one
    started.  At the end of the data the block stays, even when empty. *)
Fixpoint fill (data : list Byte.byte) (block : list Byte.byte)
    (m : CollectionFileWriter) : CollectionFileWriter :=
  match data with
  | [] => set_Block m (Some block)
  | b :: rest =>
      let block := (block ++ [b])%list in
      if Z.eqb (Z.of_nat (List.length block)) BLOCKSIZE
      then fill rest [] (upload_block m block)
      else fill rest block m
  end.

(** [ReadFrom] (and [Write]) for a reader that delivers [data] *)
Definition ReadFrom (data : list Byte.byte) (m : CollectionFileWriter)
  : CollectionFileWriter :=
  let m := fill data (default [] (Block m)) m in
  mkWriter (StreamName m) (Blocks m) (FileStreamSegments m)
           (offset m) (length m + Z.of_nat (List.length data)) (Block m) (fn m)
           (errors m).

(** [Close] *)
Definition Close (m : CollectionFileWriter) : CollectionFileWriter :=
  mkWriter (StreamName m) (Blocks m)
           (FileStreamSegments m ++ [mkSegment (offset m) (length m) (fn m)])
           (offset m) (length m) (Block m) (fn m) (errors m).

(** [NewFile] *)
Definition NewFile (name : string) (m : CollectionFileWriter)
  : CollectionFileWriter :=
  mkWriter (StreamName m) (Blocks m) (FileStreamSegments m)
           (offset m + length m) 0 (Block m) name (errors m).

(** A writer as [WalkFunc] creates it for a new stream *)
Definition new_stream (dir : string) : CollectionFileWriter :=
  mkWriter dir [] [] 0 0 None "" [].

(** The part of [Finish] for one stream: the pending block is uploaded. *)
Definition finish_stream (m : CollectionFileWriter) : CollectionFileWriter :=
  match Block m with
  | Some data => upload_block m data
  | None => m
  end.

(** [strings.Replace(s, " ", "\040", -1)] followed by
    [strings.Replace(s, "
", "", -1)] *)
Fixpoint escape_name (s : string) : string :=
  match s with
  | EmptyString => EmptyString
  | String c s' =>
      if Ascii.eqb c " "%char then "\040" ++ escape_name s'
      else if Ascii.eqb c newline then escape_name s'
      else String c (escape_name s')
  end.

Definition segment_text (f : FileStreamSegment) : string :=
  " " ++ pretty (SegPos f) ++ ":" ++ pretty (SegLen f) ++ ":"
      ++ escape_name (SegName f).

(** One line of [ManifestText] *)
Definition stream_text (v : CollectionFileWriter) : string :=
  match FileStreamSegments v with
  | [] => ""
  | _ =>
      (if String.eqb (StreamName v) "." then "."
       else "./" ++ escape_name (StreamName v))
      ++ (match Blocks v with
          | [] => " d41d8cd98f00b204e9800998ecf8427e+0"
          | bs => String.concat "" (map (fun b => " " ++ b) bs)
          end)
      ++ String.concat "" (map segment_text (FileStreamSegments v))
      ++ String newline ""
  end.

(** [ManifestText] of a collection writer with the given streams:
    [Finish] first, whose errors make the call fail. *)
Definition ManifestText (streams : list CollectionFileWriter)
  : string * error :=
  let streams := map finish_stream streams in
  match concat (map errors streams) with
  | _ :: _ => ("", Some (Err "upload failed"))
  | [] => (String.concat "" (map stream_text streams), None)
  end.

(** [WalkUpload]: [stripPrefix] and [streamMap] *)
Record WalkUpload : Type := mkWalkUpload {
  stripPrefix : string;
  streamMap : gmap string CollectionFileWriter
}.

Variable fs : filesystem.

(** The end of [WalkFunc], for a regular file: the stream of its
    directory is looked up or created, and the file is copied into it. *)
Definition stream_dir (stripPrefix path name : string) : string :=
  let lp := String.length path in
  let ls := String.length stripPrefix in
  let ln := String.length name in
  let dir :=
    if Nat.ltb (ls + ln + 1) lp
    then String.substring (ls + 1) (lp - ln - 1 - (ls + 1)) path
    else "" in
  if String.eqb dir "" then "." else dir.

Definition upload_file (path : string) (info : FileInfo) (m : WalkUpload)
  : WalkUpload * error :=
  let dir := stream_dir (stripPrefix m) path (Name info) in
  let name :=
    drop_string (String.length path - String.length (Name info)) path in
  let fileWriter :=
    NewFile name (default (new_stream dir) (streamMap m !! dir)) in
  match ReadFile fs path with
  | inl e =>
      (mkWalkUpload (stripPrefix m) (<[dir := fileWriter]> (streamMap m)),
       Some e)
  | inr data =>
      (mkWalkUpload (stripPrefix m)
         (<[dir := Close (ReadFrom data fileWriter)]> (streamMap m)),
       None)
  end.

(** [WalkFunc].  [fuel] bounds the nesting of walks started for symbolic
    links to directories, [depth] the directory depth of each walk. *)
Fixpoint WalkFunc (fuel depth : nat) (path : string) (info : option FileInfo)
    (err : error) (m : WalkUpload) : option (WalkUpload * error) :=
  match fuel with
  | O => None
  | S fuel' =>
  match err, info with
  | Some e, _ => Some (m, Some e)
  | None, None => None   (* Walk passes an info whenever the error is nil *)
  | None, Some info =>
  let resolved : option (WalkUpload * (goerror + FileInfo)) :=
    if IsSymlink info then
      match EvalSymlinks fs path with
      | inl e => Some (m, inl e)
      | inr targetPath =>
          match Stat fs targetPath with
          | inl e => Some (m, inl (Err ("stat symlink target " ++ targetPath)))
          | inr targetInfo =>
              if IsDir targetInfo then
                match ReadDirNames fs path with
                | inl e => Some (m, inl e)
                | inr rd =>
                    (fix each (rd : list string) (m : WalkUpload)
                       : option (WalkUpload * (goerror + FileInfo)) :=
                       match rd with
                       | [] => Some (m, inr targetInfo)
                       | ent :: rest =>
                           match Walk fs (WalkFunc fuel' depth) depth
                                   (Join fs path ent) m with
                           | None => None
                           | Some (m, _) => each rest m
                           end
                       end) rd m
                end
              else Some (m, inr targetInfo)
          end
      end
    else Some (m, inr info) in
  match resolved with
  | None => None
  | Some (m, inl e) => Some (m, Some e)
  | Some (m, inr targetInfo) =>
      if negb (IsRegular targetInfo) then Some (m, None)
      else Some (upload_file path info m)
  end
  end
  end.

(** [WriteTree] *)
Definition WriteTree (fuel depth : nat) (root : string)
  : option (string * error) :=
  match Walk fs (WalkFunc fuel depth) depth root (mkWalkUpload root ∅) with
  | None => None
  | Some (_, Some e) => Some ("", Some e)
  | Some (wu, None) => Some (ManifestText ((map_to_list (streamMap wu)).*2))
  end.

End WithKeep.

(** A block store that answers with the unsigned locator, the hash and
    the size of the block, as the [KeepTestClient] of the tests does. *)
Definition unsigned_PutHB (hash : string) (data : list Byte.byte)
  : goerror + string :=
  inr (hash ++ "+" ++ pretty (Z.of_nat (List.length data))).

(** The directories of upload_test.go. *)
Definition bytes (s : string) : list Byte.byte := list_byte_of_string s.

Definition simple_tree : memfs :=
  [("/tmp/t", ("t", Directory ["file1.txt"]));
   ("/tmp/t/file1.txt", ("file1.txt", File (bytes "foo")))].

Definition three_files_tree : memfs :=
  [("/tmp/t", ("t", Directory ["file1.txt"; "file2.txt"; "file3.txt";
                                "ignore.fifo"]));
   ("/tmp/t/file1.txt", ("file1.txt", File (bytes "foo")));
   ("/tmp/t/file2.txt", ("file2.txt", File (bytes "bar")));
   ("/tmp/t/file3.txt", ("file3.txt", Link "/tmp/t/file2.txt"));
   ("/tmp/t/ignore.fifo", ("ignore.fifo", Fifo))].

Definition subdir_tree : memfs :=
  [("/tmp/t", ("t", Directory ["file1.txt"; "subdir"]));
   ("/tmp/t/file1.txt", ("file1.txt", File (bytes "foo")));
   ("/tmp/t/subdir", ("subdir", Directory ["file2.txt"]));
   ("/tmp/t/subdir/file2.txt", ("file2.txt", File (bytes "bar")))].

Definition empty_subdir_tree : memfs :=
  [("/tmp/t", ("t", Directory ["file1.txt"; "subdir"]));
   ("/tmp/t/file1.txt", ("file1.txt", File (bytes "foo")));
   ("/tmp/t/subdir", ("subdir", Directory []))].

Definition empty_file_tree : memfs :=
  [("/tmp/t", ("t", Directory ["file1.txt"]));
   ("/tmp/t/file1.txt", ("file1.txt", File []))].

Definition test_WriteTree (m : memfs) : option (string * error) :=
  WriteTree MD5.hexsum unsigned_PutHB (mem_fs m) 3 5 "/tmp/t".

End Upload.

(** * Requests, containers and their priorities (API server) *)

Module Store.

Inductive ContainerState : Type :=
| Queued | Locked | Running | Complete | Cancelled.

Inductive RequestState : Type :=
| Uncommitted | Committed | Final.

Definition ContainerState_eqb (a b : ContainerState) : bool :=
  match a, b with
  | Queued, Queued | Locked, Locked | Running, Running
  | Complete, Complete | Cancelled, Cancelled => true
  | _, _ => false
  end.

Definition RequestState_eqb (a b : RequestState) : bool :=
  match a, b with
  | Uncommitted, Uncommitted | Committed, Committed | Final, Final => true
  | _, _ => false
  end.

(** A row of the [containers] table (the columns the priority model and
    the locking use). *)
Record Container : Type := mkContainer {
  c_uuid : string;
  c_state : ContainerState;
  c_priority : Z;
  c_locked_by_uuid : option string
}.

(** A row of the [container_requests] table; [None] is SQL NULL. *)
Record ContainerRequest : Type := mkRequest {
  cr_uuid : string;
  cr_state : RequestState;
  cr_priority : option Z;
  cr_container_uuid : option string;
  cr_requesting_container_uuid : option string
}.

Record db : Type := mkDb {
  containers : list Container;
  container_requests : list ContainerRequest
}.

Definition empty_db : db := mkDb [] [].

(** [state IN ('Queued', 'Locked', 'Running')] *)
Definition active (s : ContainerState) : bool :=
  match s with
  | Queued | Locked | Running => true
  | Complete | Cancelled => false
  end.

(** [priority>0 AND state='Committed'] on a request row; a NULL priority
    makes the comparison unknown, and the row is not selected. *)
Definition committed_positive (r : ContainerRequest) : bool :=
  match cr_priority r with
  | Some p => (0 <? p)%Z && RequestState_eqb (cr_state r) Committed
  | None => false
  end.

(** [SELECT container_uuid FROM container_requests WHERE priority>0 AND
    state='Committed'] *)
Definition wanted_container_uuids (d : db) : list (option string) :=
  map cr_container_uuid (List.filter committed_positive (container_requests d)).

(** SQL [x NOT IN (...)] for a non-NULL [x]: true only when no element
    equals [x] and no element is NULL. *)
Definition sql_not_in (x : string) (l : list (option string)) : bool :=
  forallb (fun y => match y with
                    | Some u => negb (String.eqb x u)
                    | None => false
                    end) l.

(** A Committed request that references the container [w]. *)
Definition references (w : string) (x : ContainerRequest) : bool :=
  RequestState_eqb (cr_state x) Committed
  && match cr_container_uuid x with
     | Some u => String.eqb u w
     | None => false
     end.

(** The priority a request contributes to the container [w]. *)
Definition contribution (w : string) (x : ContainerRequest) : option Z :=
  if references w x then cr_priority x else None.

(** Modelled from the spec: [Container#update_priority!] of container.rb
    is missing from the sources at hand; the derived priority of a Work
    Item is the maximum of the priorities of the Committed Requests that
    reference it, joined with 0. *)
Definition max_priority (d : db) (uuid : string) : Z :=
  fold_right Z.max 0 (omap (contribution uuid) (container_requests d)).

Definition set_priority (c : Container) (p : Z) : Container :=
  mkContainer (c_uuid c) (c_state c) p (c_locked_by_uuid c).

(** Modelled from the spec: [update_priority!] applied to the containers
    with the given uuid. *)
Definition update_priority_bang (uuid : string) (d : db) : db :=
  mkDb (map (fun c => if String.eqb (c_uuid c) uuid
                      then set_priority c (max_priority d uuid) else c)
            (containers d))
       (container_requests d).

(** The first statement of [UpdatePriority.update_priority]:
    priority>0 but should be 0. *)
Definition reset_unwanted (d : db) : db :=
  mkDb (map (fun c =>
               if active (c_state c) && (0 <? c_priority c)%Z
                  && sql_not_in (c_uuid c) (wanted_container_uuids d)
               then set_priority c 0 else c)
            (containers d))
       (container_requests d).

(** The rows of the join in the second statement: containers that are
    active with priority 0, once for every Committed request with
    positive priority that references them. *)
Definition starved (d : db) : list string :=
  flat_map (fun c =>
              if active (c_state c) && (c_priority c =? 0)%Z
              then map (fun _ => c_uuid c)
                     (List.filter
                        (fun r => committed_positive r
                                  && match cr_container_uuid r with
                                     | Some u => String.eqb u (c_uuid c)
                                     | None => false
                                     end)
                        (container_requests d))
              else [])
           (containers d).

(** The second statement: [map(&:update_priority!)] over those rows. *)
Definition raise_starved (d : db) : db :=
  fold_left (fun d uuid => update_priority_bang uuid d) (starved d) d.

(** [UpdatePriority.update_priority(nolock:)].  [owned] tells whether the
    process owns the tmp directory, [flock] whether the non-blocking lock
    was obtained. *)
Definition update_priority (owned nolock flock : bool) (d : db) : db :=
  if negb owned then d
  else if negb (nolock || flock) then d
  else raise_starved (reset_unwanted d).

(** ** The operations of the store

    container.rb and container_request.rb are missing from the sources at
    hand; the operations below follow section 4.1 of the specification. *)

Definition request_exists (d : db) (r : string) : bool :=
  existsb (fun x => String.eqb (cr_uuid x) r) (container_requests d).

Definition find_request (d : db) (r : string) : option ContainerRequest :=
  List.find (fun x => String.eqb (cr_uuid x) r) (container_requests d).

Definition find_container (d : db) (w : string) : option Container :=
  List.find (fun c => String.eqb (c_uuid c) w) (containers d).

Definition update_container (w : string) (f : Container -> Container) (d : db)
  : db :=
  mkDb (map (fun c => if String.eqb (c_uuid c) w then f c else c) (containers d))
       (container_requests d).

Definition opt_list {A : Type} (o : option A) : list A :=
  match o with Some x => [x] | None => [] end.

(** Modelled from the spec: the Work Items that a write [f] to the
    selected Requests touches, those the written Requests referenced or
    reference now. *)
Definition touched (sel : ContainerRequest -> bool)
    (f : ContainerRequest -> ContainerRequest) (d : db) : list string :=
  flat_map (fun r => if sel r
                     then (opt_list (cr_container_uuid r)
                           ++ opt_list (cr_container_uuid (f r)))%list
                     else [])
           (container_requests d).

(** Modelled from the spec: the store after the write itself. *)
Definition written (sel : ContainerRequest -> bool)
    (f : ContainerRequest -> ContainerRequest) (d : db) : db :=
  mkDb (containers d)
       (map (fun r => if sel r then f r else r) (container_requests d)).

(** Modelled from the spec: a write to the selected Requests; "priority
    recomputation is triggered synchronously on every Request write", for
    the Work Items the write touches. *)
Definition write_requests (sel : ContainerRequest -> bool)
    (f : ContainerRequest -> ContainerRequest) (d : db) : db :=
  fold_left (fun d u => update_priority_bang u d) (touched sel f d)
    (written sel f d).

Definition has_uuid (r : string) (x : ContainerRequest) : bool :=
  String.eqb (cr_uuid x) r.

Definition with_priority (p : Z) (x : ContainerRequest) : ContainerRequest :=
  mkRequest (cr_uuid x) (cr_state x) (Some p) (cr_container_uuid x)
            (cr_requesting_container_uuid x).

(** Modelled from the spec: the operations of the Work-Item Store. *)
Inductive op : Type :=
| Create (r : string) (requesting : option string)
| Commit (r : string) (priority : Z) (w : string)
| SetPriority (r : string) (value : Z)
| CancelRequest (r : string)
| Lock (w : string) (claimant : string)
| Unlock (w : string)
| ReportRunning (w : string) (claimant : string)
| ReportComplete (w : string)
| ReportCancelled (w : string).

(** Modelled from the spec: a Request is created Uncommitted, without
    priority and without Work Item. *)
Definition do_Create (r : string) (requesting : option string) (d : db)
  : db * bool :=
  if request_exists d r then (d, false)
  else (mkDb (containers d)
             (container_requests d
              ++ [mkRequest r Uncommitted None None requesting]), true).

(** Modelled from the spec: committing attaches the Request to the Work
    Item [w] when that exists and is not terminal, and creates [w]
    (Queued) when it does not exist; the priority must be non-negative. *)
Definition do_Commit (r : string) (p : Z) (w : string) (d : db) : db * bool :=
  match find_request d r with
  | Some x =>
      if RequestState_eqb (cr_state x) Uncommitted && (0 <=? p)%Z then
        let attach x :=
          mkRequest (cr_uuid x) Committed (Some p) (Some w)
                    (cr_requesting_container_uuid x) in
        match find_container d w with
        | Some c =>
            if active (c_state c)
            then (write_requests (has_uuid r) attach d, true)
            else (d, false)
        | None =>
            (write_requests (has_uuid r) attach
               (mkDb (containers d ++ [mkContainer w Queued 0 None])
                     (container_requests d)), true)
        end
      else (d, false)
  | None => (d, false)
  end.

(** Modelled from the spec: the priority of a Committed Request is
    edited; it stays non-negative. *)
Definition do_SetPriority (r : string) (p : Z) (d : db) : db * bool :=
  match find_request d r with
  | Some x =>
      if RequestState_eqb (cr_state x) Committed && (0 <=? p)%Z
      then (write_requests (has_uuid r) (with_priority p) d, true)
      else (d, false)
  | None => (d, false)
  end.

(** Modelled from the spec: cancelling a Request is setting its priority
    to 0. *)
Definition do_CancelRequest (r : string) (d : db) : db * bool :=
  do_SetPriority r 0 d.

(** Modelled from the spec: Queued -> Locked by compare-and-set on the
    state; the winner is recorded in [locked_by_uuid]. *)
Definition do_Lock (w claimant : string) (d : db) : db * bool :=
  match find_container d w with
  | Some c =>
      if ContainerState_eqb (c_state c) Queued
      then (update_container w
              (fun c => mkContainer (c_uuid c) Locked (c_priority c)
                                    (Some claimant)) d, true)
      else (d, false)
  | None => (d, false)
  end.

(** Modelled from the spec: Locked -> Queued (the claimant failed before
    the start); no guard. *)
Definition do_Unlock (w : string) (d : db) : db * bool :=
  match find_container d w with
  | Some c =>
      if ContainerState_eqb (c_state c) Locked
      then (update_container w
              (fun c => mkContainer (c_uuid c) Queued (c_priority c) None) d,
            true)
      else (d, false)
  | None => (d, false)
  end.

(** Modelled from the spec: Locked -> Running, reported by the Runner
    that holds the lock. *)
Definition do_ReportRunning (w claimant : string) (d : db) : db * bool :=
  match find_container d w with
  | Some c =>
      if ContainerState_eqb (c_state c) Locked
         && match c_locked_by_uuid c with
            | Some holder => String.eqb holder claimant
            | None => false
            end
      then (update_container w
              (fun c => mkContainer (c_uuid c) Running (c_priority c)
                                    (c_locked_by_uuid c)) d, true)
      else (d, false)
  | None => (d, false)
  end.

Definition requested_by (w : string) (x : ContainerRequest) : bool :=
  match cr_requesting_container_uuid x with
  | Some u => String.eqb u w
  | None => false
  end.

(** Modelled from the spec: Running -> Complete; the Requests of the Work
    Item become Final. *)
Definition do_ReportComplete (w : string) (d : db) : db * bool :=
  match find_container d w with
  | Some c =>
      if ContainerState_eqb (c_state c) Running then
        let d := update_container w
                   (fun c => mkContainer (c_uuid c) Complete (c_priority c) None)
                   d in
        (write_requests (references w)
           (fun x => mkRequest (cr_uuid x) Final (cr_priority x)
                               (cr_container_uuid x)
                               (cr_requesting_container_uuid x)) d, true)
      else (d, false)
  | None => (d, false)
  end.

(** Modelled from the spec: a Work Item that is not terminal is
    cancelled; every Committed Request referencing it becomes Final with
    priority 0, and every Request whose requesting Work Item it is gets
    priority 0. *)
Definition do_ReportCancelled (w : string) (d : db) : db * bool :=
  match find_container d w with
  | Some c =>
      if active (c_state c) then
        let d := update_container w
                   (fun c => mkContainer (c_uuid c) Cancelled (c_priority c) None)
                   d in
        let d := write_requests (references w)
                   (fun x => mkRequest (cr_uuid x) Final (Some 0)
                                       (cr_container_uuid x)
                                       (cr_requesting_container_uuid x)) d in
        (write_requests (requested_by w) (with_priority 0) d, true)
      else (d, false)
  | None => (d, false)
  end.


(** One operation: the new store, and whether the operation succeeded. *)
Definition step (o : op) (d : db) : db * bool :=
  match o with
  | Create r requesting => do_Create r requesting d
  | Commit r p w => do_Commit r p w d
  | SetPriority r p => do_SetPriority r p d
  | CancelRequest r => do_CancelRequest r d
  | Lock w claimant => do_Lock w claimant d
  | Unlock w => do_Unlock w d
  | ReportRunning w claimant => do_ReportRunning w claimant d
  | ReportComplete w => do_ReportComplete w d
  | ReportCancelled w => do_ReportCancelled w d
  end.

(** A sequence of operations, in the order in which the store serializes
    them, with the outcome of each. *)
Fixpoint run (ops : list op) (d : db) : db * list bool :=
  match ops with
  | [] => (d, [])
  | o :: rest =>
      let '(d, ok) := step o d in
      let '(d, oks) := run rest d in
      (d, ok :: oks)
  end.

(** The priority invariant of the specification. *)
Definition priority_invariant (d : db) : Prop :=
  forall c, In c (containers d) -> c_priority c = max_priority d (c_uuid c).

(** The operations that succeeded among those satisfying [sel]. *)
Fixpoint successes (sel : op -> bool) (ops : list op) (oks : list bool)
  : list op :=
  match ops, oks with
  | o :: ops', ok :: oks' =>
      if sel o && ok then o :: successes sel ops' oks'
      else successes sel ops' oks'
  | _, _ => []
  end.

(** The state of the container [w], if there is one. *)
Definition state_of (d : db) (w : string) : option ContainerState :=
  c_state <$> find_container d w.

(** The states behind Locked: once there, a container never comes back. *)
Definition past_locked (s : option ContainerState) : bool :=
  match s with
  | Some Running | Some Complete | Some Cancelled => true
  | _ => false
  end.

(** The container exists and is not Queued. *)
Definition taken (s : option ContainerState) : bool :=
  match s with
  | Some Queued | None => false
  | Some _ => true
  end.

(** Scenario B of the specification, and its continuation in the test
    "Container request max priority". *)
Definition scenario_B_ops : list op :=
  [Create "cr" None; Commit "cr" 5 "c";
   Create "cr2" None; Commit "cr2" 10 "c"].


(** The test "Container makes container request, then is cancelled". *)
Definition child_ops : list op :=
  [Create "cr" None; Commit "cr" 5 "c";
   Create "cr2" (Some "c"); Commit "cr2" 10 "c2"].

(** Two dispatchers, the first of which gives the container back. *)
Definition relock_ops : list op :=
  [Create "cr" None; Commit "cr" 1 "c";
   Lock "c" "dispatch1"; Unlock "c"; Lock "c" "dispatch2"].

Definition is_Lock_of (w : string) (o : op) : bool :=
  match o with Lock w' _ => String.eqb w' w | _ => false end.

Definition is_Running_of (w : string) (o : op) : bool :=
  match o with ReportRunning w' _ => String.eqb w' w | _ => false end.

Definition is_Unlock_of (w : string) (o : op) : bool :=
  match o with Unlock w' => String.eqb w' w | _ => false end.

End Store.

(** * The rate-limited logger of the runner *)

Module Logging.

(** Modelled from the spec: logging.go (ThrottledLogger, ArvLogWriter and
    their rate limiter) is missing from the sources at hand; what follows
    is section 4.4, step 5 of the specification, with the two
    destinations of every line as logging_test.go observes them: the file
    of the log collection in the block store ([kc.Content]) and the log
    events sent to the API server ([api.Content]). *)
Record limits : Type := mkLimits {
  crunchLogThrottleBytes : Z;      (* bytes per window *)
  crunchLogThrottleLines : Z;      (* lines per window *)
  crunchLimitLogBytesPerJob : Z;   (* bytes per job *)
  crunchLogThrottlePeriod : Z      (* length of the window, seconds *)
}.

(** Modelled from the spec: the defaults that logging_test.go restores. *)
Definition default_limits : limits := mkLimits 65536 1024 67108864 60.

(** Modelled from the spec: an entry of the event stream is a line of
    output or the explanatory message emitted when a cap is exceeded. *)
Inductive event : Type :=
| Line (text : string)
| Marker (text : string).

(** Modelled from the spec: the state of one log stream. *)
Record ArvLogWriter : Type := mkLog {
  committed : list string;        (* the lines in the log collection *)
  events : list event;            (* the events sent to the API server *)
  logThrottleBytesSoFar : Z;
  logThrottleLinesSoFar : Z;
  bytesLogged : Z;
  logThrottleIsOpen : bool;       (* no cap exceeded in this window *)
  jobLimitReached : bool;         (* the cap of the job was exceeded *)
  logThrottleResetTime : Z        (* end of the current window *)
}.

(** Modelled from the spec: a fresh stream, opened at time [now]. *)
Definition new_log (lim : limits) (now : Z) : ArvLogWriter :=
  mkLog [] [] 0 0 0 true false (now + crunchLogThrottlePeriod lim).

(** Modelled from the spec: the three explanatory messages, as
    logging_test.go expects them. *)
Definition exceeded_bytes (lim : limits) : string :=
  "Exceeded rate " ++ pretty (crunchLogThrottleBytes lim) ++ " bytes per "
  ++ pretty (crunchLogThrottlePeriod lim) ++ " seconds".

Definition exceeded_lines (lim : limits) : string :=
  "Exceeded rate " ++ pretty (crunchLogThrottleLines lim) ++ " lines per "
  ++ pretty (crunchLogThrottlePeriod lim) ++ " seconds".

Definition exceeded_job (lim : limits) : string :=
  "Exceeded log limit " ++ pretty (crunchLimitLogBytesPerJob lim)
  ++ " bytes (crunch_limit_log_bytes_per_job)".

(** Modelled from the spec: when the window is over a new one starts,
    unless the cap of the job has closed the stream for good. *)
Definition roll_window (lim : limits) (now : Z) (w : ArvLogWriter)
  : ArvLogWriter :=
  if (logThrottleResetTime w <? now)%Z then
    mkLog (committed w) (events w) 0 0 (bytesLogged w)
          (negb (jobLimitReached w)) (jobLimitReached w)
          (now + crunchLogThrottlePeriod lim)
  else w.

(** Modelled from the spec: one line written at time [now].  The line
    always reaches the log collection; it reaches the event stream while no
    cap is exceeded; the line that exceeds a cap is replaced by one
    explanatory message, and what follows is discarded for the rest of the
    window (or of the job). *)
Definition Write (lim : limits) (now : Z) (line : string) (w : ArvLogWriter)
  : ArvLogWriter :=
  let w := roll_window lim now w in
  let committed' := (committed w ++ [line])%list in
  if negb (logThrottleIsOpen w) then
    mkLog committed' (events w) (logThrottleBytesSoFar w)
          (logThrottleLinesSoFar w) (bytesLogged w) false (jobLimitReached w)
          (logThrottleResetTime w)
  else
    let size := Z.of_nat (String.length line) in
    let bytes := logThrottleBytesSoFar w + size in
    let lines := logThrottleLinesSoFar w + 1 in
    let total := bytesLogged w + size in
    if (crunchLimitLogBytesPerJob lim <? total)%Z then
      mkLog committed' (events w ++ [Marker (exceeded_job lim)]) bytes lines
            total false true (logThrottleResetTime w)
    else if (crunchLogThrottleBytes lim <? bytes)%Z then
      mkLog committed' (events w ++ [Marker (exceeded_bytes lim)]) bytes lines
            total false false (logThrottleResetTime w)
    else if (crunchLogThrottleLines lim <? lines)%Z then
      mkLog committed' (events w ++ [Marker (exceeded_lines lim)]) bytes lines
            total false false (logThrottleResetTime w)
    else
      mkLog committed' (events w ++ [Line line]) bytes lines total true false
            (logThrottleResetTime w).

(** Modelled from the spec: lines written one after the other, each with
    the time at which it is written. *)
Definition WriteAll (lim : limits) (lines : list (Z * string))
    (w : ArvLogWriter) : ArvLogWriter :=
  fold_left (fun w tl => Write lim (fst tl) (snd tl) w) lines w.

Definition is_marker (e : event) : bool :=
  match e with Marker _ => true | Line _ => false end.

(** The number of explanatory messages among the events. *)
Definition markers (es : list event) : nat :=
  List.length (List.filter is_marker es).

(** The limits and the two lines of
    [TestWriteLogsWithRateLimitThrottleBytes]. *)
Definition test_limits : limits := mkLimits 50 1024 67108864 60.

Definition hello : string :=
  "2015-12-29T15:51:45.000000001Z Hello world!" ++ String newline "".

Definition goodbye : string :=
  "2015-12-29T15:51:45.000000002Z Goodbye" ++ String newline "".

Definition test_log : ArvLogWriter :=
  WriteAll test_limits [(0, hello); (0, goodbye)] (new_log test_limits 0).

(** How often a line occurs in the log collection. *)
Definition occurrences (line : string) (lines : list string) : nat :=
  List.length (List.filter (String.eqb line) lines).

End Logging.

(** * Writing single files to a collection (Open, Write, Close) *)

Module Writer.
Import OS Upload.

Section WithKeep.
Variable md5hex : list Byte.byte -> string.
Variable PutHB : string -> list Byte.byte -> goerror + string.

(** What [goUpload] leaves in [Blocks] for a block with the bytes [data]:
    the locator [PutHB] answers with, or the empty string when it fails. *)
Definition block_locator (data : list Byte.byte) : string :=
  match PutHB (md5hex data) data with
  | inr signedHash => signedHash
  | inl _ => ""
  end.

(** The error [goUpload] collects for that block, if any. *)
Definition block_error (data : list Byte.byte) : option goerror :=
  match PutHB (md5hex data) data with
  | inr _ => None
  | inl e => Some e
  end.

(** [CollectionWriter.Open]: the stream and the file name are split at
    the first slash of [path]. *)
Definition Open (path : string) : CollectionFileWriter :=
  match String.index 0 "/" path with
  | Some i =>
      mkWriter ("./" ++ String.substring 0 i path) [] [] 0 0 None
               (drop_string (S i) path) []
  | None => mkWriter "." [] [] 0 0 None path []
  end.

(** [Write] is [ReadFrom] on a reader of the bytes. *)
Definition Write (p : list Byte.byte) (m : CollectionFileWriter)
  : CollectionFileWriter := ReadFrom md5hex PutHB p m.

(** What [WalkFunc] does with a stream for one file: [NewFile], the copy
    of the content, [Close]. *)
Definition write_file (m : CollectionFileWriter)
    (file : string * list Byte.byte) : CollectionFileWriter :=
  Close (ReadFrom md5hex PutHB (snd file) (NewFile (fst file) m)).

End WithKeep.

Definition set_length (m : CollectionFileWriter) (l : Z) : CollectionFileWriter :=
  mkWriter (StreamName m) (Blocks m) (FileStreamSegments m) (offset m) l
           (Block m) (fn m) (errors m).

(** The segments of files that follow each other from position [pos]. *)
Fixpoint segments_from (pos : Z) (files : list (string * list Byte.byte))
  : list FileStreamSegment :=
  match files with
  | [] => []
  | (name, data) :: rest =>
      mkSegment pos (Z.of_nat (List.length data)) name
      :: segments_from (pos + Z.of_nat (List.length data)) rest
  end.

(** The log text of [TestWriteLogs] in logging_test.go. *)
Definition test_logtext : string :=
  "2015-12-29T15:51:45.000000001Z Hello world!" ++ String newline
    ("2015-12-29T15:51:45.000000002Z Goodbye" ++ String newline "").

(** A directory [/tmp/t/real] that lists an entry which does not exist,
    and the link [/tmp/t/d] to it. *)
Definition dangling_tree : memfs :=
  [("/tmp/t/d", ("d", Link "/tmp/t/real"));
   ("/tmp/t/real", ("real", Directory ["gone"]))].

(** The bytes of a stream that the segment [seg] refers to. *)
Definition segment_bytes (seg : FileStreamSegment) (stream : list Byte.byte)
  : list Byte.byte :=
  firstn (Z.to_nat (SegLen seg)) (skipn (Z.to_nat (SegPos seg)) stream).

End Writer.

(** * The attach stream of the container (ProcessDockerAttach) *)

Module Attach.
Import OS.

(** An [io.Reader] over a stream that delivers [pending] and then ends
    with [final] ([EOF], or the error of a broken connection). *)
Record reader : Type := mkReader {
  pending : list Byte.byte;
  final : goerror
}.

(** [io.ErrUnexpectedEOF] *)
Definition ErrUnexpectedEOF : goerror := Err "unexpected EOF".

(** [io.ReadAtLeast(r, header, 8)] with a buffer of 8 bytes: the header,
    or the error ([EOF] only when no byte could be read). *)
Definition ReadAtLeast8 (r : reader) : reader * (goerror + list Byte.byte) :=
  if Nat.leb 8 (List.length (pending r))
  then (mkReader (skipn 8 (pending r)) (final r), inr (firstn 8 (pending r)))
  else
    (mkReader [] (final r),
     inl (match pending r, final r with
          | [], e => e
          | _ :: _, EOF => ErrUnexpectedEOF
          | _ :: _, e => e
          end)).

(** A writer that keeps what is written to it, such as the loggers of
    the runner and the files of the output directory; [Write] does not
    fail on it. *)
Record writer : Type := mkWriter {
  written : list Byte.byte;
  closed : bool
}.

Definition new_writer : writer := mkWriter [] false.

(** [io.CopyN(dst, src, n)]: [n] bytes are copied; when the stream ends
    before, what is left is copied and the error is that of the stream. *)
Definition CopyN (dst : writer) (src : reader) (n : Z)
  : writer * reader * error :=
  if (n <=? Z.of_nat (List.length (pending src)))%Z
  then (mkWriter (written dst ++ firstn (Z.to_nat n) (pending src)) (closed dst),
        mkReader (skipn (Z.to_nat n) (pending src)) (final src),
        None)
  else (mkWriter (written dst ++ pending src) (closed dst),
        mkReader [] (final src),
        Some (final src)).

Definition byte_at (h : list Byte.byte) (i : nat) : Z :=
  Z.of_N (Byte.to_N (nth i h Byte.x00)).

(** [int64(header[7]) | (int64(header[6]) << 8) | (int64(header[5]) << 16)
    | (int64(header[4]) << 24)] *)
Definition readsize (header : list Byte.byte) : Z :=
  Z.lor (Z.lor (Z.lor (byte_at header 7) (Z.shiftl (byte_at header 6) 8))
               (Z.shiftl (byte_at header 5) 16))
        (Z.shiftl (byte_at header 4) 24).

(** The streams of the runner that [ProcessDockerAttach] writes to, and
    the lines it sends to [CrunchLog]. *)
Record streams : Type := mkStreams {
  Stdout : writer;
  Stderr : writer;
  CrunchLog : list string
}.

Definition message (e : goerror) : string :=
  match e with
  | EOF => "EOF"
  | ErrNotInOutputDir => "Must point to path within the output directory"
  | Err m => m
  end.

(** The loop of [ProcessDockerAttach]: one frame of the Docker log
    protocol per turn.  Every turn but the last takes the 8 bytes of a
    header from the reader, so [fuel] beyond the number of headers in the
    stream is never used up. *)
Fixpoint demux (fuel : nat) (r : reader) (s : streams) : option (streams * error) :=
  match fuel with
  | O => None
  | S fuel' =>
      match ReadAtLeast8 r with
      | (_, inl EOF) => Some (s, None)
      | (_, inl e) => Some (s, Some e)
      | (r, inr header) =>
          if Z.eqb (byte_at header 0) 1 then
            let '(w, r, err) := CopyN (Stdout s) r (readsize header) in
            let s := mkStreams w (Stderr s) (CrunchLog s) in
            match err with
            | Some e => Some (s, Some e)
            | None => demux fuel' r s
            end
          else
            let '(w, r, err) := CopyN (Stderr s) r (readsize header) in
            let s := mkStreams (Stdout s) w (CrunchLog s) in
            match err with
            | Some e => Some (s, Some e)
            | None => demux fuel' r s
            end
      end
  end.

Definition Close (w : writer) : writer := mkWriter (written w) true.

(** [ProcessDockerAttach], for a runner without [statReporter]. *)
Definition ProcessDockerAttach (containerReader : reader) (s : streams)
  : option streams :=
  match demux (S (List.length (pending containerReader))) containerReader s with
  | None => None
  | Some (s, err) =>
      let log :=
        match err with
        | Some e =>
            (CrunchLog s ++ ["error reading docker logs: " +:+ message e])%list
        | None => CrunchLog s
        end in
      Some (mkStreams (Close (Stdout s)) (Close (Stderr s)) log)
  end.

(** A frame of the Docker log protocol as the daemon sends it: a header
    of 8 bytes and the payload. *)
Definition frame_bytes (f : list Byte.byte * list Byte.byte) : list Byte.byte :=
  (fst f ++ snd f)%list.

Definition to_stdout (f : list Byte.byte * list Byte.byte) : bool :=
  Z.eqb (byte_at (fst f) 0) 1.

(** A frame whose header has 8 bytes and announces the length of the
    payload. *)
Definition well_formed (f : list Byte.byte * list Byte.byte) : Prop :=
  List.length (fst f) = 8%nat
  /\ readsize (fst f) = Z.of_nat (List.length (snd f)).

Definition payloads (which : list Byte.byte * list Byte.byte -> bool)
    (frames : list (list Byte.byte * list Byte.byte)) : list Byte.byte :=
  concat (map snd (List.filter which frames)).

End Attach.

(** * The mounts of the container (SetupMounts)

    [SetupMounts], [SetupArvMountPoint] and [ContainerToken] of
    crunchrun.go.  The runner and the mount carry here the fields these
    functions use (the module [Output] has its own, smaller, records for
    the capture).  Of the messages of the errors only the fixed text is
    kept, not the values formatted into it. *)

Module Mounts.
Import OS.

(** [arvados.Mount] (sdk/go/arvados/container.go), the fields that
    [SetupMounts] reads; [Content] stands for the decoded JSON value. *)
Record Mount : Type := mkMount {
  Kind : string;
  Writable : bool;
  PortableDataHash : string;
  UUID : string;
  Path : string;
  Content : string
}.

Definition zeroMount : Mount := mkMount "" false "" "" "" "".

(** [type copyFile struct { src string; bind string }] *)
Record copyFile : Type := mkCopyFile {
  cf_src : string;
  cf_bind : string
}.

(** The fields of [ContainerRunner] and of its container record that
    [SetupMounts] reads and writes.  [ArvMount] holds the arguments
    arv-mount was started with; [temps] counts the calls of [MkTempDir]. *)
Record runner : Type := mkRunner {
  ArvMountPoint : string;
  HostOutputDir : string;
  Binds : list string;
  ContainerMounts : gmap string Mount;
  OutputPath : string;
  KeepCacheRAM : Z;
  wantAPI : bool;      (* RuntimeConstraints.API is set and true *)
  parentTemp : string;
  statInterval : string;   (* runner.statInterval.Seconds(), printed with %v *)
  token : string;
  ArvMount : option (list string);
  temps : nat
}.

Definition set_ArvMountPoint (r : runner) (p : string) : runner :=
  mkRunner p (HostOutputDir r) (Binds r) (ContainerMounts r) (OutputPath r)
           (KeepCacheRAM r) (wantAPI r) (parentTemp r) (statInterval r)
           (token r) (ArvMount r) (temps r).
Definition set_HostOutputDir (r : runner) (p : string) : runner :=
  mkRunner (ArvMountPoint r) p (Binds r) (ContainerMounts r) (OutputPath r)
           (KeepCacheRAM r) (wantAPI r) (parentTemp r) (statInterval r)
           (token r) (ArvMount r) (temps r).
Definition set_Binds (r : runner) (b : list string) : runner :=
  mkRunner (ArvMountPoint r) (HostOutputDir r) b (ContainerMounts r)
           (OutputPath r) (KeepCacheRAM r) (wantAPI r) (parentTemp r)
           (statInterval r) (token r) (ArvMount r) (temps r).
Definition set_ContainerMounts (r : runner) (m : gmap string Mount) : runner :=
  mkRunner (ArvMountPoint r) (HostOutputDir r) (Binds r) m (OutputPath r)
           (KeepCacheRAM r) (wantAPI r) (parentTemp r) (statInterval r)
           (token r) (ArvMount r) (temps r).
Definition set_token (r : runner) (t : string) : runner :=
  mkRunner (ArvMountPoint r) (HostOutputDir r) (Binds r) (ContainerMounts r)
           (OutputPath r) (KeepCacheRAM r) (wantAPI r) (parentTemp r)
           (statInterval r) t (ArvMount r) (temps r).
Definition set_ArvMount (r : runner) (a : option (list string)) : runner :=
  mkRunner (ArvMountPoint r) (HostOutputDir r) (Binds r) (ContainerMounts r)
           (OutputPath r) (KeepCacheRAM r) (wantAPI r) (parentTemp r)
           (statInterval r) (token r) a (temps r).
Definition set_temps (r : runner) (n : nat) : runner :=
  mkRunner (ArvMountPoint r) (HostOutputDir r) (Binds r) (ContainerMounts r)
           (OutputPath r) (KeepCacheRAM r) (wantAPI r) (parentTemp r)
           (statInterval r) (token r) (ArvMount r) n.

Definition add_Bind (r : runner) (b : string) : runner :=
  set_Binds r (Binds r ++ [b]).

(** The local variables of [SetupMounts] that live across its loops. *)
Record locals : Type := mkLocals {
  pdhOnly : bool;
  tmpcount : nat;
  arvMountCmd : list string;
  collectionPaths : list string;
  copyFiles : list copyFile;
  needCertMount : bool
}.

(** [strings.HasSuffix] *)
Definition HasSuffix (s suffix : string) : bool :=
  Nat.leb (String.length suffix) (String.length s)
  && String.eqb (drop_string (String.length s - String.length suffix) s) suffix.

(** The operations on the files of the host that staging performs. *)
Inductive staged : Type :=
| Copied (src dst : string)
| MadeDir (path : string).

Section WithHost.

(** The calls that leave crunchrun.go: [runner.MkTempDir] (the number of
    the call, the directory and the prefix), the API call behind
    [ContainerToken], [json.Marshal], [ioutil.WriteFile],
    [gitMount.extractTree], [runner.RunArvMount], [copyfile] and
    [os.MkdirAll] of the staging, [path.Clean], [path.Join] and
    [arvadosclient.CertFiles]. *)
Variable MkTempDir : nat -> string -> string -> goerror + string.
Variable GetAuth : goerror + string.
Variable fs : filesystem.
Variable Marshal : string -> goerror + string.
Variable WriteFile : string -> string -> error.
Variable extractTree : Mount -> string -> string -> error.
Variable RunArvMount : list string -> string -> error.
Variable copyfile : string -> string -> error.
Variable MkdirAll : string -> error.
Variable Clean : string -> string.
Variable pathJoin : string -> string -> string.
Variable CertFiles : list string.

(** A call of [runner.MkTempDir(runner.parentTemp, prefix)] *)
Definition mktemp (r : runner) (prefix : string) : runner * (goerror + string) :=
  (set_temps r (S (temps r)), MkTempDir (temps r) (parentTemp r) prefix).

(** [SetupArvMountPoint] *)
Definition SetupArvMountPoint (r : runner) (prefix : string) : runner * error :=
  if String.eqb (ArvMountPoint r) "" then
    match mktemp r prefix with
    | (r, inl e) => (r, Some e)
    | (r, inr dir) => (set_ArvMountPoint r dir, None)
    end
  else (r, None).

(** [ContainerToken] *)
Definition ContainerToken (r : runner) : runner * (goerror + string) :=
  if negb (String.eqb (token r) "") then (r, inr (token r))
  else
    match GetAuth with
    | inl e => (r, inl e)
    | inr t => (set_token r t, inr t)
    end.

(** The first half of the case [mnt.Kind == "collection" && bind !=
    "stdin"] of the switch: where the collection appears below the mount
    point of arv-mount. *)
Definition collection_src (bind : string) (mnt : Mount) (st : runner * locals)
  : goerror + runner * locals * string :=
  let '(r, l) := st in
  if negb (String.eqb (UUID mnt) "") && negb (String.eqb (PortableDataHash mnt) "")
  then inl (Err "Cannot specify both 'uuid' and 'portable_data_hash' for a collection mount")
  else if negb (String.eqb (UUID mnt) "") then
    if Writable mnt
    then inl (Err "Writing to existing collections currently not permitted.")
    else inr (r,
              mkLocals false (tmpcount l) (arvMountCmd l) (collectionPaths l)
                       (copyFiles l) (needCertMount l),
              ArvMountPoint r ++ "/by_id/" ++ UUID mnt)
  else if negb (String.eqb (PortableDataHash mnt) "") then
    if Writable mnt && negb (HasPrefix bind (OutputPath r ++ "/"))
    then inl (Err "Can never write to a collection specified by portable data hash")
    else
      let '(r, mnt) :=
        match String.index 0 "/" (PortableDataHash mnt) with
        | Some (S i) =>
            let idx := S i in
            let mnt :=
              mkMount (Kind mnt) (Writable mnt)
                      (String.substring 0 idx (PortableDataHash mnt))
                      (UUID mnt)
                      (Clean (drop_string idx (PortableDataHash mnt)))
                      (Content mnt) in
            (set_ContainerMounts r (<[bind := mnt]> (ContainerMounts r)), mnt)
        | _ => (r, mnt)
        end in
      let src := ArvMountPoint r ++ "/by_id/" ++ PortableDataHash mnt in
      let src :=
        if negb (String.eqb (Path mnt) "") && negb (String.eqb (Path mnt) ".")
        then
          src ++ "/"
          ++ (if HasPrefix (Path mnt) "./" then drop_string 2 (Path mnt)
              else if HasPrefix (Path mnt) "/" then drop_string 1 (Path mnt)
              else Path mnt)
        else src in
      inr (r, l, src)
  else
    inr (r,
         mkLocals (pdhOnly l) (S (tmpcount l))
                  (arvMountCmd l ++ ["--mount-tmp"; "tmp" ++ pretty (tmpcount l)])
                  (collectionPaths l) (copyFiles l) (needCertMount l),
         ArvMountPoint r ++ "/tmp" ++ pretty (tmpcount l)).

(** The second half: the bind of [src], or the file to stage. *)
Definition collection_bind (bind : string) (writable : bool) (src : string)
    (st : runner * locals) : runner * locals :=
  let '(r, l) := st in
  let '(r, l) :=
    if writable then
      if String.eqb bind (OutputPath r) then
        (add_Bind (set_HostOutputDir r src) (src ++ ":" ++ bind), l)
      else if HasPrefix bind (OutputPath r ++ "/") then
        (r,
         mkLocals (pdhOnly l) (tmpcount l) (arvMountCmd l)
                  (collectionPaths l)
                  (copyFiles l
                   ++ [mkCopyFile src
                         (HostOutputDir r
                          ++ drop_string (String.length (OutputPath r)) bind)])
                  (needCertMount l))
      else (add_Bind r (src ++ ":" ++ bind), l)
    else (add_Bind r (src ++ ":" ++ bind ++ ":ro"), l) in
  (r,
   mkLocals (pdhOnly l) (tmpcount l) (arvMountCmd l)
            (collectionPaths l ++ [src]) (copyFiles l) (needCertMount l)).

Definition collection_mount (bind : string) (mnt : Mount)
    (st : runner * locals) : goerror + runner * locals :=
  match collection_src bind mnt st with
  | inl e => inl e
  | inr (r, l, src) => inr (collection_bind bind (Writable mnt) src (r, l))
  end.

(** The body of the loop over the sorted mount points. *)
Definition setup_bind (tok : string) (st : runner * locals) (bind : string)
  : goerror + runner * locals :=
  let '(r, l) := st in
  let mnt := default zeroMount (ContainerMounts r !! bind) in
  if (String.eqb bind "stdout" || String.eqb bind "stderr")
     && negb (String.eqb (Kind mnt) "file")
  then inl (Err "Unsupported mount kind for stdout or stderr. Only 'file' is supported.")
  else if (String.eqb bind "stdout" || String.eqb bind "stderr")
          && negb (HasPrefix (Path mnt)
                     (if HasSuffix (OutputPath r) "/" then OutputPath r
                      else OutputPath r ++ "/"))
  then inl (Err "path does not start with OutputPath")
  else if String.eqb bind "stdin"
          && negb (String.eqb (Kind mnt) "collection")
          && negb (String.eqb (Kind mnt) "json")
  then inl (Err "Unsupported mount kind for stdin. Only 'collection' or 'json' are supported.")
  else
    let l :=
      if String.eqb bind "/etc/arvados/ca-certificates.crt"
      then mkLocals (pdhOnly l) (tmpcount l) (arvMountCmd l) (collectionPaths l)
                    (copyFiles l) false
      else l in
    if HasPrefix bind (OutputPath r ++ "/")
       && negb (String.eqb bind (OutputPath r ++ "/"))
       && negb (String.eqb (Kind mnt) "collection")
    then inl (Err "Only mount points of kind 'collection' are supported underneath the output_path")
    else if String.eqb (Kind mnt) "collection" && negb (String.eqb bind "stdin")
    then collection_mount bind mnt (r, l)
    else if String.eqb (Kind mnt) "tmp" then
      match mktemp r "tmp" with
      | (_, inl _) => inl (Err "While creating mount temp dir")
      | (r, inr tmpdir) =>
          match Stat fs tmpdir with
          | inl _ => inl (Err "While Stat on temp dir")
          | inr _ =>
              (* the error of os.Chmod is not looked at *)
              let r := add_Bind r (tmpdir ++ ":" ++ bind) in
              inr (if String.eqb bind (OutputPath r)
                   then set_HostOutputDir r tmpdir else r, l)
          end
      end
    else if String.eqb (Kind mnt) "json" then
      match Marshal (Content mnt) with
      | inl _ => inl (Err "encoding json data")
      | inr jsondata =>
          match mktemp r "json" with
          | (_, inl _) => inl (Err "creating temp dir")
          | (r, inr tmpdir) =>
              let tmpfn := Join fs tmpdir "mountdata.json" in
              match WriteFile tmpfn jsondata with
              | Some _ => inl (Err "writing temp file")
              | None => inr (add_Bind r (tmpfn ++ ":" ++ bind ++ ":ro"), l)
              end
          end
      end
    else if String.eqb (Kind mnt) "git_tree" then
      match mktemp r "git_tree" with
      | (_, inl _) => inl (Err "creating temp dir")
      | (r, inr tmpdir) =>
          match extractTree mnt tmpdir tok with
          | Some e => inl e
          | None => inr (add_Bind r (tmpdir ++ ":" ++ bind ++ ":ro"), l)
          end
      end
    else inr (r, l).

(** A loop that stops at the first error. *)
Fixpoint each_bind (tok : string) (binds : list string) (st : runner * locals)
  : goerror + runner * locals :=
  match binds with
  | [] => inr st
  | bind :: rest =>
      match setup_bind tok st bind with
      | inl e => inl e
      | inr st => each_bind tok rest st
      end
  end.

(** The mount of the certificates: the first of [CertFiles] that exists. *)
Fixpoint cert_bind (files : list string) (r : runner) : runner :=
  match files with
  | [] => r
  | certfile :: rest =>
      match Stat fs certfile with
      | inr _ => add_Bind r (certfile ++ ":/etc/arvados/ca-certificates.crt:ro")
      | inl _ => cert_bind rest r
      end
  end.

(** The loop over [collectionPaths] *)
Fixpoint check_paths (paths : list string) : error :=
  match paths with
  | [] => None
  | p :: rest =>
      match Stat fs p with
      | inl _ => Some (Err "While checking that input files exist")
      | inr _ => check_paths rest
      end
  end.

(** The callback of the walk that stages a writable directory. *)
Definition stage_entry (cp : copyFile) (walkpath : string)
    (walkinfo : option FileInfo) (walkerr : error) (done : list staged)
  : option (list staged * error) :=
  match walkerr, walkinfo with
  | Some e, _ => Some (done, Some e)
  | None, None => None   (* Walk passes an info whenever the error is nil *)
  | None, Some info =>
      let dst :=
        pathJoin (cf_bind cp) (drop_string (String.length (cf_src cp)) walkpath) in
      if IsRegular info then
        Some ((done ++ [Copied walkpath dst])%list, copyfile walkpath dst)
      else if IsDir info then
        Some ((done ++ [MadeDir dst])%list, MkdirAll dst)
      else Some (done, Some (Err "Source is not a regular file or directory"))
  end.

(** The loop over [copyFiles]; [None] when a walk runs out of [depth]. *)
Fixpoint stage (depth : nat) (files : list copyFile) (done : list staged)
  : option (list staged * error) :=
  match files with
  | [] => Some (done, None)
  | cp :: rest =>
      match Stat fs (cf_src cp) with
      | inl _ => Some (done, Some (Err "While staging writable file"))
      | inr dir =>
          let copied :=
            if IsDir dir then Walk fs (stage_entry cp) depth (cf_src cp) done
            else Some ((done ++ [Copied (cf_src cp) (cf_bind cp)])%list,
                       copyfile (cf_src cp) (cf_bind cp)) in
          match copied with
          | None => None
          | Some (done, Some _) =>
              Some (done, Some (Err "While staging writable file"))
          | Some (done, None) => stage depth rest done
          end
      end
  end.

(** [sort.Strings] of the keys of the map *)
Definition sorted_binds (r : runner) : list string :=
  Output.sort_strings (map fst (map_to_list (ContainerMounts r))).

(** [SetupMounts]: the error, or the runner and the files staged; the
    state of the runner after an error is not modelled.  [None] when a
    walk of the staging runs out of [depth]. *)
Definition SetupMounts (depth : nat) (r : runner)
  : option (goerror + runner * list staged) :=
  match SetupArvMountPoint r "keep" with
  | (_, Some _) => Some (inl (Err "While creating keep mount temp dir"))
  | (r, None) =>
  match ContainerToken r with
  | (_, inl _) => Some (inl (Err "could not get container token"))
  | (r, inr tok) =>
  let cmd := ["--foreground"; "--allow-other"; "--read-write";
              "--crunchstat-interval=" ++ statInterval r] in
  let cmd :=
    if (0 <? KeepCacheRAM r)%Z
    then (cmd ++ ["--file-cache"; pretty (KeepCacheRAM r)])%list else cmd in
  let r := set_Binds r [] in
  match each_bind tok (sorted_binds r) (r, mkLocals true 0 cmd [] [] true) with
  | inl e => Some (inl e)
  | inr (r, l) =>
  if String.eqb (HostOutputDir r) "" then
    Some (inl (Err "Output path does not correspond to a writable mount point"))
  else
  let r := if needCertMount l && wantAPI r then cert_bind CertFiles r else r in
  let cmd :=
    (arvMountCmd l
     ++ (if pdhOnly l then ["--mount-by-pdh"; "by_id"]
         else ["--mount-by-id"; "by_id"])
     ++ [ArvMountPoint r])%list in
  match RunArvMount cmd tok with
  | Some _ => Some (inl (Err "While trying to start arv-mount"))
  | None =>
  let r := set_ArvMount r (Some cmd) in
  match check_paths (collectionPaths l) with
  | Some e => Some (inl e)
  | None =>
  match stage depth (copyFiles l) [] with
  | None => None
  | Some (_, Some e) => Some (inl e)
  | Some (done, None) => Some (inr (r, done))
  end end end end end end.

End WithHost.

(** What the checks of the loop demand of the mount at [bind]. *)
Definition mount_ok (outputPath bind : string) (mnt : Mount) : Prop :=
  (bind = "stdout" \/ bind = "stderr" ->
   Kind mnt = "file"
   /\ HasPrefix (Path mnt)
        (if HasSuffix outputPath "/" then outputPath else outputPath ++ "/")
      = true)
  /\ (bind = "stdin" -> Kind mnt = "collection" \/ Kind mnt = "json")
  /\ (HasPrefix bind (outputPath ++ "/") = true -> bind <> outputPath ++ "/" ->
      Kind mnt = "collection")
  /\ (Kind mnt = "collection" -> bind <> "stdin" ->
      (UUID mnt = "" \/ PortableDataHash mnt = "")
      /\ (UUID mnt <> "" -> Writable mnt = false)
      /\ (PortableDataHash mnt <> "" -> Writable mnt = true ->
          HasPrefix bind (outputPath ++ "/") = true)).

(** A collection mounted by UUID. *)
Definition by_uuid (bind : string) (mnt : Mount) : bool :=
  String.eqb (Kind mnt) "collection" && negb (String.eqb bind "stdin")
  && negb (String.eqb (UUID mnt) "").

(** The environment [ArvMountCmd] gives to arv-mount: that of the
    runner ([os.Environ]) without its own [ARVADOS_API_TOKEN], and the
    token of the container. *)
Definition ArvMountCmd_Env (environ : list string) (token : string)
  : list string :=
  (fold_left (fun env s =>
                if negb (HasPrefix s "ARVADOS_API_TOKEN=")
                then (env ++ [s])%list else env)
             environ []
   ++ ["ARVADOS_API_TOKEN=" +:+ token])%list.

(** What one turn of the loop does to the state. *)
Definition step_ok (bind : string) (st st' : runner * locals) : Prop :=
  let mnt := default zeroMount (ContainerMounts (fst st) !! bind) in
  mount_ok (OutputPath (fst st)) bind mnt
  /\ OutputPath (fst st') = OutputPath (fst st)
  /\ ArvMountPoint (fst st') = ArvMountPoint (fst st)
  /\ wantAPI (fst st') = wantAPI (fst st)
  /\ (forall k, k <> bind ->
        ContainerMounts (fst st') !! k = ContainerMounts (fst st) !! k)
  /\ (exists added, Binds (fst st') = (Binds (fst st) ++ added)%list
      /\ (Kind mnt = "collection" -> bind <> "stdin" -> Writable mnt = false ->
          exists src, added = [src +:+ ":" +:+ bind +:+ ":ro"]))
  /\ (HostOutputDir (fst st') = HostOutputDir (fst st)
      \/ (bind = OutputPath (fst st)
          /\ (Kind mnt = "tmp"
              \/ (Kind mnt = "collection" /\ bind <> "stdin"
                  /\ Writable mnt = true))))
  /\ pdhOnly (snd st') = pdhOnly (snd st) && negb (by_uuid bind mnt)
  /\ (exists more, arvMountCmd (snd st') = (arvMountCmd (snd st) ++ more)%list).

(** A container with an output directory of kind [tmp], a collection
    given by portable data hash and one given by UUID, and a host on
    which every call succeeds. *)
Definition example_mounts : gmap string Mount :=
  {[ "/out" := mkMount "tmp" false "" "" "" "";
     "/in" := mkMount "collection" false
                      "59389a8f9ee9d399be35462a0f92541c+53/sub" "" "" "";
     "/ref" := mkMount "collection" false ""
                       "zzzzz-4zz18-000000000000000" "" "" ]}.

Definition example_runner : runner :=
  mkRunner "" "" [] example_mounts "/out" 0 false "/tmp" "10" "token" None 0.

Definition example_MkTempDir (n : nat) (parent prefix : string)
  : goerror + string :=
  inr (parent ++ "/" ++ prefix ++ pretty n).

Definition example_host : OS.filesystem :=
  OS.mem_fs
    [("/tmp/keep0/by_id/59389a8f9ee9d399be35462a0f92541c+53/sub",
      ("sub", OS.Directory []));
     ("/tmp/keep0/by_id/zzzzz-4zz18-000000000000000",
      ("zzzzz-4zz18-000000000000000", OS.Directory []));
     ("/tmp/tmp1", ("tmp1", OS.Directory []))].

Definition example_SetupMounts : option (OS.goerror + runner * list staged) :=
  SetupMounts example_MkTempDir (inr "token") example_host
    (fun c => inr c) (fun _ _ => None) (fun _ _ _ => None)
    (fun _ _ => None) (fun _ _ => None) (fun _ => None)
    (fun p => p) (fun a b => a ++ b) [] 5 example_runner.

Definition example_final : runner * list staged :=
  match example_SetupMounts with
  | Some (inr res) => res
  | _ => (example_runner, [])
  end.

End Mounts.

(** * Properties of the queue monitor *)

Module SqueueProofs.
Import Squeue.

Lemma Wait_failed Sscan (sqc : SqueueChecker) (polls : list poll) :
  forallb failed_poll polls = true -> Wait Sscan sqc polls = None.
Proof.
  induction polls as [|p polls IH]; simpl; intros H.
  - reflexivity.
  - apply andb_prop in H. destruct H as [Hp Hrest].
    destruct p; simpl in *.
    + discriminate.
    + apply IH. exact Hrest.
Qed.

Lemma Wait_first_ok Sscan (sqc : SqueueChecker) (failed : list poll)
    (stdout : string) (rest : list poll) :
  forallb failed_poll failed = true ->
  Wait Sscan sqc (failed ++ PollOk stdout :: rest)
  = Some ({| uuids := published Sscan stdout |}, rest).
Proof.
  induction failed as [|p failed IH]; simpl; intros H.
  - reflexivity.
  - apply andb_prop in H. destruct H as [Hp Hrest].
    destruct p; simpl in *.
    + discriminate.
    + apply IH. exact Hrest.
Qed.

Example scenario_C :
  let polls := [PollErr; PollOk ("jobname 999000 5" ++ String newline "")] in
  HasUUID Sscan_decimal fresh polls "jobname" = Some true
  /\ HasUUID Sscan_decimal fresh [PollErr] "jobname" = None
  /\ (forall sqc, Wait Sscan_decimal fresh polls = Some (sqc, []) ->
                  GetNiceness sqc "jobname" = 999000)
  /\ GetNiceness fresh "jobname" = -1.
Proof.
  repeat split.
  intros sqc H. vm_compute in H. inversion H. reflexivity.
Qed.

(** C10: for every job name that is not in the current snapshot,
    [GetNiceness] returns -1; this includes the checker before any
    successful poll, whose map is nil. *)
Theorem GetNiceness_absent (sqc : SqueueChecker) (uuid : string) :
  uuids sqc !! uuid = None ->
  GetNiceness sqc uuid = -1 /\ GetNiceness fresh uuid = -1.
Proof.
  intros H. unfold GetNiceness. rewrite H. split; reflexivity.
Qed.

Lemma GetNiceness_absent_witness :
  let sqc := fst (check Sscan_decimal fresh (PollOk "jobname 999000 5")) in
  uuids sqc !! "other" = None
  /\ GetNiceness sqc "jobname" = 999000
  /\ GetNiceness sqc "other" = -1 /\ GetNiceness fresh "other" = -1.
Proof.
  split; [reflexivity|]. split; [reflexivity|].
  apply (GetNiceness_absent
           (fst (check Sscan_decimal fresh (PollOk "jobname 999000 5")))
           "other").
  reflexivity.
Defined.

(** C5, as the specification states it, fails: [GetNiceness] answers from
    the snapshot at hand although no poll completed after the query was
    issued. *)
Lemma every_query_waits_counterexample :
  ~ (forall Sscan (q : query) (sqc : SqueueChecker) (polls : list poll),
        forallb failed_poll polls = true ->
        run_query Sscan q sqc polls = None).
Proof.
  intros H.
  specialize (H Sscan_decimal (QGetNiceness "jobname") fresh [] eq_refl).
  discriminate H.
Qed.

(** C5, amended: [HasUUID] and [All] do not return while every poll
    fails, and return what the snapshot of the first successful poll after
    the query holds; [GetNiceness] does not wait and reads the snapshot at
    hand. *)
Theorem queries_wait_except_GetNiceness Sscan (sqc : SqueueChecker)
    (failed : list poll) (uuid : string) :
  forallb failed_poll failed = true ->
  run_query Sscan (QHasUUID uuid) sqc failed = None
  /\ run_query Sscan QAll sqc failed = None
  /\ (forall stdout rest,
        run_query Sscan (QHasUUID uuid) sqc (failed ++ PollOk stdout :: rest)
        = Some (read_snapshot (QHasUUID uuid) (published Sscan stdout))
        /\ run_query Sscan QAll sqc (failed ++ PollOk stdout :: rest)
           = Some (read_snapshot QAll (published Sscan stdout)))
  /\ (forall polls,
        run_query Sscan (QGetNiceness uuid) sqc polls
        = Some (read_snapshot (QGetNiceness uuid) (uuids sqc))).
Proof.
  intros H. unfold run_query, HasUUID, All.
  rewrite (Wait_failed Sscan sqc failed H).
  split; [reflexivity|]. split; [reflexivity|]. split.
  - intros stdout rest.
    rewrite (Wait_first_ok Sscan sqc failed stdout rest H).
    split; reflexivity.
  - intros polls. reflexivity.
Qed.

Lemma queries_wait_except_GetNiceness_witness :
  let failed := [PollErr; PollErr] in
  forallb failed_poll failed = true
  /\ run_query Sscan_decimal (QHasUUID "jobname") fresh failed = None
  /\ run_query Sscan_decimal (QHasUUID "jobname") fresh
       (failed ++ [PollOk "jobname 999000 5"]) = Some (ABool true)
  /\ run_query Sscan_decimal (QGetNiceness "jobname") fresh failed
     = Some (AInt (-1)).
Proof.
  pose proof (queries_wait_except_GetNiceness Sscan_decimal fresh
                [PollErr; PollErr] "jobname" eq_refl) as (H1 & _ & H3 & H4).
  split; [reflexivity|]. split; [exact H1|]. split.
  - destruct (H3 "jobname 999000 5" []) as [H _]. rewrite H. reflexivity.
  - rewrite H4. reflexivity.
Defined.

End SqueueProofs.

(** * Properties of the runner *)

Module CrunchRunProofs.
Import CrunchRun.

Lemma final_update_state (r : ContainerRunner) :
  final_update r !! "state" = Some (VString (finalState r)).
Proof.
  unfold final_update.
  destruct (LogsPDH r), (String.eqb (finalState r) "Complete"),
    (ExitCode r), (OutputPDH r); simplify_map_eq; reflexivity.
Qed.

Lemma final_update_log (r : ContainerRunner) :
  final_update r !! "log" = VString <$> LogsPDH r.
Proof.
  unfold final_update.
  destruct (LogsPDH r), (String.eqb (finalState r) "Complete"),
    (ExitCode r), (OutputPDH r); simplify_map_eq; reflexivity.
Qed.

Lemma final_update_not_complete (r : ContainerRunner) :
  finalState r <> "Complete" ->
  final_update r !! "exit_code" = None /\ final_update r !! "output" = None.
Proof.
  intros H. unfold final_update.
  destruct (String.eqb_spec (finalState r) "Complete") as [E|_];
    [contradiction|].
  destruct (LogsPDH r); simplify_map_eq; split; reflexivity.
Qed.

Lemma final_update_complete (r : ContainerRunner) :
  finalState r = "Complete" ->
  final_update r !! "exit_code" = VInt <$> ExitCode r
  /\ final_update r !! "output" = VString <$> OutputPDH r.
Proof.
  intros H. unfold final_update. rewrite H. simpl.
  destruct (LogsPDH r), (ExitCode r), (OutputPDH r);
    simplify_map_eq; split; reflexivity.
Qed.

Example cancelled_run_report :
  final_reports cancelled_run
  = [ {[ "state" := VString "Cancelled"; "log" := VString "logs-pdh" ]} ].
Proof. vm_compute. reflexivity. Qed.

(** C6, as the specification states it, fails: the report of a cancelled
    run carries the log reference. *)
Lemma report_fields_only_on_Complete_counterexample :
  ~ (forall r : ContainerRunner,
        finalState r <> "Complete" ->
        final_update r !! "output" = None
        /\ final_update r !! "log" = None
        /\ final_update r !! "exit_code" = None).
Proof.
  intros H.
  pose (r := mkRunner "Cancelled" None (Some "logs-pdh") (Some "output-pdh")
                      "abcde" true []).
  assert (Hne : finalState r <> "Complete") by discriminate.
  destruct (H r Hne) as (_ & Hlog & _).
  rewrite final_update_log in Hlog. discriminate Hlog.
Qed.

(** C6, amended: the exit code and the output reference are reported
    only with state Complete; the log reference is reported with every
    state, whenever the logs were committed. *)
Theorem report_fields (r : ContainerRunner) :
  finalState r <> "Complete" ->
  final_update r !! "exit_code" = None
  /\ final_update r !! "output" = None
  /\ final_update r !! "log" = VString <$> LogsPDH r
  /\ final_update r !! "state" = Some (VString (finalState r)).
Proof.
  intros H. destruct (final_update_not_complete r H) as [He Ho].
  repeat split; auto using final_update_log, final_update_state.
Qed.

Lemma report_fields_witness :
  let r := mkRunner "Cancelled" (Some 137) (Some "logs-pdh")
                    (Some "output-pdh") "abcde" true [] in
  final_update r !! "exit_code" = None
  /\ final_update r !! "output" = None
  /\ final_update r !! "log" = Some (VString "logs-pdh")
  /\ final_update r !! "state" = Some (VString "Cancelled").
Proof.
  apply (report_fields
           (mkRunner "Cancelled" (Some 137) (Some "logs-pdh")
                     (Some "output-pdh") "abcde" true [])).
  discriminate.
Defined.

Lemma reported_states_app (r : ContainerRunner) (c : call) :
  reported_states (log_call r c)
  = (reported_states r
     ++ match c with
        | CallUpdateContainerFinal u => [u !! "state"]
        | _ => []
        end)%list.
Proof.
  unfold reported_states, final_reports. simpl.
  rewrite omap_app, map_app. destruct c; reflexivity.
Qed.

Lemma checkErr_settled (flag : Prop) (r : ContainerRunner) (err e : error) :
  settled flag r ->
  settled flag (fst (checkErr (r, err) e))
  /\ calls (fst (checkErr (r, err) e)) = calls r.
Proof.
  intros (Hfs & Hflag). unfold checkErr.
  destruct e as [m|]; [|split; [split|]; assumption || reflexivity].
  destruct (String.eqb (finalState r) "Complete"); simpl.
  - split; [|reflexivity]. split; auto.
  - split; [|reflexivity]. split; auto.
Qed.

Lemma checked_settled (flag : Prop)
    (f : ContainerRunner -> ContainerRunner * error) (c : call)
    (re : ContainerRunner * error) :
  (forall r, calls (fst (f r)) = (calls r ++ [c])%list
             /\ finalState (fst (f r)) = finalState r
             /\ cCancelled (fst (f r)) = cCancelled r) ->
  settled flag (fst re) ->
  settled flag (fst (checked f re))
  /\ calls (fst (checked f re)) = (calls (fst re) ++ [c])%list.
Proof.
  intros Hf Hs. unfold checked.
  destruct (Hf (fst re)) as (Hc & Hfs & Hcc).
  destruct (f (fst re)) as [r' e].
  change (fst (r', e)) with r' in Hc, Hfs, Hcc.
  assert (Hs' : settled flag r').
  { destruct Hs as (H1 & H2). unfold settled. rewrite Hfs. auto. }
  destruct (checkErr_settled flag r' (snd re) e Hs') as [H1 H2].
  split; [exact H1|]. rewrite H2. exact Hc.
Qed.

Lemma CaptureOutput_appends (w : world) (r : ContainerRunner) :
  calls (fst (CaptureOutput w r)) = (calls r ++ [CallCaptureOutput])%list
  /\ finalState (fst (CaptureOutput w r)) = finalState r
  /\ cCancelled (fst (CaptureOutput w r)) = cCancelled r.
Proof.
  unfold CaptureOutput. destruct (CaptureOutput_res w) as [e|[o|]];
    repeat split; reflexivity.
Qed.

Lemma stopHoststat_appends (w : world) (r : ContainerRunner) :
  calls (fst (stopHoststat w r)) = (calls r ++ [CallStopHoststat])%list
  /\ finalState (fst (stopHoststat w r)) = finalState r
  /\ cCancelled (fst (stopHoststat w r)) = cCancelled r.
Proof. repeat split; reflexivity. Qed.

Lemma CommitLogs_appends (w : world) (r : ContainerRunner) :
  calls (fst (CommitLogs w r)) = (calls r ++ [CallCommitLogs])%list
  /\ finalState (fst (CommitLogs w r)) = finalState r
  /\ cCancelled (fst (CommitLogs w r)) = cCancelled r.
Proof.
  unfold CommitLogs. simpl. destruct (LogsPDH r); simpl;
    [|destruct (CommitLogs_res w)]; repeat split; reflexivity.
Qed.

(** The finalization of a run that is past the state "Queued": output
    capture, log commit and the final report all take place, whatever
    fails on the way; the report says "Cancelled" when the body of [Run]
    failed or the flag was set when [IsCancelled] was tested. *)
Lemma finalize_captures (w : world) (r : ContainerRunner) (err : error) :
  finalState r = "Cancelled" \/ finalState r = "Complete" ->
  exists u,
    calls (fst (finalize w r err))
    = (calls r ++ [CallCaptureOutput; CallStopHoststat;
                   CallCommitLogs; CallUpdateContainerFinal u])%list
    /\ (u !! "state" = Some (VString "Complete")
        \/ u !! "state" = Some (VString "Cancelled"))
    /\ (err <> None
        \/ cCancelled (deliver (signal_before_finalize w) r) = true ->
        u !! "state" = Some (VString "Cancelled")).
Proof.
  intros Hfs. unfold finalize.
  set (flag := err <> None \/
               cCancelled (deliver (signal_before_finalize w) r) = true).
  (* the first checkErr *)
  destruct (checkErr (r, err) err) as [r0 err0] eqn:E0.
  assert (H0 : calls r0 = calls r /\ cCancelled r0 = cCancelled r
               /\ ContainerID r0 = ContainerID r
               /\ (finalState r0 = "Cancelled" \/ finalState r0 = "Complete")
               /\ (err <> None -> finalState r0 = "Cancelled")).
  { unfold checkErr in E0. destruct err as [m|].
    - destruct (String.eqb_spec (finalState r) "Complete") as [Ec|Ec];
        inversion E0; subst; simpl; repeat split; auto.
      destruct Hfs; [auto|contradiction].
    - inversion E0; subst. repeat split; auto. intros H; contradiction. }
  destruct H0 as (Hc0 & Hcc0 & Hid0 & Hfs0 & Herr0).
  set (r1 := deliver (signal_before_finalize w) r0).
  set (r2 := if cCancelled r1 then set_finalState r1 "Cancelled" else r1).
  assert (Hr1 : calls r1 = calls r0 /\ finalState r1 = finalState r0
                /\ cCancelled r1
                   = cCancelled (deliver (signal_before_finalize w) r)).
  { unfold r1, deliver, stop. rewrite Hid0.
    destruct (signal_before_finalize w), (String.eqb (ContainerID r) "");
      simpl; auto. }
  destruct Hr1 as (Hc1 & Hfs1 & Hcc1).
  assert (Hq : String.eqb (finalState r1) "Queued" = false).
  { rewrite Hfs1. destruct Hfs0 as [-> | ->]; reflexivity. }
  rewrite Hq.
  assert (Hr2 : calls r2 = calls r /\ settled flag r2).
  { unfold r2, settled, flag. rewrite <- Hcc1.
    destruct (cCancelled r1) eqn:Ecc.
    - simpl. rewrite Hc1, Hc0. repeat split; auto.
    - rewrite Hc1, Hc0, Hfs1. split; [reflexivity|].
      split; [exact Hfs0|].
      intros [H|H]; [auto|discriminate]. }
  destruct Hr2 as (Hc2 & Hs2).
  set (r3 := deliver (signal_during_finalize w) r2).
  assert (Hr3 : calls r3 = calls r /\ settled flag r3).
  { unfold r3, deliver, stop, settled.
    destruct (signal_during_finalize w), (String.eqb (ContainerID r2) "");
      simpl; split; assumption. }
  destruct Hr3 as (Hc2' & Hs2').
  destruct (checked_settled flag (CaptureOutput w) CallCaptureOutput
              (r3, err0) (CaptureOutput_appends w) Hs2') as [Hs3 Hc3].
  set (re3 := checked (CaptureOutput w) (r3, err0)) in *.
  destruct (checked_settled flag (stopHoststat w) CallStopHoststat
              re3 (stopHoststat_appends w) Hs3) as [Hs4 Hc4].
  set (re4 := checked (stopHoststat w) re3) in *.
  destruct (checked_settled flag (CommitLogs w) CallCommitLogs
              re4 (CommitLogs_appends w) Hs4) as [Hs5 Hc5].
  set (re5 := checked (CommitLogs w) re4) in *.
  exists (final_update (fst re5)).
  assert (Hc6 : calls (fst (checked (UpdateContainerFinal w) re5))
                = (calls (fst re5)
                   ++ [CallUpdateContainerFinal (final_update (fst re5))])%list).
  { unfold checked, UpdateContainerFinal, checkErr.
    destruct (UpdateContainerFinal_err w); simpl;
      [destruct (String.eqb (finalState (fst re5)) "Complete")|]; simpl; auto. }
  rewrite final_update_state.
  destruct Hs5 as (H51 & H52).
  split; [|split].
  - rewrite Hc6, Hc5, Hc4, Hc3. simpl. rewrite Hc2', <- !app_assoc.
    reflexivity.
  - destruct H51 as [-> | ->]; auto.
  - intros H. rewrite (H52 H). reflexivity.
Qed.

Lemma reported_states_calls (r : ContainerRunner) (cs : list call) :
  calls r = cs ->
  reported_states r
  = omap (fun c => match c with
                   | CallUpdateContainerFinal u => Some (u !! "state")
                   | _ => None
                   end) cs.
Proof.
  intros <-. unfold reported_states, final_reports.
  induction (calls r) as [|c cs IH]; [reflexivity|].
  destruct c; simpl; try exact IH. f_equal. exact IH.
Qed.

Ltac not_started :=
  cbv; intros H;
  repeat (destruct H as [H|H]; [discriminate H|]); contradiction.

(** A run that got as far as [StartContainer] has left the state
    "Queued" behind. *)
Lemma started_not_queued (w : world) :
  In CallStartContainer (calls (fst (Run_body w NewContainerRunner))) ->
  finalState (fst (Run_body w NewContainerRunner)) = "Cancelled"
  \/ finalState (fst (Run_body w NewContainerRunner)) = "Complete".
Proof.
  destruct w as [fetch load bl mounts create loghost lognode logcont
                 sig1 sig2 ucr sig3 startc waitr sig4 sig5 sig6 cap stopst
                 commit ucf].
  unfold Run_body.
  destruct fetch; [not_started|].
  destruct load as [s|].
  { cbv. destruct (bl s); intros H;
      repeat (destruct H as [H|H]; [discriminate H|]); contradiction. }
  destruct mounts; [not_started|].
  destruct create as [e|id]; [not_started|].
  destruct loghost; [not_started|].
  destruct lognode; [not_started|].
  destruct logcont; [not_started|].
  destruct id as [|c id], sig1, sig2, ucr, sig3, startc, sig4, waitr;
    cbv; auto; intros H;
    repeat (destruct H as [H|H]; [discriminate H|]); contradiction.
Qed.

Lemma Run_unfold (w : world) (r : ContainerRunner) :
  Run w r
  = (cleanup (fst (finalize w (fst (Run_body w r)) (snd (Run_body w r)))),
     snd (finalize w (fst (Run_body w r)) (snd (Run_body w r)))).
Proof.
  unfold Run. destruct (Run_body w r) as [r1 e1]. simpl.
  destruct (finalize w r1 e1) as [r2 e2]. reflexivity.
Qed.

(** A run whose body ends in state "Cancelled" after the calls [cs],
    none of which is a report, reports "Cancelled" once. *)
Lemma cancelled_body_reports (w : world) (r : ContainerRunner) (m : string) :
  Run_body w NewContainerRunner = (r, Some m) ->
  finalState r = "Cancelled" ->
  reported_states r = [] ->
  reported_states (fst (Run w NewContainerRunner)) = [Some (VString "Cancelled")].
Proof.
  intros Hbody Hfs Hrep. rewrite Run_unfold, Hbody. cbn [fst snd].
  destruct (finalize_captures w r (Some m) (or_introl Hfs)) as (u & Hc & _ & Hu).
  unfold cleanup. rewrite reported_states_app. rewrite app_nil_r.
  rewrite (reported_states_calls _ _ Hc).
  rewrite omap_app. simpl.
  rewrite <- (reported_states_calls r (calls r) eq_refl), Hrep. simpl.
  rewrite Hu; [reflexivity|]. left. discriminate.
Qed.

(** C4, as the specification states it, fails: an image that cannot be
    loaded because the node is broken leaves the reported state "Queued",
    and nothing is captured. *)
Lemma infrastructure_error_cancels_counterexample :
  ~ (forall w : world,
        fetchContainerRecord_err w = None ->
        LoadImage_err w <> None \/ SetupMounts_err w <> None ->
        reported_states (fst (Run w NewContainerRunner))
        = [Some (VString "Cancelled")]).
Proof.
  intros H.
  pose (w := world_image_error "Cannot connect to the Docker daemon" true).
  assert (E : reported_states (fst (Run w NewContainerRunner))
              = [Some (VString "Queued")]) by (vm_compute; reflexivity).
  assert (Hload : LoadImage_err w <> None \/ SetupMounts_err w <> None)
    by (left; discriminate).
  specialize (H w eq_refl Hload).
  rewrite E in H. discriminate H.
Qed.

(** C4, amended: an error of [SetupMounts], or an error of [LoadImage]
    that is not taken for a broken node, makes the run report
    "Cancelled"; an error of [LoadImage] that is taken for a broken node
    leaves the report at "Queued", without capture; and a run that got as
    far as [StartContainer] captures the output, commits the logs and
    sends its final report before it returns, whatever error or
    cancellation it meets. *)
Theorem Run_failure_semantics (w : world) :
  fetchContainerRecord_err w = None ->
  let r := fst (Run w NewContainerRunner) in
  (forall e, LoadImage_err w = Some e -> matchesBlacklist w e = false ->
             reported_states r = [Some (VString "Cancelled")])
  /\ (forall e, LoadImage_err w = Some e -> matchesBlacklist w e = true ->
                reported_states r = [Some (VString "Queued")]
                /\ steps r = [CallFetchContainerRecord; CallLoadImage;
                              CallUpdateContainerFinal ∅; CallCleanupDirs])
  /\ (forall e, LoadImage_err w = None -> SetupMounts_err w = Some e ->
                reported_states r = [Some (VString "Cancelled")])
  /\ (In CallStartContainer (calls (fst (Run_body w NewContainerRunner))) ->
      exists u,
        calls r
        = (calls (fst (Run_body w NewContainerRunner))
           ++ [CallCaptureOutput; CallStopHoststat; CallCommitLogs;
               CallUpdateContainerFinal u; CallCleanupDirs])%list
        /\ (u !! "state" = Some (VString "Complete")
            \/ u !! "state" = Some (VString "Cancelled"))).
Proof.
  intros Hfetch r. subst r. split; [|split; [|split]].
  - intros e Hload Hbl.
    eapply cancelled_body_reports with (m := "While loading container image: " ++ e).
    + unfold Run_body, checkBrokenNode. rewrite Hfetch, Hload, Hbl. reflexivity.
    + reflexivity.
    + reflexivity.
  - intros e Hload Hbl.
    assert (Hbody : Run_body w NewContainerRunner
                    = (mkRunner "Queued" None None None "" false
                                [CallFetchContainerRecord; CallLoadImage],
                       Some ("While loading container image: " ++ e))).
    { unfold Run_body, checkBrokenNode. rewrite Hfetch, Hload, Hbl.
      reflexivity. }
    rewrite Run_unfold, Hbody. simpl fst. simpl snd.
    unfold finalize, checkErr.
    destruct (signal_before_finalize w), (signal_during_finalize w); simpl;
      unfold reported_states, final_reports, steps; simpl;
      rewrite final_update_state; split; reflexivity.
  - intros e Hload Hmounts.
    eapply cancelled_body_reports with (m := "While setting up mounts: " ++ e).
    + unfold Run_body. rewrite Hfetch, Hload, Hmounts. reflexivity.
    + reflexivity.
    + reflexivity.
  - intros Hstart. rewrite Run_unfold. simpl fst.
    destruct (finalize_captures w (fst (Run_body w NewContainerRunner))
                (snd (Run_body w NewContainerRunner))
                (started_not_queued w Hstart)) as (u & Hc & Hst & _).
    exists u. split.
    + unfold cleanup. simpl. rewrite Hc, <- app_assoc. reflexivity.
    + exact Hst.
Qed.

Lemma Run_failure_semantics_witness :
  let w := world_running None (inl "context canceled") true
                         (inr (Some "output-pdh")) (inr "logs-pdh") in
  let user := world_image_error "no such image" false in
  let broken := world_image_error "Cannot connect to the Docker daemon" true in
  let mounts := mkWorld None None (fun _ => false) (Some "no output mount")
                        (inr "abcde") None None None false false None false
                        None (inr 0) false false false (inr None) None
                        (inr "logs-pdh") None in
  reported_states (fst (Run user NewContainerRunner))
  = [Some (VString "Cancelled")]
  /\ reported_states (fst (Run broken NewContainerRunner))
     = [Some (VString "Queued")]
  /\ reported_states (fst (Run mounts NewContainerRunner))
     = [Some (VString "Cancelled")]
  /\ In CallStartContainer (calls (fst (Run_body w NewContainerRunner)))
  /\ steps (fst (Run w NewContainerRunner))
     = [CallFetchContainerRecord; CallLoadImage; CallSetupMounts;
        CallCreateContainer; CallUpdateContainerRunning; CallStartContainer;
        CallWaitFinish; CallCaptureOutput; CallStopHoststat; CallCommitLogs;
        CallUpdateContainerFinal ∅; CallCleanupDirs]
  /\ reported_states (fst (Run w NewContainerRunner))
     = [Some (VString "Cancelled")]
  /\ exists u,
       calls (fst (Run w NewContainerRunner))
       = (calls (fst (Run_body w NewContainerRunner))
          ++ [CallCaptureOutput; CallStopHoststat; CallCommitLogs;
              CallUpdateContainerFinal u; CallCleanupDirs])%list
       /\ (u !! "state" = Some (VString "Complete")
           \/ u !! "state" = Some (VString "Cancelled")).
Proof.
  intros w user broken mounts.
  assert (Hin : In CallStartContainer
                   (calls (fst (Run_body w NewContainerRunner)))).
  { vm_compute. tauto. }
  split.
  { destruct (Run_failure_semantics user eq_refl) as (H & _).
    apply (H "no such image"); reflexivity. }
  split.
  { destruct (Run_failure_semantics broken eq_refl) as (_ & H & _).
    apply (H "Cannot connect to the Docker daemon"); reflexivity. }
  split.
  { destruct (Run_failure_semantics mounts eq_refl) as (_ & _ & H & _).
    apply (H "no output mount"); reflexivity. }
  split; [exact Hin|]. split; [reflexivity|]. split; [reflexivity|].
  destruct (Run_failure_semantics w eq_refl) as (_ & _ & _ & H).
  exact (H Hin).
Defined.

End CrunchRunProofs.

(** * Properties of output capture *)

(** * Facts about strings *)

Module StringFacts.

Lemma drop_string_app (a b : string) :
  drop_string (String.length a) (a +:+ b) = b.
Proof. induction a as [|c a IH]; simpl; [destruct b; reflexivity|exact IH]. Qed.

Lemma drop_string_app_S (a : string) (c : ascii) (b : string) :
  drop_string (S (String.length a)) (a +:+ String c b) = b.
Proof. induction a as [|c' a IH]; simpl; [destruct b; reflexivity|exact IH]. Qed.

Lemma length_app (a b : string) :
  String.length (a +:+ b) = (String.length a + String.length b)%nat.
Proof. induction a as [|c a IH]; simpl; [reflexivity|rewrite IH; reflexivity]. Qed.

Lemma app_cons_neq (a : string) (c : ascii) (b : string) :
  String.eqb (a +:+ String c b) a = false.
Proof.
  apply String.eqb_neq. intros H.
  apply (f_equal String.length) in H. rewrite length_app in H. simpl in H. lia.
Qed.

Lemma append_assoc (a b c : string) : (a +:+ b) +:+ c = a +:+ (b +:+ c).
Proof.
  induction a as [|x a IH]; [reflexivity|].
  change (String x ((a +:+ b) +:+ c) = String x (a +:+ (b +:+ c))).
  f_equal. exact IH.
Qed.

End StringFacts.

Module OutputProofs.
Import OS Output.

Local Arguments derefOutputSymlink : simpl never.
Local Arguments limitFollowSymlinks : simpl never.
Local Arguments drop_string : simpl never.

Section WalkVisits.

Variable fs : filesystem.
Context {S : Type}.
Variable walkFn : string -> option FileInfo -> error -> S -> option (S * error).

(** A walk that ends without error has called the callback, without
    error, on every entry it visits (stated for the entries that are not
    directories, for which the callback gets a nil error). *)
Lemma walk_visits (depth : nat) :
  forall path info s s',
    walk fs walkFn depth path info s = Some (s', None) ->
    forall p i, visits fs path info p i -> IsDir i = false ->
    exists s0 s1, walkFn p (Some i) None s0 = Some (s1, None).
Proof.
  induction depth as [|d IH]; intros path info s s' H p i V Hi; [discriminate|].
  destruct V as [path info|path info names name fi p i Hd Hr Hin Hl V].
  - cbn [walk] in H. rewrite Hi in H. cbn [negb] in H. eauto.
  - cbn [walk] in H. rewrite Hd, Hr in H. cbn [negb] in H.
    destruct (walkFn path (Some info) None s) as [[s1 [e1|]]|];
      try discriminate.
    cbn [is_err orb] in H.
    clear Hr. revert s1 H.
    induction names as [|n rest IHn]; intros s1 H; [destruct Hin|].
    destruct Hin as [->|Hin].
    + rewrite Hl in H.
      destruct (walk fs walkFn d (Join fs path name) fi s1)
        as [[s2 [e2|]]|] eqn:Ew; try discriminate.
      exact (IH _ _ _ _ Ew _ _ V Hi).
    + destruct (match Lstat fs (Join fs path n) with
                | inl e => _ | inr fileInfo => _ end)
        as [[s2 [e2|]]|]; try discriminate.
      exact (IHn Hin s2 H).
Qed.

End WalkVisits.

Section Deref.

Variable fs : filesystem.
Variable r : runner.

(** The loop follows no more links than it has iterations left. *)
Lemma derefLoop_hops (remaining followed : nat) (path : string)
    (info : FileInfo) (tgt readlinktgt nextlink : string) :
  (d_hops (derefLoop fs r remaining followed path info tgt readlinktgt nextlink)
   <= followed + remaining)%nat.
Proof.
  revert followed info tgt readlinktgt nextlink.
  induction remaining as [|n IH]; intros followed info tgt readlinktgt nextlink;
    cbn.
  - destruct (IsSymlink info); cbn; lia.
  - destruct (IsSymlink info); cbn; [|lia].
    destruct (Readlink fs nextlink) as [e|l]; cbn; [lia|].
    destruct (HasPrefix (host_target fs r path l) (HostOutputDir r +:+ "/"));
      cbn; [|lia].
    destruct (Lstat fs (host_target fs r path l)) as [e|i]; cbn; [lia|].
    etransitivity; [apply IH|]. lia.
Qed.

(** When the loop ends without error, a link was followed only to
    targets below the output directory of the host. *)
Lemma derefLoop_inside (remaining followed : nat) (path : string)
    (info : FileInfo) (tgt readlinktgt nextlink : string) :
  d_err (derefLoop fs r remaining followed path info tgt readlinktgt nextlink)
  = None ->
  IsSymlink info = true
  \/ HasPrefix tgt (HostOutputDir r +:+ "/") = true ->
  HasPrefix
    (d_tgt (derefLoop fs r remaining followed path info tgt readlinktgt nextlink))
    (HostOutputDir r +:+ "/") = true.
Proof.
  revert followed info tgt readlinktgt nextlink.
  induction remaining as [|n IH]; intros followed info tgt readlinktgt nextlink;
    cbn.
  - destruct (IsSymlink info); cbn; [discriminate|].
    intros _ [H|H]; [discriminate|exact H].
  - destruct (IsSymlink info); cbn;
      [|intros _ [H|H]; [discriminate|exact H]].
    destruct (Readlink fs nextlink) as [e|l]; cbn; [discriminate|].
    destruct (HasPrefix (host_target fs r path l) (HostOutputDir r +:+ "/"))
      eqn:Hin; cbn; [|discriminate].
    destruct (Lstat fs (host_target fs r path l)) as [e|i]; cbn;
      [discriminate|].
    intros Herr _. apply IH; [exact Herr|]. right. exact Hin.
Qed.

(** [derefOutputSymlink] follows at most [limitFollowSymlinks] links, and
    for a symbolic link it fails unless the target is below the output
    directory of the host. *)
Lemma derefOutputSymlink_checked (path : string) (info : FileInfo) :
  (d_hops (derefOutputSymlink fs r path info) <= limitFollowSymlinks)%nat
  /\ (IsSymlink info = true ->
      d_err (derefOutputSymlink fs r path info) = None ->
      HasPrefix (d_tgt (derefOutputSymlink fs r path info))
                (HostOutputDir r +:+ "/") = true).
Proof.
  unfold derefOutputSymlink. split.
  - apply (derefLoop_hops limitFollowSymlinks 0).
  - intros Hs Herr. apply derefLoop_inside; auto.
Qed.

Context {W : Type}.
Variable UploadFile : string -> string -> W -> W * error.
Variable GetCollection : string -> goerror + Collection.
Variable Extract : string -> string -> string -> string * error.

(** The test the code applies: resolving a symbolic link follows at most
    10 links; and when the path of the target, as [derefOutputSymlink]
    computes it, neither starts with the output directory of the host
    followed by a slash nor lies below a read-only collection mount,
    [UploadOutputFile] returns an error (which stops the walk) instead of
    skipping the entry.  The test is on the text of the path. *)
Theorem symlink_target_checked (fuel depth : nat) (path : string)
    (info : FileInfo) (binds : list string) (st : state)
    (relocateFrom relocateTo : string) (followed : nat) :
  IsSymlink info = true ->
  let d := derefOutputSymlink fs r path info in
  find_bind r binds (d_tgt d) = None ->
  HasPrefix (d_tgt d) (HostOutputDir r +:+ "/") = false ->
  (d_hops d <= 10)%nat
  /\ exists e,
       UploadOutputFile fs r UploadFile GetCollection Extract (S fuel) depth
         path (Some info) None binds st relocateFrom relocateTo followed
       = Some (st, ("", Some e)).
Proof.
  intros Hs d Hbind Hout.
  destruct (derefOutputSymlink_checked path info) as [Hhops Hinside].
  split; [exact Hhops|].
  assert (Hdir : IsDir info = false).
  { unfold IsSymlink in Hs. unfold IsDir. destruct (Mode info); congruence. }
  cbn. rewrite Hdir.
  destruct (Nat.leb limitFollowSymlinks followed); [eexists; reflexivity|].
  fold d. destruct (d_err d) as [[| |m]|] eqn:Herr.
  - eexists; reflexivity.
  - rewrite Hbind. eexists; reflexivity.
  - eexists; reflexivity.
  - exfalso. unfold d in Hout. rewrite (Hinside Hs Herr) in Hout.
    discriminate.
Qed.

(** An empty directory below the output directory that no mount covers
    is written to the manifest as a stream with the empty block and a
    file [.keep] of length 0. *)
Lemma empty_directory_placeholder (fuel depth : nat) (suffix : string)
    (info : FileInfo) (binds : list string) (st : state)
    (relocateFrom relocateTo : string) (followed : nat) :
  let path := HostOutputDir r +:+ "/" +:+ suffix in
  IsDir info = true ->
  Open fs path = None ->
  Readdirnames1 fs path = ([], Some EOF) ->
  covered_by_bind r binds (OutputPath r +:+ "/" +:+ suffix) = false ->
  UploadOutputFile fs r UploadFile GetCollection Extract (S fuel) depth
    path (Some info) None binds st relocateFrom relocateTo followed
  = Some (st, ("./" +:+ suffix
               +:+ " d41d8cd98f00b204e9800998ecf8427e+0 0:0:.keep"
               +:+ String newline "", None)).
Proof.
  intros path Hdir Hopen Hread Hcov. cbn. rewrite Hdir.
  fold path. rewrite Hopen, Hread. cbn.
  unfold path at 1.
  change ("/" +:+ suffix) with (String "/"%char suffix).
  rewrite StringFacts.app_cons_neq. cbn.
  unfold path.
  change ("/" +:+ suffix) with (String "/"%char suffix).
  rewrite StringFacts.drop_string_app, StringFacts.drop_string_app_S.
  change (String "/"%char suffix) with ("/" +:+ suffix).
  rewrite Hcov. reflexivity.
Qed.

(** When [UploadOutputFile] accepts a symbolic link, its target is below
    a read-only bind or below the output directory. *)
Lemma UploadOutputFile_accepts (fuel depth : nat) (path : string)
    (info : FileInfo) (binds : list string) (st st' : state)
    (relocateFrom relocateTo : string) (followed : nat) (m : string) :
  IsSymlink info = true ->
  UploadOutputFile fs r UploadFile GetCollection Extract fuel depth
    path (Some info) None binds st relocateFrom relocateTo followed
  = Some (st', (m, None)) ->
  let d := derefOutputSymlink fs r path info in
  find_bind r binds (d_tgt d) <> None
  \/ HasPrefix (d_tgt d) (HostOutputDir r +:+ "/") = true.
Proof.
  intros Hs H d.
  destruct (derefOutputSymlink_checked path info) as [_ Hinside].
  destruct fuel as [|fuel]; [discriminate|].
  assert (Hdir : IsDir info = false).
  { unfold IsSymlink in Hs. unfold IsDir. destruct (Mode info); congruence. }
  cbn in H. rewrite Hdir in H.
  destruct (Nat.leb limitFollowSymlinks followed); [discriminate|].
  fold d in H, Hinside.
  destruct (find_bind r binds (d_tgt d)) as [b|] eqn:Hb;
    [left; discriminate|].
  destruct (d_err d) as [[| |e]|] eqn:He; try discriminate.
  right. apply Hinside; auto.
Qed.

Variable RefreshOutput : goerror + string.
Variable BeginUpload : W.
Variable EndUpload : W -> W.
Variable cwManifestText : W -> string * error.
Variable ReadMetafile : string -> goerror + (goerror + string).
Variable CreateCollection : string -> goerror + string.

(** When [CaptureOutput] walks the output directory and returns without
    error, every symbolic link among the entries of the directory and of
    its subdirectories has its target below a read-only bind or below the
    output directory: none was skipped. *)
Lemma CaptureOutput_checks_links (fuel depth : nat)
    (cache : gmap string Collection) (pdh : string) (e : goerror)
    (root : FileInfo) (p : string) (i : FileInfo) :
  wantAPI r = false ->
  Stat fs (HostOutputDir r +:+ "/.arvados#collection") = inl e ->
  CaptureOutput fs r UploadFile GetCollection Extract RefreshOutput
    BeginUpload EndUpload cwManifestText ReadMetafile CreateCollection
    fuel depth cache = Some (None, Some pdh) ->
  Lstat fs (HostOutputDir r) = inr root ->
  visits fs (HostOutputDir r) root p i ->
  IsSymlink i = true ->
  let d := derefOutputSymlink fs r p i in
  find_bind r (collection_binds r) (d_tgt d) <> None
  \/ HasPrefix (d_tgt d) (HostOutputDir r +:+ "/") = true.
Proof.
  intros Hapi Hmeta H Hroot V Hs d.
  unfold CaptureOutput in H. rewrite Hapi in H.
  destruct (String.eqb (HostOutputDir r) ""); [discriminate|].
  destruct (Stat fs (HostOutputDir r)) as [e0|i0]; [discriminate|].
  rewrite Hmeta in H. unfold Walk in H. rewrite Hroot in H.
  match type of H with
  | context [walk fs ?f depth ?a ?b ?c] =>
      destruct (walk fs f depth a b c) as [[[[w c1] mt] [we|]]|] eqn:Ew;
        try discriminate
  end.
  assert (Hi : IsDir i = false).
  { unfold IsSymlink in Hs. unfold IsDir. destruct (Mode i); congruence. }
  destruct (walk_visits fs _ depth _ _ _ _ Ew p i V Hi) as (s0 & s1 & Hcb).
  cbn beta in Hcb.
  destruct (UploadOutputFile fs r UploadFile GetCollection Extract fuel depth
              p (Some i) None (collection_binds r) (fst s0) "" "" 0)
    as [[st' [m [e1|]]]|] eqn:Eu; try discriminate.
  exact (UploadOutputFile_accepts _ _ _ _ _ _ _ _ _ _ _ Hs Eu).
Qed.

End Deref.

(** A link that stays inside the output directory is captured: the file
    is uploaded under the name of the link. *)
Example inside_link_captured :
  CaptureOutput inside_fs escape_runner accept_file no_collection extract_all
    (inl (Err "unused")) [] (fun w => w) (fun w => ("", None))
    (fun p => inl no_such_file) (fun m => inr "pdh") 3 3 ∅
  = Some (None, Some "pdh")
  /\ visits inside_fs "/host/out" (mkFileInfo "out" 0 ModeDir)
       "/host/out/copy" (mkFileInfo "copy" 15 ModeSymlink)
  /\ UploadOutputFile inside_fs escape_runner accept_file no_collection
       extract_all 1 3 "/host/out/copy"
       (Some (mkFileInfo "copy" 15 ModeSymlink)) None [] ([], ∅) "" "" 0
     = Some ((["/host/out/copy"], ∅), ("", None)).
Proof.
  split; [vm_compute; reflexivity|]. split.
  - eapply (visits_below inside_fs "/host/out" _ ["a.txt"; "copy"] "copy");
      [reflexivity|reflexivity|right; left; reflexivity|reflexivity|].
    apply visits_here.
  - vm_compute. reflexivity.
Qed.

Example escaping_link_fails_capture :
  CaptureOutput escape_fs escape_runner accept_file no_collection extract_all
    (inl (Err "unused")) [] (fun w => w) (fun w => ("", None))
    (fun p => inl no_such_file) (fun m => inr "pdh") 3 3 ∅
  = Some (Some (Err "While uploading output files"), None).
Proof. vm_compute. reflexivity. Qed.

Example looping_link_gives_up :
  let d := derefOutputSymlink escape_fs escape_runner "/host/out/loop"
             (mkFileInfo "loop" 14 ModeSymlink) in
  d_hops d = 10%nat
  /\ d_err d
     = Some (Err "Followed more than 10 symlinks from path /host/out/loop").
Proof. vm_compute. split; reflexivity. Qed.

(** C7: the code does not confine every target.  Only relative targets
    are cleaned, and the prefix test is on the text of the path, so the
    link [evil -> /host/out/../../etc/passwd] passes it after one hop:
    [UploadOutputFile] hands the file /etc/passwd of the host to the
    uploader under the name of the link, and [CaptureOutput] returns an
    output collection without error.  The comment above [UploadOutputFile]
    in crunchrun.go says that every target must point to a path in the
    output directory or in a collection mount. *)
Theorem dotdot_link_escapes :
  let info := mkFileInfo "evil" 26 ModeSymlink in
  let d := derefOutputSymlink dotdot_fs mounted_runner "/host/out/evil" info in
  Lstat dotdot_fs "/host/out/evil" = inr info
  /\ d_tgt d = "/host/out/../../etc/passwd"
  /\ d_err d = None
  /\ d_hops d = 1%nat
  /\ find_bind mounted_runner (collection_binds mounted_runner) (d_tgt d)
     = None
  /\ UploadOutputFile dotdot_fs mounted_runner record_file mounted_collection
       extract_all 1 3 "/host/out/evil" (Some info) None
       (collection_binds mounted_runner) ([], ∅) "" "" 0
     = Some (([("/host/out/evil", "/host/out/../../etc/passwd")], ∅),
             ("", None))
  /\ CaptureOutput dotdot_fs mounted_runner record_file mounted_collection
       extract_all (inl (Err "unused")) [] (fun w => w) list_uploads
       (fun p => inl no_such_file) (fun m => inr m) 3 3 ∅
     = Some (None,
             Some (". 900150983cd24fb0d6963f7d28e17f72+3 0:3:a.txt"
                   ++ String newline
                        ("/host/out/a.txt<-/host/out/a.txt;"
                         ++ "/host/out/evil<-/host/out/../../etc/passwd"))).
Proof. vm_compute. repeat split; reflexivity. Qed.

Lemma symlink_target_checked_witness :
  let info := mkFileInfo "link" 11 ModeSymlink in
  let d := derefOutputSymlink escape_fs escape_runner "/host/out/link" info in
  IsSymlink info = true
  /\ d_tgt d = "/etc/passwd"
  /\ (d_hops d <= 10)%nat
  /\ exists e,
       UploadOutputFile escape_fs escape_runner accept_file no_collection
         extract_all 1 3 "/host/out/link" (Some info) None []
         ([], ∅) "" "" 0
       = Some (([], ∅), ("", Some e)).
Proof.
  intros info d.
  split; [reflexivity|]. split; [reflexivity|].
  apply (symlink_target_checked escape_fs escape_runner accept_file
           no_collection extract_all 0 3 "/host/out/link" info []
           ([], ∅) "" "" 0); reflexivity.
Defined.

End OutputProofs.

(** * Properties of the collection writer *)

Module UploadProofs.
Import OS Upload.

(** The output directory of Scenario D: a file, an empty directory, and
    a directory that holds one file of three bytes. *)
Definition empty_subdir_output : memfs :=
  [("/tmp/t", ("t", Directory ["file1.txt"; "subdir"; "subdir2"]));
   ("/tmp/t/file1.txt", ("file1.txt", File (bytes "foo")));
   ("/tmp/t/subdir", ("subdir", Directory []));
   ("/tmp/t/subdir2", ("subdir2", Directory ["file1.txt"]));
   ("/tmp/t/subdir2/file1.txt", ("file1.txt", File (bytes "foo")))].

Definition scenario_D_runner : Output.runner :=
  Output.mkRunner "zzzzz-dz642-000000000000000" "/tmp/t" "/out" ∅ false.

Definition nl : string := String newline "".

Example TestSimpleUpload :
  test_WriteTree simple_tree
  = Some (". acbd18db4cc2f85cedef654fccc4a4d8+3 0:3:file1.txt" ++ nl, None).
Proof. vm_compute. reflexivity. Qed.

Example TestSimpleUploadThreefiles :
  test_WriteTree three_files_tree
  = Some (". aa65a413921163458c52fea478d5d3ee+9 0:3:file1.txt 3:3:file2.txt 6:3:file3.txt" ++ nl, None).
Proof. vm_compute. reflexivity. Qed.

Example TestUploadEmptySubdir :
  test_WriteTree empty_subdir_tree
  = Some (". acbd18db4cc2f85cedef654fccc4a4d8+3 0:3:file1.txt" ++ nl, None).
Proof. vm_compute. reflexivity. Qed.

Example TestUploadEmptyFile :
  test_WriteTree empty_file_tree
  = Some (". d41d8cd98f00b204e9800998ecf8427e+0 0:0:file1.txt" ++ nl, None).
Proof. vm_compute. reflexivity. Qed.

Example TestSimpleUploadSubdir :
  test_WriteTree subdir_tree
  = Some (". acbd18db4cc2f85cedef654fccc4a4d8+3 0:3:file1.txt" ++ nl
          ++ "./subdir 37b51d194a7513e45b56f6524f2d51f2+3 0:3:file2.txt" ++ nl,
          None)
  \/ test_WriteTree subdir_tree
     = Some ("./subdir 37b51d194a7513e45b56f6524f2d51f2+3 0:3:file2.txt" ++ nl
             ++ ". acbd18db4cc2f85cedef654fccc4a4d8+3 0:3:file1.txt" ++ nl,
             None).
Proof. vm_compute. auto. Qed.

Section SingleFile.

Variable md5hex : list Byte.byte -> string.
Variable PutHB : string -> list Byte.byte -> goerror + string.
Variable fs : filesystem.

Lemma WalkFunc_plain (fuel depth : nat) (path : string) (info : FileInfo)
    (m : WalkUpload) :
  IsSymlink info = false ->
  WalkFunc md5hex PutHB fs (S fuel) depth path (Some info) None m
  = if negb (IsRegular info) then Some (m, None)
    else Some (upload_file md5hex PutHB fs path info m).
Proof. intros H. cbn [WalkFunc]. rewrite H. reflexivity. Qed.

(** Data that fits into the block being filled stays in that block. *)
Lemma fill_short (data block : list Byte.byte) (m : CollectionFileWriter) :
  (Z.of_nat (List.length block + List.length data) < BLOCKSIZE)%Z ->
  fill md5hex PutHB data block m = set_Block m (Some (block ++ data)%list).
Proof.
  revert block. induction data as [|b data IH]; intros block Hlt; cbn [fill].
  - rewrite app_nil_r. reflexivity.
  - destruct (Z.eqb_spec (Z.of_nat (List.length (block ++ [b])%list)) BLOCKSIZE)
      as [E|_].
    + rewrite length_app in E. cbn [List.length] in *. lia.
    + rewrite IH.
      * rewrite <- app_assoc. reflexivity.
      * rewrite length_app. cbn [List.length] in *. lia.
Qed.

Local Arguments WalkFunc : simpl never.

(** A directory that holds one plain file of three bytes, written to a
    store that answers with unsigned locators, gives the one-line
    manifest of Scenario D. *)
Lemma WriteTree_single_file (fuel depth : nat) (root : string)
    (rootinfo fileinfo : FileInfo) (data : list Byte.byte) :
  Lstat fs root = inr rootinfo ->
  Mode rootinfo = ModeDir ->
  ReadDirNames fs root = inr ["file1.txt"] ->
  Join fs root "file1.txt" = root +:+ "/file1.txt" ->
  Lstat fs (root +:+ "/file1.txt") = inr fileinfo ->
  Mode fileinfo = ModeRegular ->
  Name fileinfo = "file1.txt" ->
  ReadFile fs (root +:+ "/file1.txt") = inr data ->
  List.length data = 3%nat ->
  PutHB (md5hex data) data = inr (md5hex data +:+ "+3") ->
  WriteTree md5hex PutHB fs (S fuel) (S (S depth)) root
  = Some (". " +:+ md5hex data +:+ "+3 0:3:file1.txt" +:+ nl, None).
Proof.
  intros Hroot Hrmode Hnames Hjoin Hfile Hfmode Hfname Hread Hlen Hput.
  assert (Hrd : IsDir rootinfo = true) by (unfold IsDir; rewrite Hrmode; reflexivity).
  assert (Hrs : IsSymlink rootinfo = false) by (unfold IsSymlink; rewrite Hrmode; reflexivity).
  assert (Hrr : IsRegular rootinfo = false) by (unfold IsRegular; rewrite Hrmode; reflexivity).
  assert (Hfd : IsDir fileinfo = false) by (unfold IsDir; rewrite Hfmode; reflexivity).
  assert (Hfs : IsSymlink fileinfo = false) by (unfold IsSymlink; rewrite Hfmode; reflexivity).
  assert (Hfr : IsRegular fileinfo = true) by (unfold IsRegular; rewrite Hfmode; reflexivity).
  unfold WriteTree, Walk. rewrite Hroot.
  cbn [walk]. rewrite Hrd. cbn [negb]. rewrite Hnames.
  rewrite (WalkFunc_plain _ _ _ _ _ Hrs), Hrr. cbn [negb is_err orb].
  rewrite Hjoin, Hfile, Hfd. cbn [negb].
  rewrite (WalkFunc_plain _ _ _ _ _ Hfs), Hfr. cbn [negb].
  assert (Hup : upload_file md5hex PutHB fs (root +:+ "/file1.txt") fileinfo
                  {| stripPrefix := root; streamMap := ∅ |}
                = (mkWalkUpload root
                     {[ "." := Close (ReadFrom md5hex PutHB data
                                        (NewFile "file1.txt" (new_stream "."))) ]},
                   None)).
  { unfold upload_file. cbn [stripPrefix streamMap].
    rewrite Hfname, Hread.
    assert (Hdir : stream_dir root (root +:+ "/file1.txt") "file1.txt" = ".").
    { unfold stream_dir. rewrite StringFacts.length_app. cbn [String.length].
      replace (String.length root + 9 + 1)%nat
        with (String.length root + 10)%nat by lia.
      rewrite Nat.ltb_irrefl. reflexivity. }
    rewrite Hdir.
    assert (Hname : drop_string
                      (String.length (root +:+ "/file1.txt")
                       - String.length "file1.txt")
                      (root +:+ "/file1.txt") = "file1.txt").
    { rewrite StringFacts.length_app. cbn [String.length].
      replace (String.length root + 10 - 9)%nat
        with (S (String.length root)) by lia.
      apply (StringFacts.drop_string_app_S root "/"%char "file1.txt"). }
    rewrite Hname, lookup_empty. cbn [default].
    rewrite insert_empty. reflexivity. }
  rewrite Hup. cbn [streamMap].
  rewrite map_to_list_singleton. cbn [fmap list_fmap snd].
  destruct data as [|b1 [|b2 [|b3 [|b4 data]]]]; try discriminate Hlen.
  unfold ManifestText. cbn [map].
  assert (Hfin : finish_stream md5hex PutHB
                   (Close (ReadFrom md5hex PutHB [b1; b2; b3]
                             (NewFile "file1.txt" (new_stream "."))))
                 = mkWriter "." [md5hex [b1; b2; b3] +:+ "+3"]
                            [mkSegment 0 3 "file1.txt"] 0 3
                            (Some [b1; b2; b3]) "file1.txt" []).
  { unfold ReadFrom. cbn [new_stream NewFile Block default].
    rewrite fill_short by (cbn; unfold BLOCKSIZE; lia).
    unfold finish_stream, upload_block. cbn. rewrite Hput. reflexivity. }
  rewrite Hfin.
  transitivity (Some (". " +:+ (md5hex [b1; b2; b3] +:+ "+3")
                      +:+ " 0:3:file1.txt" +:+ nl, @None goerror));
    [vm_compute; reflexivity|].
  rewrite (StringFacts.append_assoc (md5hex [b1; b2; b3]) "+3").
  reflexivity.
Qed.

End SingleFile.

(** C8: a directory that holds exactly one plain file of three bytes is
    written as the manifest line [. <md5>+3 0:3:file1.txt]; and during
    output capture an empty directory below the output directory that no
    mount covers is written as a stream with the locator of the empty
    block, [d41d8cd98f00b204e9800998ecf8427e+0], and the segment
    [0:0:.keep]. *)
Theorem scenario_D
    (md5hex : list Byte.byte -> string)
    (PutHB : string -> list Byte.byte -> goerror + string)
    (fs : filesystem) (fuel depth : nat) (root : string)
    (rootinfo fileinfo : FileInfo) (data : list Byte.byte)
    (r : Output.runner) (W : Type)
    (UploadFile : string -> string -> W -> W * error)
    (GetCollection : string -> goerror + Output.Collection)
    (Extract : string -> string -> string -> string * error)
    (suffix : string) (info : FileInfo) (binds : list string)
    (st : Output.state) (relocateFrom relocateTo : string) (followed : nat) :
  Lstat fs root = inr rootinfo ->
  Mode rootinfo = ModeDir ->
  ReadDirNames fs root = inr ["file1.txt"] ->
  Join fs root "file1.txt" = root +:+ "/file1.txt" ->
  Lstat fs (root +:+ "/file1.txt") = inr fileinfo ->
  Mode fileinfo = ModeRegular ->
  Name fileinfo = "file1.txt" ->
  ReadFile fs (root +:+ "/file1.txt") = inr data ->
  List.length data = 3%nat ->
  PutHB (md5hex data) data = inr (md5hex data +:+ "+3") ->
  IsDir info = true ->
  Open fs (Output.HostOutputDir r +:+ "/" +:+ suffix) = None ->
  Readdirnames1 fs (Output.HostOutputDir r +:+ "/" +:+ suffix)
  = ([], Some EOF) ->
  Output.covered_by_bind r binds (Output.OutputPath r +:+ "/" +:+ suffix)
  = false ->
  WriteTree md5hex PutHB fs (S fuel) (S (S depth)) root
  = Some (". " +:+ md5hex data +:+ "+3 0:3:file1.txt" +:+ nl, None)
  /\ Output.UploadOutputFile fs r UploadFile GetCollection Extract
       (S fuel) depth (Output.HostOutputDir r +:+ "/" +:+ suffix)
       (Some info) None binds st relocateFrom relocateTo followed
     = Some (st, ("./" +:+ suffix
                  +:+ " d41d8cd98f00b204e9800998ecf8427e+0 0:0:.keep" +:+ nl,
                  None))
  /\ "d41d8cd98f00b204e9800998ecf8427e+0" = MD5.hexsum [] +:+ "+0".
Proof.
  intros H1 H2 H3 H4 H5 H6 H7 H8 H9 H10 H11 H12 H13 H14.
  split; [|split].
  - eapply WriteTree_single_file; eassumption.
  - apply OutputProofs.empty_directory_placeholder; assumption.
  - vm_compute. reflexivity.
Qed.

Lemma scenario_D_witness :
  WriteTree MD5.hexsum unsigned_PutHB (mem_fs empty_subdir_output) 1 2
    "/tmp/t/subdir2"
  = Some (". acbd18db4cc2f85cedef654fccc4a4d8+3 0:3:file1.txt" +:+ nl, None)
  /\ Output.UploadOutputFile (mem_fs empty_subdir_output) scenario_D_runner
       Output.accept_file Output.no_collection Output.extract_all
       1 0 "/tmp/t/subdir" (Some (mkFileInfo "subdir" 4096 ModeDir)) None []
       ([], ∅) "" "" 0
     = Some (([], ∅),
             ("./subdir d41d8cd98f00b204e9800998ecf8427e+0 0:0:.keep" +:+ nl,
              None))
  /\ "d41d8cd98f00b204e9800998ecf8427e+0" = MD5.hexsum [] +:+ "+0".
Proof.
  apply (scenario_D MD5.hexsum unsigned_PutHB (mem_fs empty_subdir_output)
           0 0 "/tmp/t/subdir2"
           (mkFileInfo "subdir2" 4096 ModeDir)
           (mkFileInfo "file1.txt" 3 ModeRegular) (bytes "foo")
           scenario_D_runner (list string)
           Output.accept_file Output.no_collection Output.extract_all
           "subdir" (mkFileInfo "subdir" 4096 ModeDir) [] ([], ∅) "" "" 0);
    reflexivity.
Defined.

End UploadProofs.

(** * Properties of the priority model *)

Module StoreProofs.
Import Store.

Lemma max_priority_requests (d d' : db) (u : string) :
  container_requests d' = container_requests d ->
  max_priority d' u = max_priority d u.
Proof. intros H. unfold max_priority. rewrite H. reflexivity. Qed.

Lemma max_priority_nonneg (d : db) (u : string) : 0 <= max_priority d u.
Proof.
  unfold max_priority.
  induction (omap (contribution u) (container_requests d)); simpl; lia.
Qed.

Lemma omap_map_ext {A B : Type} (f : A -> option B) (h : A -> A) (l : list A) :
  (forall x, In x l -> f (h x) = f x) ->
  omap f (map h l) = omap f l.
Proof.
  induction l as [|x l IH]; intros H; [reflexivity|].
  cbn. rewrite (H x (or_introl eq_refl)), IH; [reflexivity|].
  intros y Hy. apply H. right. exact Hy.
Qed.

(** Recomputing the priorities of the containers [us], one after the
    other. *)
Lemma recompute_containers (us : list string) (d : db) :
  let d' := fold_left (fun d u => update_priority_bang u d) us d in
  container_requests d' = container_requests d
  /\ containers d'
     = map (fun c => if existsb (String.eqb (c_uuid c)) us
                     then set_priority c (max_priority d (c_uuid c)) else c)
           (containers d).
Proof.
  revert d. induction us as [|u us IH]; intros d; cbn [fold_left existsb].
  - split; [reflexivity|]. rewrite map_id. reflexivity.
  - destruct (IH (update_priority_bang u d)) as [Hr Hc].
    split; [rewrite Hr; reflexivity|].
    rewrite Hc. unfold update_priority_bang at 2. cbn [containers].
    rewrite map_map. apply map_ext. intros c.
    assert (Hm : forall x, max_priority (update_priority_bang u d) x
                           = max_priority d x)
      by (intros x; apply max_priority_requests; reflexivity).
    destruct (String.eqb_spec (c_uuid c) u) as [E|E].
    + subst u. cbn [c_uuid set_priority orb]. rewrite Hm.
      destruct (existsb (String.eqb (c_uuid c)) us); reflexivity.
    + cbn [orb]. rewrite Hm. reflexivity.
Qed.

Lemma write_requests_unfold sel f d :
  write_requests sel f d
  = fold_left (fun d u => update_priority_bang u d) (touched sel f d)
      (written sel f d).
Proof. reflexivity. Qed.

Lemma write_requests_requests sel f d :
  container_requests (write_requests sel f d)
  = map (fun r => if sel r then f r else r) (container_requests d).
Proof.
  rewrite write_requests_unfold.
  destruct (recompute_containers (touched sel f d) (written sel f d)) as [H _].
  rewrite H. reflexivity.
Qed.

Lemma write_requests_containers sel f d :
  containers (write_requests sel f d)
  = map (fun c => if existsb (String.eqb (c_uuid c)) (touched sel f d)
                  then set_priority c
                         (max_priority (write_requests sel f d) (c_uuid c))
                  else c)
        (containers d).
Proof.
  rewrite write_requests_unfold.
  destruct (recompute_containers (touched sel f d) (written sel f d)) as [Hr Hc].
  rewrite Hc. cbn [written containers]. apply map_ext. intros c.
  rewrite (max_priority_requests (written sel f d) _ (c_uuid c) Hr).
  reflexivity.
Qed.

Lemma existsb_eqb_false (u : string) (l : list string) :
  existsb (String.eqb u) l = false -> ~ In u l.
Proof.
  intros H Hin. assert (existsb (String.eqb u) l = true).
  { apply existsb_exists. exists u. split; [exact Hin|apply String.eqb_refl]. }
  congruence.
Qed.

Lemma references_container (u : string) (r : ContainerRequest) :
  references u r = true -> cr_container_uuid r = Some u.
Proof.
  unfold references. intros H. apply andb_prop in H. destruct H as [_ H].
  destruct (cr_container_uuid r) as [v|]; [|discriminate].
  apply String.eqb_eq in H. subst. reflexivity.
Qed.

(** A write leaves the derived priority of the containers it does not
    touch as it was. *)
Lemma max_priority_untouched sel f d (u : string) :
  ~ In u (touched sel f d) ->
  max_priority (write_requests sel f d) u = max_priority d u.
Proof.
  intros Hu. unfold max_priority. rewrite write_requests_requests.
  f_equal. apply omap_map_ext. intros r Hr.
  destruct (sel r) eqn:Hsel; [|reflexivity].
  assert (Hnot : forall v, In v (opt_list (cr_container_uuid r)
                                 ++ opt_list (cr_container_uuid (f r)))%list ->
                           v <> u).
  { intros v Hv Heq. subst v. apply Hu. unfold touched.
    apply in_flat_map. exists r. rewrite Hsel. auto. }
  unfold contribution.
  destruct (references u (f r)) eqn:E1.
  - exfalso. apply references_container in E1.
    apply (Hnot u); [|reflexivity]. rewrite E1. apply in_or_app. right.
    left. reflexivity.
  - destruct (references u r) eqn:E2; [|reflexivity].
    exfalso. apply references_container in E2.
    apply (Hnot u); [|reflexivity]. rewrite E2. apply in_or_app. left.
    left. reflexivity.
Qed.

(** After a write the invariant holds, provided it held before for the
    containers that the write does not touch. *)
Lemma write_requests_invariant sel f d :
  (forall c, In c (containers d) -> ~ In (c_uuid c) (touched sel f d) ->
             c_priority c = max_priority d (c_uuid c)) ->
  priority_invariant (write_requests sel f d).
Proof.
  intros Hinv c' Hc'. rewrite write_requests_containers in Hc'.
  apply in_map_iff in Hc'. destruct Hc' as (c & Hc & Hin). subst c'.
  destruct (existsb (String.eqb (c_uuid c)) (touched sel f d)) eqn:E.
  - reflexivity.
  - apply existsb_eqb_false in E.
    rewrite (max_priority_untouched sel f d (c_uuid c) E).
    apply Hinv; assumption.
Qed.

Lemma update_container_invariant (w : string) (f : Container -> Container)
    (d : db) :
  (forall c, c_uuid (f c) = c_uuid c /\ c_priority (f c) = c_priority c) ->
  priority_invariant d -> priority_invariant (update_container w f d).
Proof.
  intros Hf Hinv c' Hc'. unfold update_container in Hc'. cbn in Hc'.
  apply in_map_iff in Hc'. destruct Hc' as (c & Hc & Hin). subst c'.
  rewrite (max_priority_requests d (update_container w f d)) by reflexivity.
  destruct (String.eqb (c_uuid c) w).
  - destruct (Hf c) as [-> ->]. apply Hinv. exact Hin.
  - apply Hinv. exact Hin.
Qed.

Lemma write_requests_preserves sel f d :
  priority_invariant d -> priority_invariant (write_requests sel f d).
Proof.
  intros Hinv. apply write_requests_invariant. intros c Hc _.
  apply Hinv. exact Hc.
Qed.

Lemma do_Create_invariant r requesting d :
  priority_invariant d -> priority_invariant (fst (do_Create r requesting d)).
Proof.
  intros Hinv. unfold do_Create.
  destruct (request_exists d r); [exact Hinv|].
  intros c Hc. cbn in Hc. rewrite (Hinv c Hc).
  unfold max_priority. cbn [fst container_requests].
  rewrite omap_app. cbn. rewrite app_nil_r. reflexivity.
Qed.

Lemma do_Commit_invariant r p w d :
  priority_invariant d -> priority_invariant (fst (do_Commit r p w d)).
Proof.
  intros Hinv. unfold do_Commit.
  destruct (find_request d r) as [x|] eqn:Hfind; [|exact Hinv].
  destruct (RequestState_eqb (cr_state x) Uncommitted && (0 <=? p)%Z);
    [|exact Hinv].
  destruct (find_container d w) as [c|].
  - destruct (active (c_state c)); [|exact Hinv].
    apply write_requests_preserves. exact Hinv.
  - cbn [fst]. apply write_requests_invariant. intros c Hc Hnot.
    cbn [containers] in Hc. apply in_app_or in Hc. destruct Hc as [Hc|Hc].
    + rewrite (Hinv c Hc). apply max_priority_requests. reflexivity.
    + destruct Hc as [<-|[]]. exfalso. apply Hnot. cbn [c_uuid].
      unfold touched. apply in_flat_map. exists x.
      apply find_some in Hfind. destruct Hfind as [Hin Heq].
      split; [exact Hin|]. unfold has_uuid. rewrite Heq. cbn.
      apply in_or_app. right. left. reflexivity.
Qed.

Lemma do_SetPriority_invariant r p d :
  priority_invariant d -> priority_invariant (fst (do_SetPriority r p d)).
Proof.
  intros Hinv. unfold do_SetPriority.
  destruct (find_request d r) as [x|]; [|exact Hinv].
  destruct (RequestState_eqb (cr_state x) Committed && (0 <=? p)%Z);
    [|exact Hinv].
  apply write_requests_preserves. exact Hinv.
Qed.

Ltac container_update :=
  apply update_container_invariant; [intros ?; split; reflexivity|assumption].

(** Every operation of the store keeps the priority invariant. *)
Lemma step_invariant (o : op) (d : db) :
  priority_invariant d -> priority_invariant (fst (step o d)).
Proof.
  intros Hinv. destruct o; cbn [step].
  - apply do_Create_invariant; exact Hinv.
  - apply do_Commit_invariant; exact Hinv.
  - apply do_SetPriority_invariant; exact Hinv.
  - apply do_SetPriority_invariant; exact Hinv.
  - unfold do_Lock. destruct (find_container d w) as [c|]; [|exact Hinv].
    destruct (ContainerState_eqb (c_state c) Queued); [|exact Hinv].
    cbn [fst]. container_update.
  - unfold do_Unlock. destruct (find_container d w) as [c|]; [|exact Hinv].
    destruct (ContainerState_eqb (c_state c) Locked); [|exact Hinv].
    cbn [fst]. container_update.
  - unfold do_ReportRunning.
    destruct (find_container d w) as [c|]; [|exact Hinv].
    match goal with |- context [if ?b then _ else _] => destruct b end;
      [|exact Hinv].
    cbn [fst]. container_update.
  - unfold do_ReportComplete.
    destruct (find_container d w) as [c|]; [|exact Hinv].
    destruct (ContainerState_eqb (c_state c) Running); [|exact Hinv].
    cbn [fst]. apply write_requests_preserves. container_update.
  - unfold do_ReportCancelled.
    destruct (find_container d w) as [c|]; [|exact Hinv].
    destruct (active (c_state c)); [|exact Hinv].
    cbn [fst]. apply write_requests_preserves, write_requests_preserves.
    container_update.
Qed.

Lemma run_fst (o : op) (ops : list op) (d : db) :
  fst (run (o :: ops) d) = fst (run ops (fst (step o d))).
Proof.
  cbn [run]. destruct (step o d) as [d1 ok]. cbn [fst].
  destruct (run ops d1). reflexivity.
Qed.

Lemma run_invariant (ops : list op) (d : db) :
  priority_invariant d -> priority_invariant (fst (run ops d)).
Proof.
  revert d. induction ops as [|o ops IH]; intros d Hinv; [exact Hinv|].
  rewrite run_fst. apply IH, step_invariant, Hinv.
Qed.

Lemma positive_max (l : list Z) :
  0 < fold_right Z.max 0 l -> exists x, In x l /\ 0 < x.
Proof.
  induction l as [|y l IH]; cbn; intros H; [lia|].
  destruct (Z.max_spec y (fold_right Z.max 0 l)) as [[_ E]|[_ E]];
    rewrite E in H.
  - destruct (IH H) as (x & Hx & Hpos). exists x. auto.
  - exists y. auto.
Qed.

Lemma max_bounds (l : list Z) (x : Z) :
  In x l -> x <= fold_right Z.max 0 l.
Proof.
  induction l as [|y l IH]; cbn; intros H; [contradiction|].
  destruct H as [->|H]; [lia|]. specialize (IH H). lia.
Qed.

Lemma In_omap {A B : Type} (f : A -> option B) (l : list A) (y : B) :
  In y (omap f l) <-> exists x, In x l /\ f x = Some y.
Proof.
  induction l as [|a l IH]; cbn.
  - split; [contradiction|]. intros (x & [] & _).
  - destruct (f a) as [b|] eqn:E; cbn.
    + rewrite IH. split.
      * intros [<-|(x & Hx & Hf)]; [exists a; auto|exists x; auto].
      * intros (x & [<-|Hx] & Hf); [left; congruence|right; exists x; auto].
    + rewrite IH. split.
      * intros (x & Hx & Hf). exists x. auto.
      * intros (x & [<-|Hx] & Hf); [congruence|exists x; auto].
Qed.

(** A positive derived priority comes from a Committed request with that
    positive priority. *)
Lemma max_priority_positive (d : db) (u : string) :
  0 < max_priority d u ->
  exists r p, In r (container_requests d) /\ references u r = true
              /\ cr_priority r = Some p /\ 0 < p.
Proof.
  intros H. apply positive_max in H. destruct H as (p & Hp & Hpos).
  apply In_omap in Hp. destruct Hp as (r & Hr & Hc).
  unfold contribution in Hc.
  destruct (references u r) eqn:E; [|discriminate].
  exists r, p. auto.
Qed.

Lemma max_priority_bounds (d : db) (u : string) (r : ContainerRequest) (p : Z) :
  In r (container_requests d) -> references u r = true ->
  cr_priority r = Some p -> p <= max_priority d u.
Proof.
  intros Hr Href Hp. apply max_bounds. apply In_omap. exists r.
  split; [exact Hr|]. unfold contribution. rewrite Href. exact Hp.
Qed.

Lemma reset_unwanted_invariant (d : db) :
  priority_invariant d -> priority_invariant (reset_unwanted d).
Proof.
  intros Hinv c' Hc'. unfold reset_unwanted in Hc'. cbn [containers] in Hc'.
  apply in_map_iff in Hc'. destruct Hc' as (c & Hc & Hin). subst c'.
  rewrite (max_priority_requests d (reset_unwanted d)) by reflexivity.
  destruct (active (c_state c) && (0 <? c_priority c)%Z
            && sql_not_in (c_uuid c) (wanted_container_uuids d)) eqn:E;
    [|apply Hinv; exact Hin].
  exfalso. apply andb_prop in E. destruct E as [E Enot].
  apply andb_prop in E. destruct E as [_ Epos]. apply Z.ltb_lt in Epos.
  rewrite (Hinv c Hin) in Epos.
  destruct (max_priority_positive d (c_uuid c) Epos)
    as (r & p & Hr & Href & Hp & Hpos).
  unfold sql_not_in in Enot. rewrite forallb_forall in Enot.
  specialize (Enot (Some (c_uuid c))). cbn beta iota in Enot.
  rewrite String.eqb_refl in Enot. cbn [negb] in Enot.
  assert (Hw : In (Some (c_uuid c)) (wanted_container_uuids d)).
  { unfold wanted_container_uuids. apply in_map_iff. exists r.
    split; [apply references_container; exact Href|].
    apply filter_In. split; [exact Hr|].
    unfold committed_positive. rewrite Hp.
    apply andb_true_intro. split; [apply Z.ltb_lt; exact Hpos|].
    unfold references in Href. apply andb_prop in Href. tauto. }
  specialize (Enot Hw). discriminate Enot.
Qed.

Lemma recompute_invariant (us : list string) (d : db) :
  priority_invariant d ->
  priority_invariant (fold_left (fun d u => update_priority_bang u d) us d).
Proof.
  intros Hinv c' Hc'.
  destruct (recompute_containers us d) as [Hr Hcs]. cbn zeta in Hr, Hcs.
  rewrite Hcs in Hc'. apply in_map_iff in Hc'.
  destruct Hc' as (c & Hc & Hin). subst c'.
  rewrite (max_priority_requests d _ _ Hr).
  destruct (existsb (String.eqb (c_uuid c)) us); [reflexivity|].
  apply Hinv. exact Hin.
Qed.

(** The sweep keeps the priority invariant, whether it runs or is
    skipped. *)
Lemma update_priority_invariant (owned nolock flock : bool) (d : db) :
  priority_invariant d ->
  priority_invariant (update_priority owned nolock flock d).
Proof.
  intros Hinv. unfold update_priority.
  destruct (negb owned); [exact Hinv|].
  destruct (negb (nolock || flock)); [exact Hinv|].
  unfold raise_starved. apply recompute_invariant, reset_unwanted_invariant.
  exact Hinv.
Qed.

(** ** What the sweep repairs

    From any store whose container priorities are not negative and whose
    Committed requests with positive priority all name a container, a
    sweep that runs leaves an active container with positive priority
    exactly when a Committed request with positive priority references
    it.  These are the two races named in the comment of
    [UpdatePriority.update_priority]. *)

Lemma committed_positive_references (r : ContainerRequest) (u : string) :
  committed_positive r = true -> cr_container_uuid r = Some u ->
  references u r = true /\ exists p, cr_priority r = Some p /\ 0 < p.
Proof.
  unfold committed_positive, references. intros H Hu.
  destruct (cr_priority r) as [p|]; [|discriminate].
  apply andb_prop in H. destruct H as [Hp Hs]. apply Z.ltb_lt in Hp.
  rewrite Hs, Hu, String.eqb_refl. split; [reflexivity|]. exists p. auto.
Qed.

Lemma update_priority_repairs (d : db) (nolock flock : bool)
    (c' : Container) :
  nolock || flock = true ->
  Forall (fun c => 0 <= c_priority c) (containers d) ->
  Forall (fun r => committed_positive r = true -> cr_container_uuid r <> None)
         (container_requests d) ->
  In c' (containers (update_priority true nolock flock d)) ->
  active (c_state c') = true ->
  (0 < c_priority c' <->
   exists r, In r (container_requests d) /\ committed_positive r = true
             /\ cr_container_uuid r = Some (c_uuid c')).
Proof.
  intros Hrun Hnonneg Hnonnull Hc' Hactive.
  unfold update_priority in Hc'. rewrite Hrun in Hc'. cbn [negb] in Hc'.
  unfold raise_starved in Hc'.
  destruct (recompute_containers (starved (reset_unwanted d)) (reset_unwanted d))
    as [_ Hcs]. cbn zeta in Hcs. rewrite Hcs in Hc'. clear Hcs.
  apply in_map_iff in Hc'. destruct Hc' as (c1 & Hc1 & Hin1).
  unfold reset_unwanted in Hin1 at 1. cbn [containers] in Hin1.
  apply in_map_iff in Hin1. destruct Hin1 as (c & Hc & Hin).
  assert (Hmax : max_priority (reset_unwanted d) (c_uuid c1)
                 = max_priority d (c_uuid c1))
    by (apply max_priority_requests; reflexivity).
  assert (Hu1 : c_uuid c1 = c_uuid c /\ c_state c1 = c_state c).
  { subst c1. match goal with |- context [if ?b then _ else _] => destruct b end;
      split; reflexivity. }
  destruct Hu1 as [Hu1 Hs1].
  assert (Hu' : c_uuid c' = c_uuid c /\ c_state c' = c_state c).
  { subst c'.
    destruct (existsb (String.eqb (c_uuid c1)) (starved (reset_unwanted d)));
      cbn; rewrite ?Hu1, ?Hs1; split; reflexivity. }
  destruct Hu' as [Hu' Hs']. rewrite Hu'. rewrite Hs' in Hactive.
  destruct (existsb (String.eqb (c_uuid c1)) (starved (reset_unwanted d)))
    eqn:Estarved.
  - (* recomputed *)
    subst c'. cbn [c_priority set_priority]. rewrite Hmax, Hu1. split.
    + intros Hpos.
      destruct (max_priority_positive d (c_uuid c) Hpos)
        as (r & p & Hr & Href & Hp & Hp0).
      exists r. split; [exact Hr|]. split.
      * unfold committed_positive. rewrite Hp.
        apply andb_true_intro. split; [apply Z.ltb_lt; exact Hp0|].
        unfold references in Href. apply andb_prop in Href. tauto.
      * apply references_container. exact Href.
    + intros (r & Hr & Hcp & Hu).
      destruct (committed_positive_references r (c_uuid c) Hcp Hu)
        as (Href & p & Hp & Hp0).
      pose proof (max_priority_bounds d (c_uuid c) r p Hr Href Hp). lia.
  - (* left alone by the second statement *)
    subst c'.
    destruct (active (c_state c) && (0 <? c_priority c)%Z
              && sql_not_in (c_uuid c) (wanted_container_uuids d)) eqn:Ereset.
    + (* reset by the first statement *)
      subst c1. cbn [c_priority set_priority]. split; [lia|].
      intros (r & Hr & Hcp & Hu). exfalso.
      apply andb_prop in Ereset. destruct Ereset as [_ Enot].
      unfold sql_not_in in Enot. rewrite forallb_forall in Enot.
      specialize (Enot (Some (c_uuid c))). cbn beta iota in Enot.
      rewrite String.eqb_refl in Enot. cbn [negb] in Enot.
      assert (Hw : In (Some (c_uuid c)) (wanted_container_uuids d)).
      { unfold wanted_container_uuids. apply in_map_iff. exists r.
        split; [exact Hu|]. apply filter_In. auto. }
      specialize (Enot Hw). discriminate Enot.
    + (* untouched *)
      subst c1. split.
      * intros Hpos. rewrite Hactive in Ereset.
        assert (Ep : (0 <? c_priority c)%Z = true) by (apply Z.ltb_lt; exact Hpos).
        rewrite Ep in Ereset. cbn [andb] in Ereset.
        unfold sql_not_in in Ereset.
        assert (Hex : exists y, In y (wanted_container_uuids d)
                                /\ match y with
                                   | Some u => negb (String.eqb (c_uuid c) u)
                                   | None => false
                                   end = false).
        { clear -Ereset. induction (wanted_container_uuids d) as [|y l IH];
            [discriminate|].
          cbn [forallb] in Ereset. apply andb_false_iff in Ereset.
          destruct Ereset as [E|E].
          - exists y. split; [left; reflexivity|exact E].
          - destruct (IH E) as (z & Hz & Ez). exists z. split; [right|]; auto. }
        destruct Hex as (y & Hy & Ey).
        unfold wanted_container_uuids in Hy. apply in_map_iff in Hy.
        destruct Hy as (r & Hry & Hr). apply filter_In in Hr.
        destruct Hr as [Hr Hcp].
        exists r. split; [exact Hr|]. split; [exact Hcp|].
        destruct y as [u|].
        -- apply negb_false_iff, String.eqb_eq in Ey. subst u. exact Hry.
        -- exfalso. rewrite List.Forall_forall in Hnonnull.
           apply (Hnonnull r Hr Hcp). exact Hry.
      * intros (r & Hr & Hcp & Hu).
        rewrite List.Forall_forall in Hnonneg. specialize (Hnonneg c Hin).
        destruct (Z.eq_dec (c_priority c) 0) as [E0|E0]; [|lia].
        exfalso. apply existsb_eqb_false in Estarved. apply Estarved.
        unfold starved. apply in_flat_map.
        exists (if active (c_state c) && (0 <? c_priority c)%Z
                   && sql_not_in (c_uuid c) (wanted_container_uuids d)
                then set_priority c 0 else c).
        split.
        { unfold reset_unwanted. cbn [containers]. apply in_map_iff.
          exists c. split; [reflexivity|exact Hin]. }
        rewrite Ereset, Hactive, E0. cbn [andb Z.eqb].
        apply in_map_iff. exists r. split; [reflexivity|].
        apply filter_In. split; [exact Hr|].
        rewrite Hcp, Hu, String.eqb_refl. reflexivity.
Qed.

(** A Committed request with positive priority and no container makes
    [NOT IN] unknown for every container: the first statement of the sweep
    then resets nothing. *)
Example null_container_uuid_disables_reset :
  let d := mkDb [mkContainer "c" Queued 5 None]
                [mkRequest "cr" Committed (Some 3) None None] in
  containers (update_priority true true false d)
  = [mkContainer "c" Queued 5 None]
  /\ max_priority d "c" = 0.
Proof. vm_compute. split; reflexivity. Qed.

(** C1: after any sequence of operations of the store (Commit,
    SetPriority and CancelRequest among them) followed by a
    reconciliation sweep, the priority of every container is the maximum
    of the priorities of the Committed requests that reference it, and 0
    when no Committed request with positive priority references it. *)
Theorem priority_invariant_after_sweep (d : db) (ops : list op)
    (owned nolock flock : bool) :
  priority_invariant d ->
  let d' := update_priority owned nolock flock (fst (run ops d)) in
  forall c, In c (containers d') ->
    c_priority c = max_priority d' (c_uuid c)
    /\ ((forall r p, In r (container_requests d') ->
                     references (c_uuid c) r = true ->
                     cr_priority r = Some p -> p <= 0) ->
        c_priority c = 0).
Proof.
  intros Hinv d' c Hc.
  assert (Hinv' : priority_invariant d')
    by (apply update_priority_invariant, run_invariant, Hinv).
  split; [apply Hinv'; exact Hc|].
  intros Hnone. rewrite (Hinv' c Hc).
  pose proof (max_priority_nonneg d' (c_uuid c)) as Hge.
  destruct (Z.eq_dec (max_priority d' (c_uuid c)) 0) as [E|E]; [exact E|].
  assert (Hpos : 0 < max_priority d' (c_uuid c)) by lia.
  destruct (max_priority_positive d' (c_uuid c) Hpos)
    as (r & p & Hr & Href & Hp & Hp0).
  specialize (Hnone r p Hr Href Hp). lia.
Qed.

Lemma priority_invariant_after_sweep_witness :
  let ops := (scenario_B_ops ++ [SetPriority "cr2" 0])%list in
  let d' := update_priority true true false (fst (run ops empty_db)) in
  containers (fst (run scenario_B_ops empty_db))
  = [mkContainer "c" Queued 10 None]
  /\ containers d' = [mkContainer "c" Queued 5 None]
  /\ forall c, In c (containers d') ->
       c_priority c = max_priority d' (c_uuid c)
       /\ ((forall r p, In r (container_requests d') ->
                        references (c_uuid c) r = true ->
                        cr_priority r = Some p -> p <= 0) ->
           c_priority c = 0).
Proof.
  intros ops d'.
  split; [vm_compute; reflexivity|]. split; [vm_compute; reflexivity|].
  apply (priority_invariant_after_sweep empty_db ops true true false).
  intros c [].
Defined.

Example scenario_A :
  let d1 := fst (run [Create "cr" None; Commit "cr" 1 "c"] empty_db) in
  let d2 := fst (run [SetPriority "cr" 0] d1) in
  containers d1 = [mkContainer "c" Queued 1 None]
  /\ containers d2 = [mkContainer "c" Queued 0 None].
Proof. vm_compute. split; reflexivity. Qed.

(** ** Locking *)

Lemma find_map_uuid (g : Container -> Container) (cs : list Container)
    (w : string) :
  (forall c, c_uuid (g c) = c_uuid c) ->
  List.find (fun c => String.eqb (c_uuid c) w) (map g cs)
  = g <$> List.find (fun c => String.eqb (c_uuid c) w) cs.
Proof.
  intros Hg. induction cs as [|c cs IH]; [reflexivity|].
  cbn [map List.find]. rewrite Hg.
  destruct (String.eqb (c_uuid c) w); [reflexivity|exact IH].
Qed.

Lemma state_of_update_priority_bang (u : string) (d : db) (w : string) :
  state_of (update_priority_bang u d) w = state_of d w.
Proof.
  unfold state_of, find_container, update_priority_bang. cbn [containers].
  rewrite find_map_uuid.
  - destruct (List.find _ (containers d)) as [c|]; [|reflexivity].
    cbn. destruct (String.eqb (c_uuid c) u); reflexivity.
  - intros c. destruct (String.eqb (c_uuid c) u); reflexivity.
Qed.

Lemma state_of_recompute (us : list string) (d : db) (w : string) :
  state_of (fold_left (fun d u => update_priority_bang u d) us d) w
  = state_of d w.
Proof.
  revert d. induction us as [|u us IH]; intros d; [reflexivity|].
  cbn [fold_left]. rewrite IH. apply state_of_update_priority_bang.
Qed.

Lemma state_of_write_requests sel f (d : db) (w : string) :
  state_of (write_requests sel f d) w = state_of d w.
Proof. unfold write_requests. rewrite state_of_recompute. reflexivity. Qed.

(** An update that puts the containers named [w'] into the state [s]. *)
Lemma state_of_update_container (w' : string) (f : Container -> Container)
    (s : ContainerState) (d : db) (w : string) :
  (forall c, c_uuid (f c) = c_uuid c /\ c_state (f c) = s) ->
  state_of (update_container w' f d) w
  = if String.eqb w' w then (fun _ => s) <$> state_of d w else state_of d w.
Proof.
  intros Hf. unfold state_of, find_container, update_container.
  cbn [containers]. rewrite find_map_uuid.
  - destruct (List.find _ (containers d)) as [c|] eqn:E;
      [|destruct (String.eqb w' w); reflexivity].
    apply find_some in E. destruct E as [_ E]. apply String.eqb_eq in E.
    cbn. rewrite E, (String.eqb_sym w w').
    destruct (String.eqb w' w); [|reflexivity].
    destruct (Hf c) as [_ ->]. reflexivity.
  - intros c. destruct (String.eqb (c_uuid c) w'); [apply Hf|reflexivity].
Qed.

Lemma state_of_append (d : db) (x : Container) (rs : list ContainerRequest)
    (w : string) :
  state_of (mkDb (containers d ++ [x]) rs) w
  = match state_of d w with
    | Some s => Some s
    | None => if String.eqb (c_uuid x) w then Some (c_state x) else None
    end.
Proof.
  unfold state_of, find_container. cbn [containers].
  induction (containers d) as [|c cs IH]; cbn.
  - destruct (String.eqb (c_uuid x) w); reflexivity.
  - destruct (String.eqb (c_uuid c) w); [reflexivity|exact IH].
Qed.

Ltac state_update s :=
  rewrite (state_of_update_container _ _ s) by (intros ?; split; reflexivity).

(** How one operation changes the state of the container [w]. *)
Lemma step_state (o : op) (d : db) (w : string) :
  state_of (fst (step o d)) w
  = match o with
    | Commit _ _ w' =>
        match state_of d w with
        | Some s => Some s
        | None => if snd (step o d) && String.eqb w' w
                  then Some Queued else None
        end
    | Lock w' _ =>
        if snd (step o d) && String.eqb w' w then Some Locked
        else state_of d w
    | Unlock w' =>
        if snd (step o d) && String.eqb w' w then Some Queued
        else state_of d w
    | ReportRunning w' _ =>
        if snd (step o d) && String.eqb w' w then Some Running
        else state_of d w
    | ReportComplete w' =>
        if snd (step o d) && String.eqb w' w then Some Complete
        else state_of d w
    | ReportCancelled w' =>
        if snd (step o d) && String.eqb w' w then Some Cancelled
        else state_of d w
    | _ => state_of d w
    end.
Proof.
  destruct o as [r rq|r p w'|r p|r|w' cl|w'|w' cl|w'|w']; cbn [step].
  - unfold do_Create. destruct (request_exists d r); reflexivity.
  - unfold do_Commit.
    destruct (find_request d r) as [x|];
      [|cbn [fst snd andb]; destruct (state_of d w); reflexivity].
    destruct (RequestState_eqb (cr_state x) Uncommitted && (0 <=? p)%Z);
      [|cbn [fst snd andb]; destruct (state_of d w); reflexivity].
    destruct (find_container d w') as [c|] eqn:E.
    + destruct (active (c_state c)); cbn [fst snd andb];
        rewrite ?state_of_write_requests;
        destruct (state_of d w) eqn:Es; try reflexivity.
      destruct (String.eqb_spec w' w) as [->|_]; [|reflexivity].
      unfold state_of in Es. rewrite E in Es. discriminate Es.
    + cbn [fst snd]. rewrite state_of_write_requests, state_of_append.
      reflexivity.
  - unfold do_SetPriority. destruct (find_request d r) as [x|]; [|reflexivity].
    destruct (RequestState_eqb (cr_state x) Committed && (0 <=? p)%Z);
      cbn [fst]; rewrite ?state_of_write_requests; reflexivity.
  - unfold do_CancelRequest, do_SetPriority.
    destruct (find_request d r) as [x|]; [|reflexivity].
    destruct (RequestState_eqb (cr_state x) Committed && (0 <=? 0)%Z);
      cbn [fst]; rewrite ?state_of_write_requests; reflexivity.
  - unfold do_Lock. destruct (find_container d w') as [c|] eqn:E;
      [|reflexivity].
    destruct (ContainerState_eqb (c_state c) Queued); [|reflexivity].
    cbn [fst snd andb]. state_update Locked.
    destruct (String.eqb_spec w' w) as [->|_]; [|reflexivity].
    unfold state_of. rewrite E. reflexivity.
  - unfold do_Unlock. destruct (find_container d w') as [c|] eqn:E;
      [|reflexivity].
    destruct (ContainerState_eqb (c_state c) Locked); [|reflexivity].
    cbn [fst snd andb]. state_update Queued.
    destruct (String.eqb_spec w' w) as [->|_]; [|reflexivity].
    unfold state_of. rewrite E. reflexivity.
  - unfold do_ReportRunning. destruct (find_container d w') as [c|] eqn:E;
      [|reflexivity].
    match goal with |- context [if ?b then _ else _] => destruct b end;
      [|reflexivity].
    cbn [fst snd andb]. state_update Running.
    destruct (String.eqb_spec w' w) as [->|_]; [|reflexivity].
    unfold state_of. rewrite E. reflexivity.
  - unfold do_ReportComplete. destruct (find_container d w') as [c|] eqn:E;
      [|reflexivity].
    destruct (ContainerState_eqb (c_state c) Running); [|reflexivity].
    cbn [fst snd andb]. rewrite state_of_write_requests. state_update Complete.
    destruct (String.eqb_spec w' w) as [->|_]; [|reflexivity].
    unfold state_of. rewrite E. reflexivity.
  - unfold do_ReportCancelled. destruct (find_container d w') as [c|] eqn:E;
      [|reflexivity].
    destruct (active (c_state c)); [|reflexivity].
    cbn [fst snd andb]. rewrite !state_of_write_requests.
    state_update Cancelled.
    destruct (String.eqb_spec w' w) as [->|_]; [|reflexivity].
    unfold state_of. rewrite E. reflexivity.
Qed.

Lemma Lock_needs_Queued (w claimant : string) (d : db) :
  snd (step (Lock w claimant) d) = true -> state_of d w = Some Queued.
Proof.
  cbn [step]. unfold do_Lock, state_of.
  destruct (find_container d w) as [c|]; [|discriminate].
  destruct (c_state c) eqn:Es; cbn; intros H; try discriminate H.
  rewrite Es. reflexivity.
Qed.

Lemma Unlock_needs_Locked (w : string) (d : db) :
  snd (step (Unlock w) d) = true -> state_of d w = Some Locked.
Proof.
  cbn [step]. unfold do_Unlock, state_of.
  destruct (find_container d w) as [c|]; [|discriminate].
  destruct (c_state c) eqn:Es; cbn; intros H; try discriminate H.
  rewrite Es. reflexivity.
Qed.

Lemma Running_needs_holder (w claimant : string) (d : db) :
  snd (step (ReportRunning w claimant) d) = true ->
  exists x, find_container d w = Some x /\ c_state x = Locked
            /\ c_locked_by_uuid x = Some claimant.
Proof.
  cbn [step]. unfold do_ReportRunning.
  destruct (find_container d w) as [c|]; [|discriminate].
  destruct (c_state c) eqn:Es; cbn; try discriminate.
  destruct (c_locked_by_uuid c) as [h|] eqn:Eh; [|discriminate].
  destruct (String.eqb_spec h claimant) as [->|_]; [|discriminate].
  intros _. exists c. repeat split; assumption.
Qed.

Lemma step_past_locked (o : op) (d : db) (w : string) :
  past_locked (state_of d w) = true ->
  past_locked (state_of (fst (step o d)) w) = true.
Proof.
  intros H. rewrite step_state.
  destruct o as [r rq|r p w'|r p|r|w' cl|w'|w' cl|w'|w']; try exact H.
  - destruct (state_of d w); [exact H|discriminate H].
  - destruct (snd (step (Lock w' cl) d)) eqn:Eok; [|exact H].
    destruct (String.eqb_spec w' w) as [->|_]; [|exact H].
    apply Lock_needs_Queued in Eok. rewrite Eok in H. discriminate H.
  - destruct (snd (step (Unlock w') d)) eqn:Eok; [|exact H].
    destruct (String.eqb_spec w' w) as [->|_]; [|exact H].
    apply Unlock_needs_Locked in Eok. rewrite Eok in H. discriminate H.
  - destruct (snd (step (ReportRunning w' cl) d) && String.eqb w' w);
      [reflexivity|exact H].
  - destruct (snd (step (ReportComplete w') d) && String.eqb w' w);
      [reflexivity|exact H].
  - destruct (snd (step (ReportCancelled w') d) && String.eqb w' w);
      [reflexivity|exact H].
Qed.

Lemma step_taken (o : op) (d : db) (w : string) :
  taken (state_of d w) = true -> is_Unlock_of w o = false ->
  taken (state_of (fst (step o d)) w) = true.
Proof.
  intros H Hu. rewrite step_state.
  destruct o as [r rq|r p w'|r p|r|w' cl|w'|w' cl|w'|w']; try exact H.
  - destruct (state_of d w); [exact H|discriminate H].
  - destruct (snd (step (Lock w' cl) d) && String.eqb w' w);
      [reflexivity|exact H].
  - cbn [is_Unlock_of] in Hu. rewrite Hu, andb_false_r. exact H.
  - destruct (snd (step (ReportRunning w' cl) d) && String.eqb w' w);
      [reflexivity|exact H].
  - destruct (snd (step (ReportComplete w') d) && String.eqb w' w);
      [reflexivity|exact H].
  - destruct (snd (step (ReportCancelled w') d) && String.eqb w' w);
      [reflexivity|exact H].
Qed.

Lemma run_snd (o : op) (ops : list op) (d : db) :
  snd (run (o :: ops) d) = snd (step o d) :: snd (run ops (fst (step o d))).
Proof.
  cbn [run]. destruct (step o d) as [d1 ok]. cbn [fst snd].
  destruct (run ops d1). reflexivity.
Qed.

(** Once a container is past Locked, no report of a start succeeds. *)
Lemma no_start_past_locked (ops : list op) (d : db) (w : string) :
  past_locked (state_of d w) = true ->
  successes (is_Running_of w) ops (snd (run ops d)) = [].
Proof.
  revert d. induction ops as [|o ops IH]; intros d H; [reflexivity|].
  rewrite run_snd. cbn [successes].
  destruct (is_Running_of w o && snd (step o d)) eqn:E.
  - exfalso. apply andb_prop in E. destruct E as [Eo Eok].
    destruct o; try discriminate Eo. cbn [is_Running_of] in Eo.
    apply String.eqb_eq in Eo. subst w0.
    destruct (Running_needs_holder w claimant d Eok) as (x & Hx & Hs & _).
    unfold state_of in H. rewrite Hx in H. cbn in H. rewrite Hs in H.
    discriminate H.
  - apply IH, step_past_locked, H.
Qed.

(** While a container is taken and nobody unlocks it, no lock succeeds. *)
Lemma no_lock_while_taken (ops : list op) (d : db) (w : string) :
  taken (state_of d w) = true ->
  forallb (fun o => negb (is_Unlock_of w o)) ops = true ->
  successes (is_Lock_of w) ops (snd (run ops d)) = [].
Proof.
  revert d. induction ops as [|o ops IH]; intros d H Hno; [reflexivity|].
  cbn [forallb] in Hno. apply andb_prop in Hno. destruct Hno as [Ho Hno].
  apply negb_true_iff in Ho.
  rewrite run_snd. cbn [successes].
  destruct (is_Lock_of w o && snd (step o d)) eqn:E.
  - exfalso. apply andb_prop in E. destruct E as [Eo Eok].
    destruct o; try discriminate Eo. cbn [is_Lock_of] in Eo.
    apply String.eqb_eq in Eo. subst w0.
    apply Lock_needs_Queued in Eok. rewrite Eok in H. discriminate H.
  - apply IH; [apply step_taken; assumption|exact Hno].
Qed.

(** C2, as the specification states it, fails: a container that was
    locked and unlocked again is locked by a second claimant. *)
Lemma one_lock_ever_counterexample :
  ~ (forall (d : db) (ops : list op) (w : string),
        (List.length (successes (is_Lock_of w) ops (snd (run ops d))) <= 1)%nat).
Proof.
  intros H. specialize (H empty_db relock_ops "c").
  assert (E : successes (is_Lock_of "c") relock_ops
                (snd (run relock_ops empty_db))
              = [Lock "c" "dispatch1"; Lock "c" "dispatch2"])
    by (vm_compute; reflexivity).
  rewrite E in H. cbn in H. lia.
Qed.

(** C2, amended: at most one report of a start ever succeeds for a
    container; after a successful lock no other lock succeeds until the
    container is unlocked; and a start is accepted only from the claimant
    recorded in [locked_by_uuid] of a Locked container. *)
Theorem lock_is_the_token (d : db) (ops : list op) (w : string) :
  (List.length (successes (is_Running_of w) ops (snd (run ops d))) <= 1)%nat
  /\ (forall claimant,
        snd (step (Lock w claimant) d) = true ->
        forallb (fun o => negb (is_Unlock_of w o)) ops = true ->
        successes (is_Lock_of w) ops
          (snd (run ops (fst (step (Lock w claimant) d)))) = [])
  /\ (forall claimant,
        snd (step (ReportRunning w claimant) d) = true ->
        exists x, find_container d w = Some x /\ c_state x = Locked
                  /\ c_locked_by_uuid x = Some claimant).
Proof.
  split; [|split].
  - revert d. induction ops as [|o ops IH]; intros d; [cbn; lia|].
    rewrite run_snd. cbn [successes].
    destruct (is_Running_of w o && snd (step o d)) eqn:E; [|apply IH].
    apply andb_prop in E. destruct E as [Eo Eok].
    rewrite no_start_past_locked; [cbn; lia|].
    rewrite step_state. destruct o; try discriminate Eo.
    cbn [is_Running_of] in Eo. rewrite Eok, Eo. reflexivity.
  - intros claimant Hok Hno. apply no_lock_while_taken; [|exact Hno].
    rewrite step_state, Hok, String.eqb_refl. reflexivity.
  - intros claimant. apply Running_needs_holder.
Qed.

Lemma lock_is_the_token_witness :
  let d := fst (run [Create "cr" None; Commit "cr" 1 "c"] empty_db) in
  let ops := [Lock "c" "dispatch2"; ReportRunning "c" "dispatch2";
              ReportRunning "c" "dispatch1"; Lock "c" "dispatch2";
              ReportRunning "c" "dispatch1"] in
  snd (step (Lock "c" "dispatch1") d) = true
  /\ forallb (fun o => negb (is_Unlock_of "c" o)) ops = true
  /\ successes (is_Lock_of "c") ops
       (snd (run ops (fst (step (Lock "c" "dispatch1") d)))) = []
  /\ successes (is_Running_of "c") ops
       (snd (run ops (fst (step (Lock "c" "dispatch1") d))))
     = [ReportRunning "c" "dispatch1"].
Proof.
  intros d ops.
  split; [reflexivity|]. split; [reflexivity|]. split.
  - destruct (lock_is_the_token d ops "c") as (_ & H & _).
    apply (H "dispatch1"); reflexivity.
  - vm_compute. reflexivity.
Defined.

(** ** The cascade of a cancellation *)





Example child_cancelled :
  let d := fst (run child_ops empty_db) in
  let d' := fst (step (ReportCancelled "c") d) in
  containers d = [mkContainer "c" Queued 5 None;
                  mkContainer "c2" Queued 10 None]
  /\ containers d' = [mkContainer "c" Cancelled 0 None;
                      mkContainer "c2" Queued 0 None]
  /\ container_requests d'
     = [mkRequest "cr" Final (Some 0) (Some "c") None;
        mkRequest "cr2" Committed (Some 0) (Some "c2") (Some "c")].
Proof. vm_compute. repeat split; reflexivity. Qed.





End StoreProofs.

(** * Properties of the rate-limited logger *)

Module LoggingProofs.
Import Logging.

(** What [logging_test.go] checks: the log collection holds both lines,
    83 bytes, and the events hold the explanatory message. *)
Example TestWriteLogsWithRateLimitThrottleBytes :
  committed test_log = [hello; goodbye]
  /\ String.length (hello ++ goodbye) = 83%nat
  /\ events test_log
     = [Line hello; Marker "Exceeded rate 50 bytes per 60 seconds"].
Proof. vm_compute. repeat split; reflexivity. Qed.

(** A stream that is closed stays closed until the window is over: the
    lines reach the log collection and nothing reaches the events. *)
Lemma closed_discards (lim : limits) (more : list (Z * string))
    (w : ArvLogWriter) :
  logThrottleIsOpen w = false ->
  Forall (fun tl => fst tl <= logThrottleResetTime w) more ->
  events (WriteAll lim more w) = events w
  /\ committed (WriteAll lim more w) = (committed w ++ map snd more)%list.
Proof.
  revert w. induction more as [|[t l] more IH]; intros w Hclosed Hall.
  - cbn. rewrite app_nil_r. auto.
  - inversion Hall as [|x xs Ht Hrest]; subst. cbn [fst] in Ht.
    unfold WriteAll. cbn [fold_left fst snd].
    assert (Hw : Write lim t l w
                 = mkLog (committed w ++ [l]) (events w)
                         (logThrottleBytesSoFar w) (logThrottleLinesSoFar w)
                         (bytesLogged w) false (jobLimitReached w)
                         (logThrottleResetTime w)).
    { unfold Write, roll_window.
      destruct (Z.ltb_spec (logThrottleResetTime w) t) as [Hlt|_]; [lia|].
      rewrite Hclosed. reflexivity. }
    rewrite Hw.
    match goal with
    | |- context [fold_left ?f more ?w'] =>
        destruct (IH w' eq_refl Hrest) as [He Hc]
    end.
    unfold WriteAll in He, Hc. rewrite He, Hc. cbn [events committed map].
    rewrite <- app_assoc. auto.
Qed.

(** C9, as the specification states it, fails: the committed log, the
    file of the log collection, holds both lines and no explanatory
    message. *)
Lemma committed_log_throttled_counterexample :
  ~ (forall (t : Z) (l1 l2 : string),
        (50 < String.length l1 + String.length l2)%nat ->
        let w := WriteAll test_limits [(t, l1); (t, l2)]
                   (new_log test_limits t) in
        occurrences (exceeded_bytes test_limits) (committed w) = 1%nat
        /\ ~ In l2 (committed w)).
Proof.
  intros H.
  assert (Hlen : (50 < String.length hello + String.length goodbye)%nat)
    by (vm_compute; lia).
  destruct (H 0 hello goodbye Hlen) as [_ Hnot].
  apply Hnot. right. left. reflexivity.
Qed.

(** C9, amended: with a cap of 50 bytes per window and two lines that
    exceed it together, the events sent to the API server hold exactly one
    "Exceeded rate" message, in the place of the line that exceeded the
    cap, and no line written later in the same window; the committed log
    holds every line. *)
Theorem byte_cap_throttles_events (lim : limits) (t0 t1 t2 : Z)
    (l1 l2 : string) (more : list (Z * string)) :
  crunchLogThrottleBytes lim = 50 ->
  2 <= crunchLogThrottleLines lim ->
  Z.of_nat (String.length l1 + String.length l2)
  <= crunchLimitLogBytesPerJob lim ->
  (50 < String.length l1 + String.length l2)%nat ->
  t1 <= t0 + crunchLogThrottlePeriod lim ->
  t2 <= t0 + crunchLogThrottlePeriod lim ->
  Forall (fun tl => fst tl <= t0 + crunchLogThrottlePeriod lim) more ->
  let w := WriteAll lim ((t1, l1) :: (t2, l2) :: more) (new_log lim t0) in
  markers (events w) = 1%nat
  /\ events w
     = (if (Z.of_nat (String.length l1) <=? 50)%Z
        then [Line l1; Marker (exceeded_bytes lim)]
        else [Marker (exceeded_bytes lim)])
  /\ committed w = l1 :: l2 :: map snd more.
Proof.
  intros Hcap Hlines Hjob Hexceed Ht1 Ht2 Hmore w.
  assert (Hev : events w
                = (if (Z.of_nat (String.length l1) <=? 50)%Z
                   then [Line l1; Marker (exceeded_bytes lim)]
                   else [Marker (exceeded_bytes lim)])
                /\ committed w = l1 :: l2 :: map snd more).
  { unfold w, WriteAll. cbn [fold_left fst snd].
    set (w1 := Write lim t1 l1 (new_log lim t0)).
    set (w2 := Write lim t2 l2 w1).
    assert (H1 : w1 = if (Z.of_nat (String.length l1) <=? 50)%Z
                      then mkLog [l1] [Line l1] (Z.of_nat (String.length l1))
                                 1 (Z.of_nat (String.length l1)) true false
                                 (t0 + crunchLogThrottlePeriod lim)
                      else mkLog [l1] [Marker (exceeded_bytes lim)]
                                 (Z.of_nat (String.length l1)) 1
                                 (Z.of_nat (String.length l1)) false false
                                 (t0 + crunchLogThrottlePeriod lim)).
    { unfold w1, Write, roll_window, new_log.
      cbn [logThrottleResetTime logThrottleIsOpen negb committed events
           logThrottleBytesSoFar logThrottleLinesSoFar bytesLogged
           jobLimitReached].
      destruct (Z.ltb_spec (t0 + crunchLogThrottlePeriod lim) t1); [lia|].
      cbn [logThrottleResetTime logThrottleIsOpen negb committed events
           logThrottleBytesSoFar logThrottleLinesSoFar bytesLogged
           jobLimitReached app]. rewrite Hcap.
      rewrite !Z.add_0_l.
      destruct (Z.ltb_spec (crunchLimitLogBytesPerJob lim)
                  (Z.of_nat (String.length l1))); [lia|].
      destruct (Z.leb_spec (Z.of_nat (String.length l1)) 50);
        destruct (Z.ltb_spec 50 (Z.of_nat (String.length l1))); try lia;
        [|reflexivity].
      destruct (Z.ltb_spec (crunchLogThrottleLines lim) 1); [lia|].
      reflexivity. }
    assert (H2 : events w2
                 = (if (Z.of_nat (String.length l1) <=? 50)%Z
                    then [Line l1; Marker (exceeded_bytes lim)]
                    else [Marker (exceeded_bytes lim)])
                 /\ committed w2 = [l1; l2]
                 /\ logThrottleIsOpen w2 = false
                 /\ logThrottleResetTime w2
                    = t0 + crunchLogThrottlePeriod lim).
    { unfold w2. rewrite H1. unfold Write, roll_window.
      destruct (Z.leb_spec (Z.of_nat (String.length l1)) 50);
        cbn [logThrottleResetTime logThrottleIsOpen negb committed events
             logThrottleBytesSoFar logThrottleLinesSoFar bytesLogged
             jobLimitReached];
        destruct (Z.ltb_spec (t0 + crunchLogThrottlePeriod lim) t2);
        try lia;
        cbn [logThrottleResetTime logThrottleIsOpen negb committed events
             logThrottleBytesSoFar logThrottleLinesSoFar bytesLogged
             jobLimitReached app]; [|auto].
      rewrite Hcap.
      destruct (Z.ltb_spec (crunchLimitLogBytesPerJob lim)
                  (Z.of_nat (String.length l1) + Z.of_nat (String.length l2)));
        [lia|].
      destruct (Z.ltb_spec 50
                  (Z.of_nat (String.length l1) + Z.of_nat (String.length l2)));
        [|lia].
      cbn [events committed logThrottleIsOpen logThrottleResetTime]. auto. }
    destruct H2 as (He2 & Hc2 & Hclosed & Hreset).
    destruct (closed_discards lim more w2 Hclosed) as [He Hc].
    { rewrite Hreset. exact Hmore. }
    unfold WriteAll in He, Hc. rewrite He, Hc, He2, Hc2. auto. }
  destruct Hev as [He Hc]. split; [|split; assumption].
  rewrite He. destruct (Z.of_nat (String.length l1) <=? 50)%Z; reflexivity.
Qed.

Lemma byte_cap_throttles_events_witness :
  let w := WriteAll test_limits [(0, hello); (1, goodbye); (2, hello)]
             (new_log test_limits 0) in
  markers (events w) = 1%nat
  /\ events w = [Line hello; Marker "Exceeded rate 50 bytes per 60 seconds"]
  /\ committed w = [hello; goodbye; hello].
Proof.
  apply (byte_cap_throttles_events test_limits 0 0 1 hello goodbye
           [(2, hello)]).
  - reflexivity.
  - vm_compute. discriminate.
  - vm_compute. discriminate.
  - vm_compute. lia.
  - vm_compute. discriminate.
  - vm_compute. discriminate.
  - repeat constructor. vm_compute. discriminate.
Defined.

End LoggingProofs.

(** * Properties of the snapshot of the queue *)

Module SqueueSnapshot.
Import Squeue.

Section Snapshot.
Variable Sscan : string -> string * Z * Z.


Lemma record_line_other (m : gmap string jobPriority) (line u : string) :
  fst (fst (Sscan line)) <> u ->
  record_line Sscan m line !! u = m !! u.
Proof.
  unfold record_line.
  destruct (Sscan line) as [[uuid nice] prio]. simpl. intros Hne.
  destruct (String.eqb uuid ""); [reflexivity|].
  apply lookup_insert_ne. exact Hne.
Qed.

Lemma record_line_same (m : gmap string jobPriority) (line u : string) :
  fst (fst (Sscan line)) = u -> u <> "" ->
  record_line Sscan m line !! u
  = Some (mkJobPriority (snd (fst (Sscan line))) (snd (Sscan line))).
Proof.
  unfold record_line.
  destruct (Sscan line) as [[uuid nice] prio]. simpl. intros -> Hne.
  destruct (String.eqb_spec u ""); [contradiction|].
  apply lookup_insert_eq.
Qed.

Lemma record_line_empty (m : gmap string jobPriority) (line : string) :
  fst (fst (Sscan line)) = "" -> record_line Sscan m line = m.
Proof.
  unfold record_line.
  destruct (Sscan line) as [[uuid nice] prio]. simpl. intros ->. reflexivity.
Qed.

Lemma fold_record_other (lines : list string) (m : gmap string jobPriority)
    (u : string) :
  (forall l, In l lines -> fst (fst (Sscan l)) <> u) ->
  fold_left (record_line Sscan) lines m !! u = m !! u.
Proof.
  revert m. induction lines as [|l lines IH]; intros m H; [reflexivity|].
  simpl. rewrite IH by (intros l' Hl'; apply H; right; exact Hl').
  apply record_line_other. apply H. left. reflexivity.
Qed.

Lemma fold_record_is_Some (lines : list string) (m : gmap string jobPriority)
    (u : string) :
  match fold_left (record_line Sscan) lines m !! u with
  | Some _ => true | None => false end
  = match m !! u with Some _ => true | None => false end
    || (negb (String.eqb u "")
        && existsb (fun l => String.eqb (fst (fst (Sscan l))) u) lines).
Proof.
  revert m. induction lines as [|l lines IH]; intros m.
  - simpl. rewrite andb_false_r, orb_false_r. reflexivity.
  - simpl. rewrite IH.
    destruct (String.eqb_spec (fst (fst (Sscan l))) u) as [E|E].
    + destruct (String.eqb_spec u "") as [E0|E0].
      * rewrite record_line_empty by congruence. simpl.
        rewrite orb_false_r. reflexivity.
      * rewrite (record_line_same m l u E E0). simpl.
        rewrite orb_true_r. reflexivity.
    + rewrite (record_line_other m l u E). simpl. reflexivity.
Qed.

End Snapshot.

(** X1: HasUUID waits for the next poll of squeue that succeeds (failed
    polls in between are passed over) and answers from the output of that
    poll alone: true exactly when the name is not empty and some line of
    the output carries it, whatever the checker held before. *)
Theorem HasUUID_reads_latest_output Sscan (sqc : SqueueChecker)
    (failed : list poll) (out : string) (rest : list poll) (u : string) :
  forallb failed_poll failed = true ->
  HasUUID Sscan sqc (failed ++ PollOk out :: rest) u
  = Some (negb (String.eqb u "")
          && existsb (fun l => String.eqb (fst (fst (Sscan l))) u)
               (split_lines out)).
Proof.
  intros H. unfold HasUUID.
  rewrite (SqueueProofs.Wait_first_ok Sscan sqc failed out rest H).
  cbn [uuids]. unfold published.
  rewrite fold_record_is_Some, lookup_empty. reflexivity.
Qed.

Lemma HasUUID_reads_latest_output_witness :
  forallb failed_poll [PollErr] = true
  /\ HasUUID Sscan_decimal
       (fst (check Sscan_decimal fresh (PollOk "old 0 1")))
       ([PollErr] ++ PollOk ("new 10 2" ++ String newline "") :: []) "old"
     = Some false
  /\ HasUUID Sscan_decimal
       (fst (check Sscan_decimal fresh (PollOk "old 0 1")))
       ([PollErr] ++ PollOk ("new 10 2" ++ String newline "") :: []) "new"
     = Some true
  /\ HasUUID Sscan_decimal
       (fst (check Sscan_decimal fresh (PollOk "old 0 1")))
       ([PollErr] ++ PollOk ("new 10 2" ++ String newline "") :: []) ""
     = Some false.
Proof.
  split; [reflexivity|].
  pose proof (HasUUID_reads_latest_output Sscan_decimal
                (fst (check Sscan_decimal fresh (PollOk "old 0 1")))
                [PollErr] ("new 10 2" ++ String newline "") []) as H.
  split; [|split].
  - rewrite (H "old" eq_refl). reflexivity.
  - rewrite (H "new" eq_refl). reflexivity.
  - rewrite (H "" eq_refl). reflexivity.
Defined.

(** X2: after a successful poll, GetNiceness of a job is the niceness of
    the last line of the squeue output that names the job: a later line
    for the same name overwrites an earlier one. *)
Theorem GetNiceness_last_line Sscan (sqc : SqueueChecker) (out : string)
    (pre : list string) (line : string) (post : list string)
    (u : string) (n p : Z) :
  split_lines out = (pre ++ line :: post)%list ->
  Sscan line = (u, n, p) ->
  u <> "" ->
  (forall l, In l post -> fst (fst (Sscan l)) <> u) ->
  GetNiceness (fst (check Sscan sqc (PollOk out))) u = n.
Proof.
  intros Hsplit Hline Hu Hpost. unfold GetNiceness. cbn [check fst uuids].
  unfold published. rewrite Hsplit, fold_left_app. cbn [fold_left].
  rewrite (fold_record_other Sscan post _ u Hpost).
  rewrite (record_line_same Sscan _ line u); [|rewrite Hline; reflexivity|exact Hu].
  rewrite Hline. reflexivity.
Qed.

Lemma GetNiceness_last_line_witness :
  let out := "job 5 100" ++ String newline ("job 7 90" ++ String newline "other 1 1") in
  split_lines out = (["job 5 100"] ++ "job 7 90" :: ["other 1 1"])%list
  /\ GetNiceness (fst (check Sscan_decimal fresh (PollOk out))) "job" = 7.
Proof.
  intros out. split; [reflexivity|].
  apply (GetNiceness_last_line Sscan_decimal fresh out ["job 5 100"] "job 7 90"
           ["other 1 1"] "job" 7 90).
  - reflexivity.
  - reflexivity.
  - discriminate.
  - intros l [<-|[]]. discriminate.
Defined.

(** X3: All waits like HasUUID and returns every job of the snapshot
    exactly once: the list has no duplicates and holds a name exactly when
    HasUUID answers true for it on the same polls. *)
Theorem All_lists_each_job_once Sscan (sqc : SqueueChecker)
    (failed : list poll) (out : string) (rest : list poll) :
  forallb failed_poll failed = true ->
  exists names,
    All Sscan sqc (failed ++ PollOk out :: rest) = Some names
    /\ List.NoDup names
    /\ forall u, In u names
                 <-> HasUUID Sscan sqc (failed ++ PollOk out :: rest) u
                     = Some true.
Proof.
  intros H. unfold All, HasUUID.
  rewrite (SqueueProofs.Wait_first_ok Sscan sqc failed out rest H).
  cbn [uuids]. eexists. split; [reflexivity|]. split.
  - apply NoDup_ListNoDup, NoDup_fst_map_to_list.
  - intros u. rewrite <- list_elem_of_In, list_elem_of_fmap. split.
    + intros ([k v] & -> & Hkv). apply elem_of_map_to_list in Hkv.
      cbn [fst]. rewrite Hkv. reflexivity.
    + destruct (published Sscan out !! u) as [v|] eqn:E; [|discriminate].
      intros _. exists (u, v). split; [reflexivity|].
      apply elem_of_map_to_list. exact E.
Qed.

Lemma All_lists_each_job_once_witness :
  forallb failed_poll [PollErr] = true
  /\ exists names,
       All Sscan_decimal fresh ([PollErr] ++ PollOk "a 1 2" :: []) = Some names
       /\ List.NoDup names
       /\ forall u, In u names
                    <-> HasUUID Sscan_decimal fresh
                          ([PollErr] ++ PollOk "a 1 2" :: []) u = Some true.
Proof.
  split; [reflexivity|].
  apply (All_lists_each_job_once Sscan_decimal fresh [PollErr] "a 1 2" []).
  reflexivity.
Defined.

End SqueueSnapshot.

(** * Properties of a whole run *)

Module RunProofs.
Import CrunchRun.

Ltac no_complete :=
  cbv; repeat split; auto; try congruence; eauto.

(** What the body of [Run] leaves behind. *)
Lemma Run_body_facts (w : world) :
  let b := Run_body w NewContainerRunner in
  final_reports (fst b) = []
  /\ (finalState (fst b) = "Queued" \/ finalState (fst b) = "Cancelled"
      \/ finalState (fst b) = "Complete")
  /\ LogsPDH (fst b) = None /\ OutputPDH (fst b) = None
  /\ (finalState (fst b) = "Complete" ->
      snd b = None /\ cCancelled (fst b) = false
      /\ exists code, WaitFinish_res w = inr code
                      /\ ExitCode (fst b) = Some code).
Proof.
  destruct w as [fetch load bl mounts create loghost lognode logcont
                 sig1 sig2 ucr sig3 startc waitr sig4 sig5 sig6 cap stopst
                 commit ucf].
  unfold Run_body.
  destruct fetch; [no_complete|].
  destruct load as [s|].
  { cbv. destruct (bl s); repeat split; auto; congruence. }
  destruct mounts; [no_complete|].
  destruct create as [e|id]; [no_complete|].
  destruct loghost; [no_complete|].
  destruct lognode; [no_complete|].
  destruct logcont; [no_complete|].
  destruct id as [|c id].
  - destruct sig1, sig2; (destruct ucr; [no_complete|]); destruct sig3;
      (destruct startc; [no_complete|]); destruct sig4, waitr; no_complete.
  - destruct sig1; [no_complete|]. destruct sig2; [no_complete|].
    destruct ucr; [no_complete|]. destruct sig3; [no_complete|].
    destruct startc; [no_complete|]. destruct sig4, waitr; no_complete.
Qed.


(** A signal touches nothing but the flag. *)
Lemma deliver_keeps (sig : bool) (r : ContainerRunner) :
  calls (deliver sig r) = calls r
  /\ finalState (deliver sig r) = finalState r
  /\ LogsPDH (deliver sig r) = LogsPDH r
  /\ OutputPDH (deliver sig r) = OutputPDH r
  /\ ExitCode (deliver sig r) = ExitCode r.
Proof.
  unfold deliver, stop.
  destruct sig, (String.eqb (ContainerID r) ""); cbn; auto.
Qed.

Lemma final_update_deliver (sig : bool) (r : ContainerRunner) :
  final_update (deliver sig r) = final_update r.
Proof.
  unfold deliver, stop.
  destruct sig, (String.eqb (ContainerID r) ""); reflexivity.
Qed.

Lemma final_reports_calls (r : ContainerRunner) :
  final_reports r
  = omap (fun c => match c with
                   | CallUpdateContainerFinal u => Some u
                   | _ => None
                   end) (calls r).
Proof. reflexivity. Qed.

(** [checkErr] keeps an error that was recorded before. *)
Lemma checkErr_keeps (r : ContainerRunner) (e : string) (x : error) :
  snd (checkErr (r, Some e) x) = Some e.
Proof.
  unfold checkErr. destruct x; [|reflexivity].
  destruct (String.eqb (finalState r) "Complete"); reflexivity.
Qed.

Lemma checked_keeps (f : ContainerRunner -> ContainerRunner * error)
    (re : ContainerRunner * error) (e : string) :
  snd re = Some e -> snd (checked f re) = Some e.
Proof.
  intros H. unfold checked. destruct (f (fst re)) as [r' x].
  rewrite H. apply checkErr_keeps.
Qed.

(** X7: an error of the body of Run is the error Run returns: errors of
    the finalization steps (output capture, statistics, log commit, final
    report) never replace it. *)
Theorem Run_returns_first_error (w : world) (r : ContainerRunner) (e : string) :
  snd (Run_body w r) = Some e -> snd (Run w r) = Some e.
Proof.
  intros H. rewrite CrunchRunProofs.Run_unfold. cbn [snd].
  destruct (Run_body w r) as [rb eb]. cbn [fst snd] in *. subst eb.
  unfold finalize.
  match goal with
  | |- context [checkErr ?a ?b] =>
      destruct (checkErr a b) as [r0 err0] eqn:E0
  end.
  assert (H0 : err0 = Some e).
  { change err0 with (snd (r0, err0)). rewrite <- E0. apply checkErr_keeps. }
  subst err0.
  match goal with
  | |- context [String.eqb ?a "Queued"] => destruct (String.eqb a "Queued")
  end; [reflexivity|].
  repeat apply checked_keeps. reflexivity.
Qed.

Lemma Run_returns_first_error_witness :
  let w := world_running (Some "no such image") (inr 0) false
                         (inl "While uploading output files")
                         (inl "While creating log collection") in
  snd (Run_body w NewContainerRunner) = Some "no such image"
  /\ snd (Run w NewContainerRunner) = Some "no such image".
Proof.
  intros w. split; [reflexivity|].
  apply (Run_returns_first_error w NewContainerRunner "no such image").
  reflexivity.
Defined.

(** A finalization step that reports no error leaves "Complete" alone; a
    state that is "Complete" after the step was so before, and the step
    succeeded. *)
Lemma checked_Complete (f : ContainerRunner -> ContainerRunner * error)
    (re : ContainerRunner * error) :
  finalState (fst (f (fst re))) = finalState (fst re) ->
  finalState (fst (checked f re)) = "Complete" ->
  finalState (fst re) = "Complete"
  /\ snd (f (fst re)) = None
  /\ fst (checked f re) = fst (f (fst re))
  /\ snd (checked f re) = snd re.
Proof.
  unfold checked. destruct (f (fst re)) as [r' x]. cbn [fst snd].
  intros Hfs. unfold checkErr. destruct x as [m|].
  - destruct (String.eqb_spec (finalState r') "Complete") as [E|E];
      cbn [fst]; intros H; [discriminate H|contradiction].
  - cbn [fst snd]. intros H. rewrite <- Hfs. auto.
Qed.


Lemma checkErr_calls (r : ContainerRunner) (err e : error) :
  calls (fst (checkErr (r, err) e)) = calls r
  /\ cCancelled (fst (checkErr (r, err) e)) = cCancelled r
  /\ ContainerID (fst (checkErr (r, err) e)) = ContainerID r.
Proof.
  unfold checkErr. destruct e; [|auto].
  destruct (String.eqb (finalState r) "Complete"); auto.
Qed.

Lemma checked_calls (f : ContainerRunner -> ContainerRunner * error) (c : call)
    (re : ContainerRunner * error) :
  calls (fst (f (fst re))) = (calls (fst re) ++ [c])%list ->
  calls (fst (checked f re)) = (calls (fst re) ++ [c])%list
  /\ cCancelled (fst (checked f re)) = cCancelled (fst (f (fst re))).
Proof.
  unfold checked. destruct (f (fst re)) as [r' x]. cbn [fst].
  intros <-. destruct (checkErr_calls r' (snd re) x) as (H1 & H2 & _). auto.
Qed.

Lemma CaptureOutput_ok (w : world) (r : ContainerRunner) :
  snd (CaptureOutput w r) = None ->
  exists out,
    CaptureOutput_res w = inr out
    /\ OutputPDH (fst (CaptureOutput w r))
       = match out with Some p => Some p | None => OutputPDH r end
    /\ LogsPDH (fst (CaptureOutput w r)) = LogsPDH r
    /\ ExitCode (fst (CaptureOutput w r)) = ExitCode r.
Proof.
  unfold CaptureOutput. destruct (CaptureOutput_res w) as [e|[p|]];
    cbn; [discriminate| |]; intros _; eexists; repeat split.
Qed.

Lemma CommitLogs_ok (w : world) (r : ContainerRunner) :
  LogsPDH r = None ->
  snd (CommitLogs w r) = None ->
  exists logs,
    CommitLogs_res w = inr logs
    /\ LogsPDH (fst (CommitLogs w r)) = Some logs
    /\ OutputPDH (fst (CommitLogs w r)) = OutputPDH r
    /\ ExitCode (fst (CommitLogs w r)) = ExitCode r.
Proof.
  unfold CommitLogs. cbn. intros ->.
  destruct (CommitLogs_res w) as [e|logs]; cbn; [discriminate|].
  intros _. eexists; repeat split.
Qed.

(** The finalization of a run that is past "Queued" reports "Complete"
    only when the body ended "Complete" without error, the flag was not
    set when [IsCancelled] was tested and every step of the finalization
    succeeded. *)
Lemma finalize_Complete (w : world) (r : ContainerRunner) (err : error) :
  finalState r = "Cancelled" \/ finalState r = "Complete" ->
  LogsPDH r = None -> OutputPDH r = None ->
  exists u,
    calls (fst (finalize w r err))
    = (calls r ++ [CallCaptureOutput; CallStopHoststat;
                   CallCommitLogs; CallUpdateContainerFinal u])%list
    /\ (u !! "state" = Some (VString "Complete") ->
        finalState r = "Complete" /\ err = None
        /\ cCancelled (deliver (signal_before_finalize w) r) = false
        /\ snd (finalize w r err) = UpdateContainerFinal_err w
        /\ exists out logs,
             CaptureOutput_res w = inr out
             /\ stopHoststat_err w = None
             /\ CommitLogs_res w = inr logs
             /\ u !! "log" = Some (VString logs)
             /\ u !! "output" = VString <$> out
             /\ u !! "exit_code" = VInt <$> ExitCode r).
Proof.
  intros Hfs Hlogs Hout. unfold finalize.
  destruct (checkErr (r, err) err) as [r0 err0] eqn:E0.
  assert (H0 : calls r0 = calls r /\ cCancelled r0 = cCancelled r
               /\ (finalState r0 = "Cancelled" \/ finalState r0 = "Complete")
               /\ (finalState r0 = "Complete" ->
                   r0 = r /\ err = None /\ err0 = None)).
  { unfold checkErr in E0. destruct err as [m|].
    - destruct (String.eqb_spec (finalState r) "Complete") as [Ec|Ec];
        inversion E0; subst; cbn; repeat split; auto; congruence.
    - inversion E0; subst. repeat split; auto. }
  destruct H0 as (Hc0 & Hcc0 & Hfs0 & Hcomp0).
  set (r1 := deliver (signal_before_finalize w) r0).
  set (r2 := if cCancelled r1 then set_finalState r1 "Cancelled" else r1).
  assert (Hr1 : calls r1 = calls r0 /\ finalState r1 = finalState r0
                /\ LogsPDH r1 = LogsPDH r0 /\ OutputPDH r1 = OutputPDH r0
                /\ ExitCode r1 = ExitCode r0).
  { apply deliver_keeps. }
  destruct Hr1 as (Hc1 & Hfs1 & Hl1 & Ho1 & He1).
  assert (Hq : String.eqb (finalState r1) "Queued" = false).
  { rewrite Hfs1. destruct Hfs0 as [-> | ->]; reflexivity. }
  rewrite Hq.
  assert (Hr2 : calls r2 = calls r1 /\ cCancelled r2 = cCancelled r1
                /\ (finalState r2 = "Complete" ->
                    r2 = r1 /\ cCancelled r1 = false)).
  { unfold r2. destruct (cCancelled r1) eqn:Ecc; cbn; rewrite ?Ecc;
      repeat split; auto; congruence. }
  destruct Hr2 as (Hc2 & Hcc2 & Hcomp2).
  set (r3 := deliver (signal_during_finalize w) r2).
  destruct (deliver_keeps (signal_during_finalize w) r2)
    as (Hc3' & Hfs3' & Hl3' & Ho3' & He3').
  fold r3 in Hc3', Hfs3', Hl3', Ho3', He3'.
  set (re3 := checked (CaptureOutput w) (r3, err0)).
  set (re4 := checked (stopHoststat w) re3).
  set (re5 := checked (CommitLogs w) re4).
  set (re6 := checked (UpdateContainerFinal w) re5).
  destruct (checked_calls (CaptureOutput w) CallCaptureOutput (r3, err0)
              (proj1 (CrunchRunProofs.CaptureOutput_appends w _)))
    as [Hc3 Hcc3]. fold re3 in Hc3, Hcc3.
  destruct (checked_calls (stopHoststat w) CallStopHoststat re3
              (proj1 (CrunchRunProofs.stopHoststat_appends w _)))
    as [Hc4 Hcc4]. fold re4 in Hc4, Hcc4.
  destruct (checked_calls (CommitLogs w) CallCommitLogs re4
              (proj1 (CrunchRunProofs.CommitLogs_appends w _)))
    as [Hc5 Hcc5]. fold re5 in Hc5, Hcc5.
  destruct (checked_calls (UpdateContainerFinal w)
              (CallUpdateContainerFinal (final_update (fst re5))) re5
              eq_refl) as [Hc6 Hcc6]. fold re6 in Hc6, Hcc6.
  exists (final_update (fst re5)). split.
  { rewrite Hc6, Hc5, Hc4, Hc3. cbn [fst].
    rewrite Hc3', Hc2, Hc1, Hc0, <- !app_assoc. reflexivity. }
  rewrite CrunchRunProofs.final_update_state. intros Hst.
  assert (Hst5 : finalState (fst re5) = "Complete") by congruence.
  destruct (checked_Complete (CommitLogs w) re4
              (proj1 (proj2 (CrunchRunProofs.CommitLogs_appends w _))) Hst5)
    as (Hst4 & Hok5 & Hfst5 & Hsnd5).
  destruct (checked_Complete (stopHoststat w) re3
              (proj1 (proj2 (CrunchRunProofs.stopHoststat_appends w _))) Hst4)
    as (Hst3 & Hok4 & Hfst4 & Hsnd4).
  destruct (checked_Complete (CaptureOutput w) (r3, err0)
              (proj1 (proj2 (CrunchRunProofs.CaptureOutput_appends w _))) Hst3)
    as (Hst2 & Hok3 & Hfst3 & Hsnd3).
  fold re3 in Hfst3, Hsnd3. fold re4 in Hfst4, Hsnd4. fold re5 in Hfst5, Hsnd5.
  cbn [fst snd] in Hst2, Hok3, Hfst3, Hsnd3.
  rewrite Hfs3' in Hst2.
  destruct (Hcomp2 Hst2) as [Er2 Hcc1].
  assert (Hst0 : finalState r0 = "Complete") by congruence.
  destruct (Hcomp0 Hst0) as (Er0 & Eerr & Eerr0).
  destruct (CaptureOutput_ok w r3 Hok3) as (out & Hcap & Hout3 & Hlog3 & Hex3).
  assert (Hlog4 : LogsPDH (fst re4) = None).
  { rewrite Hfst4. cbn. rewrite Hfst3, Hlog3, Hl3', Er2, Hl1, Er0.
    exact Hlogs. }
  destruct (CommitLogs_ok w (fst re4) Hlog4 Hok5)
    as (logs & Hcommit & Hlog5 & Hout5 & Hex5).
  split; [congruence|]. split; [exact Eerr|]. split; [|split].
  - unfold r1 in Hcc1. rewrite Er0 in Hcc1. exact Hcc1.
  - unfold re6, checked. cbn [UpdateContainerFinal fst snd].
    rewrite Hsnd5, Hsnd4, Hsnd3, Eerr0. unfold checkErr.
    destruct (UpdateContainerFinal_err w); [|reflexivity].
    destruct (String.eqb _ "Complete"); reflexivity.
  - exists out, logs. split; [exact Hcap|]. split; [exact Hok4|].
    split; [exact Hcommit|].
    rewrite CrunchRunProofs.final_update_log.
    destruct (CrunchRunProofs.final_update_complete _ Hst5) as [Hx Ho].
    rewrite Hx, Ho, Hfst5, Hlog5, Hout5, Hex5, Hfst4. cbn.
    rewrite Hfst3, Hout3, Hex3, Ho3', He3', Er2, Ho1, He1, Er0, Hout.
    split; [reflexivity|]. split; [destruct out; reflexivity|reflexivity].
Qed.


(** The finalization of a run that is still "Queued": the report alone,
    and the error of the body. *)
Lemma finalize_Queued (w : world) (r : ContainerRunner) (err : error) :
  finalState r = "Queued" ->
  calls (fst (finalize w r err))
  = (calls r ++ [CallUpdateContainerFinal (final_update r)])%list
  /\ snd (finalize w r err) = err.
Proof.
  intros Hq.
  assert (E : checkErr (r, err) err = (r, err)).
  { unfold checkErr. destruct err; [|reflexivity].
    rewrite Hq. reflexivity. }
  unfold finalize. rewrite E.
  rewrite (proj1 (proj2 (deliver_keeps (signal_before_finalize w) r))), Hq.
  cbn [String.eqb Ascii.eqb Bool.eqb].
  cbv beta iota. cbn [UpdateContainerFinal fst snd log_call calls].
  rewrite !final_update_deliver.
  rewrite (proj1 (deliver_keeps (signal_during_finalize w) _)).
  rewrite (proj1 (deliver_keeps (signal_before_finalize w) r)).
  split; reflexivity.
Qed.

(** X4: whatever happens during Run, the last two calls of the runner are
    one UpdateContainerFinal followed by CleanupDirs; it is the only final
    report of the run, and the state it reports is Queued, Cancelled or
    Complete. *)
Theorem Run_reports_once (w : world) :
  exists cs u,
    calls (fst (Run w NewContainerRunner))
    = (cs ++ [CallUpdateContainerFinal u; CallCleanupDirs])%list
    /\ final_reports (fst (Run w NewContainerRunner)) = [u]
    /\ (u !! "state" = Some (VString "Queued")
        \/ u !! "state" = Some (VString "Cancelled")
        \/ u !! "state" = Some (VString "Complete")).
Proof.
  rewrite CrunchRunProofs.Run_unfold. cbn [fst].
  destruct (Run_body_facts w) as (Hrep & Hst & _).
  destruct (Run_body w NewContainerRunner) as [rb eb]. cbn [fst snd] in *.
  rewrite final_reports_calls in Hrep.
  destruct Hst as [Hq|Hst].
  - exists (calls rb), (final_update rb).
    destruct (finalize_Queued w rb eb Hq) as (Hc & _).
    split; [|split].
    + cbn. rewrite Hc, <- app_assoc. reflexivity.
    + rewrite final_reports_calls. cbn [cleanup log_call calls].
      rewrite Hc, !omap_app, Hrep. reflexivity.
    + left. rewrite CrunchRunProofs.final_update_state, Hq. reflexivity.
  - destruct (CrunchRunProofs.finalize_captures w rb eb Hst)
      as (u & Hc & Hu & _).
    exists (calls rb ++ [CallCaptureOutput; CallStopHoststat; CallCommitLogs])%list, u.
    split; [|split].
    + cbn. rewrite Hc, <- !app_assoc. reflexivity.
    + rewrite final_reports_calls. cbn [cleanup log_call calls].
      rewrite Hc, !omap_app, Hrep. reflexivity.
    + destruct Hu; auto.
Qed.

(** X5: when the final report of Run says Complete, no step of the body
    failed, the flag of a cancellation was not set when the finalization
    tested IsCancelled, the container finished with an exit code, the
    output was captured, the host statistics were stopped and the logs
    were committed without error; the report carries that exit code, that
    log and that output, and Run returns the error of the report itself,
    if any.  (A signal caught later, during the finalization, sets the
    flag and leaves the report at Complete.) *)
Theorem Complete_requires_success (w : world) :
  reported_states (fst (Run w NewContainerRunner))
  = [Some (VString "Complete")] ->
  snd (Run_body w NewContainerRunner) = None
  /\ cCancelled (deliver (signal_before_finalize w)
                         (fst (Run_body w NewContainerRunner))) = false
  /\ snd (Run w NewContainerRunner) = UpdateContainerFinal_err w
  /\ exists code out logs u,
       WaitFinish_res w = inr code
       /\ CaptureOutput_res w = inr out
       /\ stopHoststat_err w = None
       /\ CommitLogs_res w = inr logs
       /\ final_reports (fst (Run w NewContainerRunner)) = [u]
       /\ u !! "exit_code" = Some (VInt code)
       /\ u !! "log" = Some (VString logs)
       /\ u !! "output" = VString <$> out.
Proof.
  rewrite CrunchRunProofs.Run_unfold. cbn [fst snd].
  destruct (Run_body_facts w) as (Hrep & Hst & Hlogs & Hout & Hcomp).
  destruct (Run_body w NewContainerRunner) as [rb eb]. cbn [fst snd] in *.
  rewrite final_reports_calls in Hrep.
  unfold reported_states. rewrite final_reports_calls.
  cbn [cleanup log_call calls]. rewrite omap_app. cbn [omap]. rewrite app_nil_r.
  destruct Hst as [Hq|Hst].
  - destruct (finalize_Queued w rb eb Hq) as (Hc & _).
    rewrite Hc, omap_app, Hrep. cbn.
    rewrite CrunchRunProofs.final_update_state, Hq. intros H. discriminate H.
  - destruct (finalize_Complete w rb eb Hst Hlogs Hout) as (u & Hc & Hu).
    rewrite Hc, omap_app, Hrep. cbn. intros H.
    assert (Hstate : u !! "state" = Some (VString "Complete")) by congruence.
    destruct (Hu Hstate)
      as (Hfs & -> & Hcc & Herr & out & logs & H1 & H2 & H3 & H4 & H5 & H6).
    destruct (Hcomp Hfs) as (_ & _ & code & Hw & Hcode).
    split; [reflexivity|]. split; [exact Hcc|]. split; [exact Herr|].
    exists code, out, logs, u. repeat split; auto.
    rewrite H6, Hcode. reflexivity.
Qed.

Lemma Complete_requires_success_witness :
  let w := world_late_signal in
  reported_states (fst (Run w NewContainerRunner))
  = [Some (VString "Complete")]
  /\ final_reports (fst (Run w NewContainerRunner))
     = [ {[ "state" := VString "Complete"; "log" := VString "logs-pdh";
            "exit_code" := VInt 3; "output" := VString "output-pdh" ]} ]
  /\ cCancelled (fst (Run w NewContainerRunner)) = true
  /\ cCancelled (deliver (signal_before_finalize w)
                         (fst (Run_body w NewContainerRunner))) = false
  /\ snd (Run w NewContainerRunner) = None.
Proof.
  intros w.
  assert (H : reported_states (fst (Run w NewContainerRunner))
              = [Some (VString "Complete")]) by (vm_compute; reflexivity).
  split; [exact H|]. split; [vm_compute; reflexivity|].
  split; [reflexivity|].
  destruct (Complete_requires_success w H) as (_ & Hcc & Herr & _).
  split; [exact Hcc|]. rewrite Herr. reflexivity.
Defined.

(** X6: when a stop signal is caught after the container was created and
    before Run tests IsCancelled (the test that precedes
    UpdateContainerRunning), Run returns nil without reporting Running,
    starting the container, capturing output or committing logs; its only
    report to the API server is the record with the state Queued and no
    other field. *)
Theorem signal_before_running_requeues (w : world) (id : string) :
  fetchContainerRecord_err w = None ->
  LoadImage_err w = None ->
  SetupMounts_err w = None ->
  CreateContainer_res w = inr id ->
  id <> "" ->
  LogHostInfo_err w = None ->
  LogNodeRecord_err w = None ->
  LogContainerRecord_err w = None ->
  signal_before_running w = true ->
  snd (Run w NewContainerRunner) = None
  /\ final_reports (fst (Run w NewContainerRunner))
     = [ {[ "state" := VString "Queued" ]} ]
  /\ steps (fst (Run w NewContainerRunner))
     = [CallFetchContainerRecord; CallLoadImage; CallSetupMounts;
        CallCreateContainer; CallUpdateContainerFinal ∅; CallCleanupDirs].
Proof.
  intros Hfetch Hload Hmounts Hcreate Hid Hhost Hnode Hcont Hsig.
  assert (Hbody : Run_body w NewContainerRunner
                  = (mkRunner "Queued" None None None id true
                       [CallFetchContainerRecord; CallLoadImage;
                        CallSetupMounts; CallCreateContainer],
                     None)).
  { unfold Run_body.
    rewrite Hfetch, Hload, Hmounts, Hcreate, Hhost, Hnode, Hcont, Hsig.
    destruct id as [|c id]; [contradiction|]. reflexivity. }
  rewrite CrunchRunProofs.Run_unfold, Hbody. cbn [fst snd].
  match goal with
  | |- context [finalize w ?r None] =>
      destruct (finalize_Queued w r None eq_refl) as (Hc & He)
  end.
  rewrite He. split; [reflexivity|].
  unfold steps. rewrite final_reports_calls.
  cbn [cleanup log_call calls]. rewrite Hc.
  split; reflexivity.
Qed.

Lemma signal_before_running_requeues_witness :
  let w := mkWorld None None (fun _ => false) None (inr "abcde") None None
             None true false None false None (inr 0) false false false
             (inr (Some "output-pdh")) None (inr "logs-pdh") None in
  snd (Run w NewContainerRunner) = None
  /\ final_reports (fst (Run w NewContainerRunner))
     = [ {[ "state" := VString "Queued" ]} ]
  /\ steps (fst (Run w NewContainerRunner))
     = [CallFetchContainerRecord; CallLoadImage; CallSetupMounts;
        CallCreateContainer; CallUpdateContainerFinal ∅; CallCleanupDirs].
Proof.
  intros w.
  apply (signal_before_running_requeues w "abcde");
    try reflexivity; discriminate.
Defined.

End RunProofs.

(** * Properties of the capture of the output *)

Module CaptureProofs.
Import OS Output.

Section Escape.
Context {W : Type}.
Variable fs : filesystem.
Variable r : runner.
Variable UploadFile : string -> string -> W -> W * error.
Variable GetCollection : string -> goerror + Collection.
Variable Extract : string -> string -> string -> string * error.
Variable RefreshOutput : goerror + string.
Variable BeginUpload : W.
Variable EndUpload : W -> W.
Variable cwManifestText : W -> string * error.
Variable ReadMetafile : string -> goerror + (goerror + string).
Variable CreateCollection : string -> goerror + string.

(** X8: when the output directory (an ordinary directory, walked by the
    runner itself) holds, at any depth, a symbolic link for which the
    path of the target, as derefOutputSymlink computes it, neither lies
    below a read-only collection bind nor starts with the host output
    directory followed by a slash, CaptureOutput does not produce an
    output collection.  The test is on the text of the path: the ..
    components of an absolute target are not resolved before it. *)
Theorem CaptureOutput_rejects_escaping_link (fuel depth : nat)
    (cache : gmap string Collection) (e : goerror)
    (root : FileInfo) (p : string) (i : FileInfo) (pdh : string) :
  wantAPI r = false ->
  Stat fs (HostOutputDir r +:+ "/.arvados#collection") = inl e ->
  Lstat fs (HostOutputDir r) = inr root ->
  visits fs (HostOutputDir r) root p i ->
  IsSymlink i = true ->
  find_bind r (collection_binds r) (d_tgt (derefOutputSymlink fs r p i))
  = None ->
  HasPrefix (d_tgt (derefOutputSymlink fs r p i)) (HostOutputDir r +:+ "/")
  = false ->
  CaptureOutput fs r UploadFile GetCollection Extract RefreshOutput
    BeginUpload EndUpload cwManifestText ReadMetafile CreateCollection
    fuel depth cache <> Some (None, Some pdh).
Proof.
  intros Hapi Hmeta Hroot V Hs Hb Hp H.
  destruct (OutputProofs.CaptureOutput_checks_links fs r UploadFile
              GetCollection Extract RefreshOutput BeginUpload EndUpload
              cwManifestText ReadMetafile CreateCollection fuel depth cache
              pdh e root p i Hapi Hmeta H Hroot V Hs) as [Hb'|Hp'].
  - apply Hb'. exact Hb.
  - rewrite Hp in Hp'. discriminate Hp'.
Qed.

End Escape.

Lemma CaptureOutput_rejects_escaping_link_witness :
  collection_binds mounted_runner = ["/keep/in"]
  /\ d_tgt (derefOutputSymlink mounted_escape_fs mounted_runner
              "/host/out/link" (mkFileInfo "link" 11 ModeSymlink))
     = "/etc/passwd"
  /\ CaptureOutput mounted_escape_fs mounted_runner record_file
       mounted_collection extract_all (inl (Err "unused")) [] (fun w => w)
       list_uploads (fun p => inl no_such_file) (fun m => inr "pdh") 3 3 ∅
     = Some (Some (Err "While uploading output files"), None)
  /\ CaptureOutput mounted_escape_fs mounted_runner record_file
       mounted_collection extract_all (inl (Err "unused")) [] (fun w => w)
       list_uploads (fun p => inl no_such_file) (fun m => inr "pdh") 3 3 ∅
     <> Some (None, Some "pdh").
Proof.
  split; [vm_compute; reflexivity|].
  split; [reflexivity|]. split; [vm_compute; reflexivity|].
  apply (CaptureOutput_rejects_escaping_link mounted_escape_fs mounted_runner
           record_file mounted_collection extract_all
           (inl (Err "unused")) [] (fun w => w) list_uploads
           (fun p => inl no_such_file) (fun m => inr "pdh")
           3 3 ∅ no_such_file (mkFileInfo "out" 4096 ModeDir)
           "/host/out/link" (mkFileInfo "link" 11 ModeSymlink) "pdh").
  - reflexivity.
  - reflexivity.
  - reflexivity.
  - eapply (visits_below mounted_escape_fs "/host/out" _
              ["a.txt"; "data"; "link"] "link");
      [reflexivity|reflexivity|right; right; left; reflexivity|reflexivity|].
    apply visits_here.
  - reflexivity.
  - vm_compute. reflexivity.
  - reflexivity.
Defined.

Section Cache.
Context {W : Type}.
Variable Extract : string -> string -> string -> string * error.

(** X9: getCollectionManifestForPath asks the API server for a collection
    the first time its portable data hash is needed and keeps it; every
    later call for the same hash is answered from what was kept, without
    asking again and without changing the cache. *)
Theorem collection_fetched_once
    (GetCollection : string -> goerror + Collection)
    (mnt : Mount) (suffix : string) (st : W * gmap string Collection)
    (c : Collection) :
  snd st !! PortableDataHash mnt = None ->
  GetCollection (PortableDataHash mnt) = inr c ->
  CollectionPDH c <> "" ->
  let st1 := fst (getCollectionManifestForPath GetCollection Extract mnt suffix st) in
  st1 = (fst st, <[PortableDataHash mnt := c]> (snd st))
  /\ forall (GetCollection' : string -> goerror + Collection)
            (mnt' : Mount) (suffix' : string),
       PortableDataHash mnt' = PortableDataHash mnt ->
       getCollectionManifestForPath GetCollection' Extract mnt' suffix' st1
       = (st1,
          if String.eqb (ManifestText c) "" then ("", None)
          else match Extract (ManifestText c) (Path mnt') suffix' with
               | (_, Some _) =>
                   ("", Some (Err ("Error parsing manifest for "
                                   ++ PortableDataHash mnt')))
               | (text, None) => (text, None)
               end).
Proof.
  intros Hmiss Hget Hpdh st1.
  assert (E1 : st1 = (fst st, <[PortableDataHash mnt := c]> (snd st))).
  { unfold st1, getCollectionManifestForPath. destruct st as [w cache].
    cbn [fst snd] in *. rewrite Hmiss. cbn [default zeroCollection CollectionPDH].
    cbn [String.eqb]. rewrite Hget.
    destruct (String.eqb (ManifestText c) ""); [reflexivity|].
    destruct (Extract (ManifestText c) (Path mnt) suffix) as [t [e|]];
      reflexivity. }
  split; [exact E1|].
  intros GetCollection' mnt' suffix' Hsame. rewrite E1.
  unfold getCollectionManifestForPath. rewrite Hsame, lookup_insert_eq.
  cbn [default id]. destruct (String.eqb_spec (CollectionPDH c) "") as [E|_];
    [contradiction|].
  destruct (String.eqb (ManifestText c) ""); [reflexivity|].
  destruct (Extract (ManifestText c) (Path mnt') suffix') as [t [e|]];
    reflexivity.
Qed.

End Cache.

Lemma collection_fetched_once_witness :
  let mnt := mkMount "collection" false "pdh+3" "/" false in
  let c := mkCollection "pdh+3" ". abc+3 0:3:f" in
  let get := fun _ : string => inr c in
  let st1 := fst (getCollectionManifestForPath get extract_all mnt "/in"
                    (tt, ∅)) in
  st1 = (tt, {[ "pdh+3" := c ]})
  /\ getCollectionManifestForPath no_collection extract_all mnt "/other" st1
     = (st1, (". abc+3 0:3:f", None)).
Proof.
  intros mnt c get st1.
  destruct (collection_fetched_once extract_all get mnt "/in" (tt, ∅) c)
    as [H1 H2]; [reflexivity|reflexivity|discriminate|].
  split; [exact H1|].
  exact (H2 no_collection mnt "/other" eq_refl).
Defined.

End CaptureProofs.

(** * Properties of the collection writer *)

Module WriterProofs.
Import OS Upload Writer.

Section Blocks.
Variable md5hex : list Byte.byte -> string.
Variable PutHB : string -> list Byte.byte -> goerror + string.

Lemma BLOCKSIZE_pos : 0 < BLOCKSIZE.
Proof. reflexivity. Qed.

Lemma Blocks_upload_block (m : CollectionFileWriter) (data : list Byte.byte) :
  Blocks (upload_block md5hex PutHB m data)
  = (Blocks m ++ [block_locator md5hex PutHB data])%list
  /\ FileStreamSegments (upload_block md5hex PutHB m data) = FileStreamSegments m
  /\ offset (upload_block md5hex PutHB m data) = offset m
  /\ length (upload_block md5hex PutHB m data) = length m
  /\ fn (upload_block md5hex PutHB m data) = fn m
  /\ StreamName (upload_block md5hex PutHB m data) = StreamName m.
Proof.
  unfold upload_block, block_locator.
  destruct (PutHB (md5hex data) data); repeat split; reflexivity.
Qed.

Lemma errors_upload_block (m : CollectionFileWriter) (data : list Byte.byte) :
  errors (upload_block md5hex PutHB m data)
  = (errors m ++ omap (block_error md5hex PutHB) [data])%list.
Proof.
  unfold upload_block, block_error. cbn.
  destruct (PutHB (md5hex data) data); cbn; [reflexivity|].
  rewrite app_nil_r. reflexivity.
Qed.



(** The loop of [ReadFrom] cuts [block ++ data] into blocks of
    [BLOCKSIZE] bytes, which it uploads in order, and a rest. *)
Lemma fill_blocks (data block : list Byte.byte) (m : CollectionFileWriter) :
  Z.of_nat (List.length block) < BLOCKSIZE ->
  exists chunks rest,
    Blocks (fill md5hex PutHB data block m)
    = (Blocks m ++ map (block_locator md5hex PutHB) chunks)%list
    /\ Block (fill md5hex PutHB data block m) = Some rest
    /\ (concat chunks ++ rest = block ++ data)%list
    /\ Forall (fun c => Z.of_nat (List.length c) = BLOCKSIZE) chunks
    /\ Z.of_nat (List.length rest) < BLOCKSIZE
    /\ errors (fill md5hex PutHB data block m)
       = (errors m ++ omap (block_error md5hex PutHB) chunks)%list.
Proof.
  revert block m. induction data as [|b data IH]; intros block m Hlt;
    cbn [fill].
  - exists [], block. cbn. rewrite !app_nil_r. repeat split; auto.
  - destruct (Z.eqb_spec (Z.of_nat (List.length (block ++ [b])%list)) BLOCKSIZE)
      as [E|E].
    + destruct (IH [] (upload_block md5hex PutHB m (block ++ [b])%list)
                  BLOCKSIZE_pos)
        as (chunks & rest & H1 & H2 & H3 & H4 & H5 & H6).
      destruct (Blocks_upload_block m (block ++ [b])%list) as (U1 & _).
      exists ((block ++ [b])%list :: chunks), rest.
      rewrite H1, U1, H2, H6, errors_upload_block.
      split; [cbn [map]; rewrite <- app_assoc; reflexivity|].
      split; [reflexivity|].
      split; [cbn [concat]; rewrite <- !app_assoc; cbn [app] in *;
              rewrite H3; reflexivity|].
      split; [constructor; assumption|].
      split; [assumption|].
      rewrite <- app_assoc. f_equal.
      change ((block ++ [b])%list :: chunks)
        with ([(block ++ [b])%list] ++ chunks)%list.
      rewrite omap_app. reflexivity.
    + assert (Hlt' : Z.of_nat (List.length (block ++ [b])%list) < BLOCKSIZE).
      { rewrite length_app in *. cbn [List.length] in *. lia. }
      destruct (IH (block ++ [b])%list m Hlt')
        as (chunks & rest & H1 & H2 & H3 & H4 & H5 & H6).
      exists chunks, rest. rewrite H1, H2. repeat split; auto.
      rewrite H3, <- app_assoc. reflexivity.
Qed.

Lemma fill_fields (data block : list Byte.byte) (m : CollectionFileWriter) :
  FileStreamSegments (fill md5hex PutHB data block m) = FileStreamSegments m
  /\ offset (fill md5hex PutHB data block m) = offset m
  /\ length (fill md5hex PutHB data block m) = length m
  /\ fn (fill md5hex PutHB data block m) = fn m
  /\ StreamName (fill md5hex PutHB data block m) = StreamName m.
Proof.
  revert block m. induction data as [|b data IH]; intros block m; cbn [fill].
  - repeat split.
  - destruct (Z.eqb _ _); [|apply IH].
    destruct (IH [] (upload_block md5hex PutHB m (block ++ [b])%list))
      as (H1 & H2 & H3 & H4 & H5).
    destruct (Blocks_upload_block m (block ++ [b])%list)
      as (_ & U2 & U3 & U4 & U5 & U6).
    rewrite H1, H2, H3, H4, H5. auto.
Qed.

(** The block handed to [fill] replaces the one in the writer. *)
Lemma fill_set_Block (data block : list Byte.byte) (m : CollectionFileWriter)
    (x : option (list Byte.byte)) :
  fill md5hex PutHB data block (set_Block m x) = fill md5hex PutHB data block m.
Proof.
  revert block m. induction data as [|b data IH]; intros block m; cbn [fill].
  - reflexivity.
  - destruct (Z.eqb (Z.of_nat (List.length (block ++ [b])%list)) BLOCKSIZE).
    + replace (upload_block md5hex PutHB (set_Block m x) (block ++ [b])%list)
        with (set_Block (upload_block md5hex PutHB m (block ++ [b])%list) x).
      * apply IH.
      * unfold upload_block. destruct (PutHB _ _); reflexivity.
    + apply IH.
Qed.

Lemma fill_set_length (data block : list Byte.byte) (m : CollectionFileWriter)
    (l : Z) :
  fill md5hex PutHB data block (set_length m l)
  = set_length (fill md5hex PutHB data block m) l.
Proof.
  revert block m. induction data as [|b data IH]; intros block m; cbn [fill].
  - reflexivity.
  - destruct (Z.eqb (Z.of_nat (List.length (block ++ [b])%list)) BLOCKSIZE).
    + replace (upload_block md5hex PutHB (set_length m l) (block ++ [b])%list)
        with (set_length (upload_block md5hex PutHB m (block ++ [b])%list) l).
      * apply IH.
      * unfold upload_block. destruct (PutHB _ _); reflexivity.
    + apply IH.
Qed.

Lemma fill_Block (data block : list Byte.byte) (m : CollectionFileWriter) :
  exists rest, Block (fill md5hex PutHB data block m) = Some rest.
Proof.
  revert block m. induction data as [|b data IH]; intros block m; cbn [fill].
  - eexists. reflexivity.
  - destruct (Z.eqb _ _); apply IH.
Qed.

Lemma fill_app (d1 d2 block : list Byte.byte) (m : CollectionFileWriter) :
  fill md5hex PutHB (d1 ++ d2) block m
  = fill md5hex PutHB d2
      (default [] (Block (fill md5hex PutHB d1 block m)))
      (fill md5hex PutHB d1 block m).
Proof.
  revert block m. induction d1 as [|b d1 IH]; intros block m.
  - cbn [app fill]. cbn [set_Block Block default].
    rewrite fill_set_Block. reflexivity.
  - cbn [app fill].
    destruct (Z.eqb (Z.of_nat (List.length (block ++ [b])%list)) BLOCKSIZE);
      apply IH.
Qed.

(** X10: writing to a file of a collection stream in two parts leaves the
    writer in the same state as writing the concatenation at once. *)
Theorem ReadFrom_app (d1 d2 : list Byte.byte) (m : CollectionFileWriter) :
  ReadFrom md5hex PutHB d2 (ReadFrom md5hex PutHB d1 m)
  = ReadFrom md5hex PutHB (d1 ++ d2) m.
Proof.
  unfold ReadFrom. rewrite fill_app.
  set (f1 := fill md5hex PutHB d1 (default [] (Block m)) m).
  change (mkWriter (StreamName f1) (Blocks f1) (FileStreamSegments f1)
            (offset f1) (length f1 + Z.of_nat (List.length d1)) (Block f1)
            (fn f1) (errors f1))
    with (set_length f1 (length f1 + Z.of_nat (List.length d1))).
  cbn [set_length Block]. rewrite fill_set_length.
  set (f2 := fill md5hex PutHB d2 (default [] (Block f1)) f1).
  cbn [set_length StreamName Blocks FileStreamSegments offset length Block fn errors].
  f_equal.
  assert (Hl : length f2 = length f1) by apply fill_fields.
  rewrite length_app, Nat2Z.inj_add. lia.
Qed.


Lemma ReadFrom_chunks (data : list Byte.byte) (m : CollectionFileWriter) :
  Z.of_nat (List.length (default [] (Block m))) < BLOCKSIZE ->
  exists chunks rest,
    Blocks (ReadFrom md5hex PutHB data m)
    = (Blocks m ++ map (block_locator md5hex PutHB) chunks)%list
    /\ Block (ReadFrom md5hex PutHB data m) = Some rest
    /\ (concat chunks ++ rest = default [] (Block m) ++ data)%list
    /\ Forall (fun c => Z.of_nat (List.length c) = BLOCKSIZE) chunks
    /\ Z.of_nat (List.length rest) < BLOCKSIZE
    /\ errors (ReadFrom md5hex PutHB data m)
       = (errors m ++ omap (block_error md5hex PutHB) chunks)%list
    /\ length (ReadFrom md5hex PutHB data m)
       = length m + Z.of_nat (List.length data).
Proof.
  intros Hlt.
  destruct (fill_blocks data (default [] (Block m)) m Hlt)
    as (chunks & rest & H1 & H2 & H3 & H4 & H5 & H6).
  destruct (fill_fields data (default [] (Block m)) m) as (_ & _ & H8 & _).
  exists chunks, rest. unfold ReadFrom.
  cbn [Blocks Block length errors]. rewrite H8.
  repeat split; assumption || reflexivity.
Qed.


Lemma write_file_fields (m : CollectionFileWriter)
    (file : string * list Byte.byte) :
  FileStreamSegments (write_file md5hex PutHB m file)
  = (FileStreamSegments m
     ++ [mkSegment (offset m + length m) (Z.of_nat (List.length (snd file)))
                   (fst file)])%list
  /\ offset (write_file md5hex PutHB m file) = offset m + length m
  /\ length (write_file md5hex PutHB m file) = Z.of_nat (List.length (snd file)).
Proof.
  unfold write_file, Close, ReadFrom.
  cbn [FileStreamSegments offset length fn NewFile Block].
  destruct (fill_fields (snd file) (default [] (Block m))
              (NewFile (fst file) m)) as (H1 & H2 & H3 & H4 & _).
  rewrite H1, H2, H3, H4. cbn [NewFile FileStreamSegments offset length fn].
  repeat split; reflexivity.
Qed.

Lemma write_files_segments (files : list (string * list Byte.byte))
    (m : CollectionFileWriter) :
  FileStreamSegments (fold_left (write_file md5hex PutHB) files m)
  = (FileStreamSegments m ++ segments_from (offset m + length m) files)%list.
Proof.
  revert m. induction files as [|[name data] files IH]; intros m.
  - cbn. rewrite app_nil_r. reflexivity.
  - cbn [fold_left segments_from].
    destruct (write_file_fields m (name, data)) as (H1 & H2 & H3).
    rewrite IH, H1, H2, H3, <- app_assoc. reflexivity.
Qed.

(** X11: ReadFrom cuts the pending bytes followed by the new data into
    blocks of exactly BLOCKSIZE bytes, uploads each of them in order, and
    keeps fewer than BLOCKSIZE bytes pending; the errors of the uploads are
    collected, and the length of the file grows by the number of bytes
    written. *)
Theorem ReadFrom_blocks (data : list Byte.byte) (m : CollectionFileWriter) :
  Z.of_nat (List.length (default [] (Block m))) < BLOCKSIZE ->
  exists chunks rest,
    Blocks (ReadFrom md5hex PutHB data m)
    = (Blocks m ++ map (block_locator md5hex PutHB) chunks)%list
    /\ Block (ReadFrom md5hex PutHB data m) = Some rest
    /\ (concat chunks ++ rest = default [] (Block m) ++ data)%list
    /\ Forall (fun c => Z.of_nat (List.length c) = BLOCKSIZE) chunks
    /\ Z.of_nat (List.length rest) < BLOCKSIZE
    /\ errors (ReadFrom md5hex PutHB data m)
       = (errors m ++ omap (block_error md5hex PutHB) chunks)%list
    /\ length (ReadFrom md5hex PutHB data m)
       = length m + Z.of_nat (List.length data).
Proof. exact (ReadFrom_chunks data m). Qed.

Lemma write_file_blocks (m : CollectionFileWriter)
    (file : string * list Byte.byte) (chunks rest : list (list Byte.byte))
    (pending : list Byte.byte) :
  Blocks m = map (block_locator md5hex PutHB) chunks ->
  errors m = omap (block_error md5hex PutHB) chunks ->
  default [] (Block m) = pending ->
  Z.of_nat (List.length pending) < BLOCKSIZE ->
  exists chunks' pending',
    Blocks (write_file md5hex PutHB m file)
    = map (block_locator md5hex PutHB) (chunks ++ chunks')%list
    /\ errors (write_file md5hex PutHB m file)
       = omap (block_error md5hex PutHB) (chunks ++ chunks')%list
    /\ Block (write_file md5hex PutHB m file) = Some pending'
    /\ (concat chunks' ++ pending' = pending ++ snd file)%list
    /\ Z.of_nat (List.length pending') < BLOCKSIZE.
Proof.
  intros Hb He Hp Hlt. unfold write_file, Close. cbn [Blocks Block errors].
  assert (Hlt' : Z.of_nat (List.length (default [] (Block (NewFile (fst file) m))))
                 < BLOCKSIZE) by (cbn [NewFile Block]; rewrite Hp; exact Hlt).
  destruct (ReadFrom_chunks (snd file) (NewFile (fst file) m) Hlt')
    as (chunks' & pending' & H1 & H2 & H3 & _ & H5 & H6 & _).
  exists chunks', pending'. rewrite H1, H2, H6.
  cbn [NewFile Blocks Block errors] in *.
  rewrite Hb, He, Hp in *. rewrite map_app, omap_app. auto.
Qed.

Lemma write_files_blocks (files : list (string * list Byte.byte))
    (m : CollectionFileWriter) (chunks : list (list Byte.byte))
    (pending : list Byte.byte) :
  Blocks m = map (block_locator md5hex PutHB) chunks ->
  errors m = omap (block_error md5hex PutHB) chunks ->
  default [] (Block m) = pending ->
  Z.of_nat (List.length pending) < BLOCKSIZE ->
  exists blocks,
    Blocks (finish_stream md5hex PutHB
              (fold_left (write_file md5hex PutHB) files m))
    = map (block_locator md5hex PutHB) blocks
    /\ errors (finish_stream md5hex PutHB
                 (fold_left (write_file md5hex PutHB) files m))
       = omap (block_error md5hex PutHB) blocks
    /\ (concat blocks
        = concat chunks
          ++ match files, Block m with
             | [], None => []
             | _, _ => pending
             end
          ++ concat (map snd files))%list.
Proof.
  revert m chunks pending.
  induction files as [|file files IH]; intros m chunks pending Hb He Hp Hlt.
  - cbn [fold_left map concat]. unfold finish_stream.
    destruct (Block m) as [data|] eqn:E.
    + exists (chunks ++ [data])%list.
      destruct (Blocks_upload_block m data) as [U1 _].
      rewrite U1, errors_upload_block, Hb, He, map_app, omap_app.
      cbn in Hp. subst data.
      rewrite concat_app. cbn. rewrite !app_nil_r. auto.
    + exists chunks. rewrite !app_nil_r. auto.
  - cbn [fold_left map concat].
    destruct (write_file_blocks m file chunks [] pending Hb He Hp Hlt)
      as (chunks' & pending' & H1 & H1e & H2 & H3 & H4).
    destruct (IH (write_file md5hex PutHB m file) (chunks ++ chunks')%list
                pending' H1 H1e (f_equal (default []) H2) H4)
      as (blocks & B1 & B1e & B2).
    exists blocks. split; [exact B1|]. split; [exact B1e|].
    rewrite B2, H2, concat_app.
    rewrite <- !app_assoc. f_equal.
    assert (E : (match files with
                 | [] | _ => pending'
                 end) = pending') by (destruct files; reflexivity).
    rewrite E, (app_assoc (concat chunks')), H3, <- app_assoc.
    reflexivity.
Qed.

Lemma segment_bytes_at (pre data post : list Byte.byte) (name : string) :
  segment_bytes (mkSegment (Z.of_nat (List.length pre))
                           (Z.of_nat (List.length data)) name)
                (pre ++ data ++ post)%list
  = data.
Proof.
  unfold segment_bytes. cbn [SegPos SegLen]. rewrite !Nat2Z.id.
  rewrite drop_app_length, take_app_length. reflexivity.
Qed.

Lemma segments_from_read_back (files : list (string * list Byte.byte))
    (pre : list Byte.byte) :
  Forall2 (fun seg file =>
             SegName seg = fst file
             /\ segment_bytes seg (pre ++ concat (map snd files))%list
                = snd file)
          (segments_from (Z.of_nat (List.length pre)) files) files.
Proof.
  revert pre. induction files as [|[name data] files IH]; intros pre.
  - constructor.
  - cbn [segments_from map concat snd]. constructor.
    + split; [reflexivity|]. apply segment_bytes_at.
    + specialize (IH (pre ++ data)%list).
      rewrite length_app, Nat2Z.inj_add, <- app_assoc in IH. exact IH.
Qed.

Lemma omap_block_error_nil (blocks : list (list Byte.byte)) :
  omap (block_error md5hex PutHB) blocks = []
  <-> Forall (fun b => exists loc, PutHB (md5hex b) b = inr loc) blocks.
Proof.
  induction blocks as [|b blocks IH]; cbn.
  - split; [constructor|reflexivity].
  - unfold block_error at 1. destruct (PutHB (md5hex b) b) as [e|loc] eqn:E.
    + split; [discriminate|]. intros H. inversion H as [|? ? [loc Hloc] _].
      congruence.
    + rewrite IH. split.
      * intros H. constructor; [eauto|exact H].
      * intros H. inversion H. assumption.
Qed.

(** X12: after any sequence of files has been written to a stream and the
    stream is finished, the uploaded blocks concatenate to the contents of
    the files in order, every file segment names its file and delimits
    exactly its bytes in that concatenation, and ManifestText reports no
    error exactly when the block store accepted every block. *)
Theorem stream_segments_read_back (dir : string)
    (files : list (string * list Byte.byte)) :
  let m := fold_left (write_file md5hex PutHB) files (new_stream dir) in
  exists blocks,
    Blocks (finish_stream md5hex PutHB m)
    = map (block_locator md5hex PutHB) blocks
    /\ concat blocks = concat (map snd files)
    /\ Forall2 (fun seg file =>
                  SegName seg = fst file
                  /\ segment_bytes seg (concat blocks) = snd file)
               (FileStreamSegments m) files
    /\ (snd (ManifestText md5hex PutHB [m]) = None
        <-> Forall (fun b => exists loc, PutHB (md5hex b) b = inr loc) blocks).
Proof.
  intros m.
  destruct (write_files_blocks files (new_stream dir) [] [] eq_refl eq_refl
              eq_refl BLOCKSIZE_pos) as (blocks & B1 & B1e & B2).
  assert (E : concat blocks = concat (map snd files)).
  { rewrite B2. cbn. destruct files; reflexivity. }
  exists blocks. split; [exact B1|]. split; [exact E|]. split.
  - unfold m. rewrite write_files_segments, E.
    cbn [new_stream FileStreamSegments offset length app].
    exact (segments_from_read_back files []).
  - rewrite <- omap_block_error_nil, <- B1e. unfold ManifestText.
    cbn [map concat]. rewrite app_nil_r. fold m.
    destruct (errors (finish_stream md5hex PutHB m)); cbn; split;
      intros H; try reflexivity; discriminate H.
Qed.


(** X13: a file shorter than one block that is opened with Open, written
    and closed gives a manifest of one line: stream, locator of the single
    block, and 0:size:name.  The path is split at its first slash; the
    stream of a path with a directory already starts with ./ when
    ManifestText adds its own ./ in front. *)
Theorem Open_manifest_line (path : string) (data : list Byte.byte)
    (loc : string) :
  Z.of_nat (List.length data) < BLOCKSIZE ->
  PutHB (md5hex data) data = inr loc ->
  ManifestText md5hex PutHB [Close (Write md5hex PutHB data (Open path))]
  = (match String.index 0 "/" path with
     | Some i => "././" +:+ escape_name (String.substring 0 i path)
     | None => "."
     end
     +:+ " " +:+ loc
     +:+ " 0:" +:+ pretty (Z.of_nat (List.length data)) +:+ ":"
     +:+ escape_name (match String.index 0 "/" path with
                      | Some i => drop_string (S i) path
                      | None => path
                      end)
     +:+ String newline "",
     None).
Proof.
  intros Hlt Hput.
  assert (Hw : forall m, Block m = None -> Blocks m = [] -> errors m = [] ->
                         FileStreamSegments m = [] -> offset m = 0 ->
                         length m = 0 ->
               finish_stream md5hex PutHB (Close (Write md5hex PutHB data m))
               = mkWriter (StreamName m) [loc]
                   [mkSegment 0 (Z.of_nat (List.length data)) (fn m)]
                   0 (Z.of_nat (List.length data)) (Some data) (fn m) []).
  { intros m Hb Hbs He Hs Ho Hl. unfold Write, ReadFrom. rewrite Hb.
    cbn [default].
    rewrite (UploadProofs.fill_short md5hex PutHB data [] m)
      by (cbn [List.length Nat.add]; exact Hlt).
    cbn [app set_Block Close finish_stream StreamName Blocks FileStreamSegments
         offset length Block fn errors].
    unfold upload_block. rewrite Hput.
    cbn [StreamName Blocks FileStreamSegments offset length Block fn errors].
    rewrite Hbs, He, Hs, Ho, Hl. reflexivity. }
  unfold ManifestText. cbn [map]. unfold Open.
  destruct (String.index 0 "/" path) as [i|]; rewrite Hw by reflexivity;
    cbn [errors map concat app StreamName fn].
  - unfold stream_text, segment_text.
    cbn [FileStreamSegments StreamName Blocks map String.concat SegPos SegLen
         SegName].
    change (pretty 0) with "0".
    cbn [String.eqb Ascii.eqb Bool.eqb escape_name append].
    rewrite !StringFacts.append_assoc. reflexivity.
  - unfold stream_text, segment_text.
    cbn [FileStreamSegments StreamName Blocks map String.concat SegPos SegLen
         SegName].
    change (pretty 0) with "0".
    cbn [String.eqb Ascii.eqb Bool.eqb append].
    rewrite !StringFacts.append_assoc. reflexivity.
Qed.

End Blocks.

Section Symlinks.
Variable md5hex : list Byte.byte -> string.
Variable PutHB : string -> list Byte.byte -> goerror + string.
Variable fs : filesystem.

(** X14: when WalkFunc meets a symbolic link to a directory it walks the
    entries of the directory itself and drops the result of every one of
    these calls: whatever goes wrong below the link, the call for the link
    returns nil. *)
Theorem WalkFunc_symlinked_directory_hides_errors (fuel depth : nat)
    (path : string) (info : FileInfo) (target : string) (ti : FileInfo)
    (rd : list string) (m : WalkUpload) (res : WalkUpload * error) :
  IsSymlink info = true ->
  EvalSymlinks fs path = inr target ->
  Stat fs target = inr ti ->
  IsDir ti = true ->
  ReadDirNames fs path = inr rd ->
  WalkFunc md5hex PutHB fs (S fuel) depth path (Some info) None m = Some res ->
  snd res = None.
Proof.
  intros Hs He Hst Hd Hrd H.
  assert (Hr : IsRegular ti = false).
  { unfold IsDir in Hd. unfold IsRegular. destruct (Mode ti); congruence. }
  cbn [WalkFunc] in H. rewrite Hs, He, Hst, Hd, Hrd in H.
  match type of H with
  | match ?F rd m with _ => _ end = _ =>
      assert (HF : forall rd m r, F rd m = Some r -> snd r = inr ti)
  end.
  { clear. induction rd as [|ent rd IH]; intros m r H.
    - inversion H. reflexivity.
    - destruct (Walk fs (WalkFunc md5hex PutHB fs fuel depth) depth
                  (Join fs path ent) m) as [[m' e]|]; [|discriminate H].
      exact (IH m' r H). }
  match type of H with
  | match ?F rd m with _ => _ end = _ =>
      destruct (F rd m) as [[m' x]|] eqn:E; [|discriminate H]
  end.
  apply HF in E. cbn in E. subst x. rewrite Hr in H. cbn in H.
  inversion H. reflexivity.
Qed.

End Symlinks.

Lemma ReadFrom_blocks_witness :
  exists chunks rest,
    Blocks (ReadFrom MD5.hexsum unsigned_PutHB (bytes "foo") (new_stream "."))
    = ([] ++ map (block_locator MD5.hexsum unsigned_PutHB) chunks)%list
    /\ Block (ReadFrom MD5.hexsum unsigned_PutHB (bytes "foo") (new_stream "."))
       = Some rest
    /\ (concat chunks ++ rest = [] ++ bytes "foo")%list
    /\ Forall (fun c => Z.of_nat (List.length c) = BLOCKSIZE) chunks
    /\ Z.of_nat (List.length rest) < BLOCKSIZE
    /\ errors (ReadFrom MD5.hexsum unsigned_PutHB (bytes "foo") (new_stream "."))
       = ([] ++ omap (block_error MD5.hexsum unsigned_PutHB) chunks)%list
    /\ length (ReadFrom MD5.hexsum unsigned_PutHB (bytes "foo") (new_stream "."))
       = 0 + 3.
Proof.
  apply (ReadFrom_blocks MD5.hexsum unsigned_PutHB (bytes "foo") (new_stream ".")).
  reflexivity.
Defined.


Lemma Open_manifest_line_witness :
  ManifestText MD5.hexsum unsigned_PutHB
    [Close (Write MD5.hexsum unsigned_PutHB (bytes test_logtext)
              (Open "crunch-run.txt"))]
  = (". 74561df9ae65ee9f35d5661d42454264+83 0:83:crunch-run.txt"
     +:+ String newline "", None)
  /\ ManifestText MD5.hexsum unsigned_PutHB
       [Close (Write MD5.hexsum unsigned_PutHB (bytes "foo")
                 (Open "logs/stdout.txt"))]
     = ("././logs acbd18db4cc2f85cedef654fccc4a4d8+3 0:3:stdout.txt"
        +:+ String newline "", None).
Proof.
  split.
  - rewrite (Open_manifest_line MD5.hexsum unsigned_PutHB "crunch-run.txt"
               (bytes test_logtext) "74561df9ae65ee9f35d5661d42454264+83").
    + vm_compute. reflexivity.
    + reflexivity.
    + vm_compute. reflexivity.
  - rewrite (Open_manifest_line MD5.hexsum unsigned_PutHB "logs/stdout.txt"
               (bytes "foo") "acbd18db4cc2f85cedef654fccc4a4d8+3").
    + vm_compute. reflexivity.
    + reflexivity.
    + vm_compute. reflexivity.
Defined.

Lemma WalkFunc_symlinked_directory_hides_errors_witness :
  let fs := mem_fs dangling_tree in
  let m := mkWalkUpload "/tmp/t" ∅ in
  Walk fs (WalkFunc MD5.hexsum unsigned_PutHB fs 1 3) 3 "/tmp/t/d/gone" m
  = Some (m, Some no_such_file)
  /\ exists res,
       WalkFunc MD5.hexsum unsigned_PutHB fs 2 3 "/tmp/t/d"
         (Some (mkFileInfo "d" 11 ModeSymlink)) None m = Some res
       /\ snd res = None.
Proof.
  intros fs m. split; [reflexivity|].
  exists (m, None).
  assert (H : WalkFunc MD5.hexsum unsigned_PutHB fs 2 3 "/tmp/t/d"
                (Some (mkFileInfo "d" 11 ModeSymlink)) None m
              = Some (m, None)) by reflexivity.
  split; [exact H|].
  apply (WalkFunc_symlinked_directory_hides_errors MD5.hexsum unsigned_PutHB
           fs 1 3 "/tmp/t/d" (mkFileInfo "d" 11 ModeSymlink) "/tmp/t/real"
           (mkFileInfo "real" 4096 ModeDir) ["gone"] m (m, None));
    reflexivity.
Defined.

End WriterProofs.

(** * Properties of the first statement of the sweep *)

Module SweepProofs.
Import Store.

Lemma sql_not_in_null (x : string) (l : list (option string)) :
  In None l -> sql_not_in x l = false.
Proof.
  unfold sql_not_in.
  induction l as [|y l IH]; intros H; [destruct H|].
  cbn [forallb]. destruct H as [->|H]; [reflexivity|].
  rewrite (IH H). apply andb_false_r.
Qed.

Lemma sql_not_in_true (x : string) (l : list (option string)) :
  sql_not_in x l = true <-> ~ In None l /\ ~ In (Some x) l.
Proof.
  unfold sql_not_in.
  induction l as [|y l IH]; cbn [forallb In].
  - tauto.
  - rewrite andb_true_iff, IH. destruct y as [u|].
    + rewrite negb_true_iff. destruct (String.eqb_spec x u) as [->|Hne].
      * split; [intros [H _]; discriminate H|]. intros [_ H]. exfalso. auto.
      * split.
        -- intros (_ & H1 & H2). split; intros [H|H]; try discriminate; auto.
           inversion H. congruence.
        -- intros [H1 H2]. split; [reflexivity|]. split; auto.
    + split; [intros [H _]; discriminate H|]. intros [H _]. exfalso. auto.
Qed.

(** X15: the first statement of UpdatePriority.update_priority resets no
    container at all when some Committed request with positive priority
    has a NULL container_uuid (NOT IN is then never true); otherwise every
    active container that keeps a positive priority is referenced by such
    a request. *)
Theorem reset_spares_everything_on_null (d : db) :
  (In None (wanted_container_uuids d) -> reset_unwanted d = d)
  /\ (~ In None (wanted_container_uuids d) ->
      forall c, In c (containers (reset_unwanted d)) ->
        active (c_state c) = true -> 0 < c_priority c ->
        exists r, In r (container_requests d)
                  /\ committed_positive r = true
                  /\ cr_container_uuid r = Some (c_uuid c)).
Proof.
  split.
  - intros Hnull. unfold reset_unwanted. destruct d as [cs rs]. cbn [containers container_requests].
    f_equal. rewrite <- (map_id cs) at 2. apply map_ext. intros c.
    rewrite (sql_not_in_null _ _ Hnull), andb_false_r. reflexivity.
  - intros Hnonull c Hin Hact Hpos. unfold reset_unwanted in Hin.
    cbn [containers] in Hin. apply in_map_iff in Hin.
    destruct Hin as (c0 & Hc & Hin0).
    destruct (active (c_state c0) && (0 <? c_priority c0)%Z
              && sql_not_in (c_uuid c0) (wanted_container_uuids d)) eqn:E.
    + subst c. cbn in Hpos. lia.
    + subst c0. rewrite Hact in E. apply Z.ltb_lt in Hpos. rewrite Hpos in E.
      cbn in E.
      assert (Hw : In (Some (c_uuid c)) (wanted_container_uuids d)).
      { destruct (in_dec (option_eq_dec (A:=string)) (Some (c_uuid c))
                    (wanted_container_uuids d)) as [H|H]; [exact H|].
        exfalso. assert (sql_not_in (c_uuid c) (wanted_container_uuids d) = true)
          by (apply sql_not_in_true; auto).
        congruence. }
      unfold wanted_container_uuids in Hw. apply in_map_iff in Hw.
      destruct Hw as (r & Hr & Hin). apply filter_In in Hin.
      destruct Hin as [Hin Hcp]. exists r. auto.
Qed.

Lemma reset_spares_everything_on_null_witness :
  let d := mkDb [mkContainer "c" Queued 5 None]
                [mkRequest "cr" Committed (Some 3) None None] in
  In None (wanted_container_uuids d)
  /\ reset_unwanted d = d
  /\ (forall r, In r (container_requests d) ->
                cr_container_uuid r <> Some "c").
Proof.
  intros d.
  assert (H : In None (wanted_container_uuids d)) by (left; reflexivity).
  split; [exact H|]. split.
  - exact (proj1 (reset_spares_everything_on_null d) H).
  - intros r [<-|[]]. discriminate.
Defined.

End SweepProofs.

(** * Properties of the attach stream *)

Module AttachProofs.
Import OS Attach.

Lemma ReadAtLeast8_frame (h p rest : list Byte.byte) (e : goerror) :
  List.length h = 8%nat ->
  ReadAtLeast8 (mkReader (h ++ p ++ rest) e)
  = (mkReader (p ++ rest) e, inr h).
Proof.
  intros Hh. unfold ReadAtLeast8. cbn [pending final].
  assert (Hle : Nat.leb 8 (List.length (h ++ p ++ rest)) = true).
  { apply Nat.leb_le. rewrite length_app. lia. }
  rewrite Hle, <- Hh, drop_app_length, take_app_length. reflexivity.
Qed.

Lemma CopyN_payload (w : writer) (p rest : list Byte.byte) (e : goerror) :
  CopyN w (mkReader (p ++ rest) e) (Z.of_nat (List.length p))
  = (mkWriter (written w ++ p) (closed w), mkReader rest e, None).
Proof.
  unfold CopyN. cbn [pending final].
  assert (Hle : (Z.of_nat (List.length p)
                 <=? Z.of_nat (List.length (p ++ rest)))%Z = true).
  { apply Z.leb_le. rewrite length_app. lia. }
  rewrite Hle, Nat2Z.id, drop_app_length, take_app_length. reflexivity.
Qed.

Lemma demux_frames (frames : list (list Byte.byte * list Byte.byte))
    (rest : list Byte.byte) (e : goerror) (fuel : nat) (s : streams) :
  Forall well_formed frames ->
  demux (List.length frames + fuel) (mkReader (concat (map frame_bytes frames) ++ rest) e) s
  = demux fuel (mkReader rest e)
      (mkStreams
         (mkWriter (written (Stdout s) ++ payloads to_stdout frames)
                   (closed (Stdout s)))
         (mkWriter (written (Stderr s)
                    ++ payloads (fun f => negb (to_stdout f)) frames)
                   (closed (Stderr s)))
         (CrunchLog s)).
Proof.
  intros Hwf. revert s. induction Hwf as [|[h p] frames [Hh Hsize] _ IH];
    intros s.
  - cbn. unfold payloads. cbn. rewrite !app_nil_r.
    destruct s as [[] []]. reflexivity.
  - cbn [List.length Nat.add map concat frame_bytes fst snd] in *.
    cbn [demux]. unfold frame_bytes at 1. cbn [fst snd].
    rewrite <- !app_assoc, (ReadAtLeast8_frame h _ _ e Hh).
    unfold payloads, to_stdout. cbn [List.filter fst snd].
    rewrite Hsize.
    destruct (Z.eqb (byte_at h 0) 1); cbn [negb];
      rewrite CopyN_payload, IH; cbn [Stdout Stderr CrunchLog written closed];
      unfold payloads, to_stdout; cbn [map concat snd];
      rewrite <- ?app_assoc; reflexivity.
Qed.


Lemma frames_length (frames : list (list Byte.byte * list Byte.byte)) :
  Forall well_formed frames ->
  (List.length frames <= List.length (concat (map frame_bytes frames)))%nat.
Proof.
  induction 1 as [|[h p] frames [Hh _] _ IH]; [reflexivity|].
  cbn [map concat List.length]. unfold frame_bytes at 1. cbn [fst snd] in *.
  rewrite !length_app. lia.
Qed.

(** What is left of the streams when [demux] stops after the frames. *)
Lemma demux_stops (frames : list (list Byte.byte * list Byte.byte))
    (rest : list Byte.byte) (e : goerror) (s : streams) :
  Forall well_formed frames ->
  demux (S (List.length (concat (map frame_bytes frames) ++ rest)))
        (mkReader (concat (map frame_bytes frames) ++ rest) e) s
  = demux (S (List.length (concat (map frame_bytes frames) ++ rest)
              - List.length frames))
      (mkReader rest e)
      (mkStreams
         (mkWriter (written (Stdout s) ++ payloads to_stdout frames)
                   (closed (Stdout s)))
         (mkWriter (written (Stderr s)
                    ++ payloads (fun f => negb (to_stdout f)) frames)
                   (closed (Stderr s)))
         (CrunchLog s)).
Proof.
  intros Hwf. pose proof (frames_length frames Hwf) as Hlen.
  rewrite <- (demux_frames frames rest e _ s Hwf). f_equal.
  rewrite length_app. lia.
Qed.

(** X16: for a stream of well-formed frames of the Docker log protocol
    that ends with EOF, ProcessDockerAttach appends the payloads of the
    frames of type 1 to stdout and those of all other frames to stderr, in
    order, closes both, and writes nothing to the log of the runner. *)
Theorem ProcessDockerAttach_demultiplexes
    (frames : list (list Byte.byte * list Byte.byte)) (s : streams) :
  Forall well_formed frames ->
  ProcessDockerAttach (mkReader (concat (map frame_bytes frames)) EOF) s
  = Some (mkStreams
            (mkWriter (written (Stdout s) ++ payloads to_stdout frames) true)
            (mkWriter (written (Stderr s)
                       ++ payloads (fun f => negb (to_stdout f)) frames) true)
            (CrunchLog s)).
Proof.
  intros Hwf. unfold ProcessDockerAttach. cbn [pending].
  pose proof (demux_stops frames [] EOF s Hwf) as H.
  rewrite app_nil_r in H. rewrite H. reflexivity.
Qed.

Lemma ProcessDockerAttach_demultiplexes_witness :
  let b := list_byte_of_string in
  let frames :=
    [([Byte.x01; Byte.x00; Byte.x00; Byte.x00;
       Byte.x00; Byte.x00; Byte.x00; Byte.x03], b "out");
     ([Byte.x02; Byte.x00; Byte.x00; Byte.x00;
       Byte.x00; Byte.x00; Byte.x00; Byte.x04], b "oops");
     ([Byte.x01; Byte.x00; Byte.x00; Byte.x00;
       Byte.x00; Byte.x00; Byte.x00; Byte.x04], b "put!")] in
  Forall well_formed frames
  /\ ProcessDockerAttach (mkReader (concat (map frame_bytes frames)) EOF)
       (mkStreams new_writer new_writer [])
     = Some (mkStreams (mkWriter (b "output!") true)
                       (mkWriter (b "oops") true) []).
Proof.
  intros b frames.
  assert (Hwf : Forall well_formed frames).
  { repeat constructor. }
  split; [exact Hwf|].
  exact (ProcessDockerAttach_demultiplexes frames
           (mkStreams new_writer new_writer []) Hwf).
Defined.

Lemma CopyN_short (w : writer) (part : list Byte.byte) (e : goerror) (n : Z) :
  Z.of_nat (List.length part) < n ->
  CopyN w (mkReader part e) n
  = (mkWriter (written w ++ part) (closed w), mkReader [] e, Some e).
Proof.
  intros Hlt. unfold CopyN. cbn [pending final].
  destruct (Z.leb_spec n (Z.of_nat (List.length part))); [lia|reflexivity].
Qed.

(** X17: when the stream breaks off inside the payload of a frame, the
    part of the payload that arrived is still delivered and the log of the
    runner gets one line with the error of the stream; when it ends inside
    a header, nothing of that frame is delivered and the line says
    unexpected EOF.  Both streams are closed in either case. *)
Theorem ProcessDockerAttach_truncated
    (frames : list (list Byte.byte * list Byte.byte))
    (h part : list Byte.byte) (e : goerror) (s : streams) :
  Forall well_formed frames ->
  let out := (written (Stdout s) ++ payloads to_stdout frames)%list in
  let err := (written (Stderr s)
              ++ payloads (fun f => negb (to_stdout f)) frames)%list in
  (List.length h = 8%nat ->
   Z.of_nat (List.length part) < readsize h ->
   ProcessDockerAttach
     (mkReader (concat (map frame_bytes frames) ++ h ++ part) e) s
   = Some (mkStreams
             (mkWriter (if to_stdout (h, part) then out ++ part else out)%list
                       true)
             (mkWriter (if to_stdout (h, part) then err else err ++ part)%list
                       true)
             (CrunchLog s ++ ["error reading docker logs: " +:+ message e])))
  /\ ((0 < List.length h < 8)%nat ->
      ProcessDockerAttach
        (mkReader (concat (map frame_bytes frames) ++ h) EOF) s
      = Some (mkStreams (mkWriter out true) (mkWriter err true)
                (CrunchLog s ++ ["error reading docker logs: unexpected EOF"]))).
Proof.
  intros Hwf out err. split.
  - intros Hh Hlt. unfold ProcessDockerAttach. cbn [pending].
    rewrite (demux_stops frames (h ++ part) e s Hwf). cbn [demux].
    pose proof (ReadAtLeast8_frame h part [] e Hh) as HR.
    rewrite app_nil_r in HR. rewrite HR.
    unfold to_stdout. cbn [fst Stdout Stderr CrunchLog].
    destruct (Z.eqb (byte_at h 0) 1); rewrite (CopyN_short _ part e _ Hlt);
      reflexivity.
  - intros Hh. unfold ProcessDockerAttach. cbn [pending].
    rewrite (demux_stops frames h EOF s Hwf). cbn [demux].
    unfold ReadAtLeast8. cbn [pending final].
    destruct (Nat.leb_spec 8 (List.length h)); [lia|].
    destruct h as [|b h]; [cbn in Hh; lia|]. reflexivity.
Qed.

Lemma ProcessDockerAttach_truncated_witness :
  let b := list_byte_of_string in
  let frame :=
    ([Byte.x02; Byte.x00; Byte.x00; Byte.x00;
      Byte.x00; Byte.x00; Byte.x00; Byte.x02], b "no") in
  let header :=
    [Byte.x01; Byte.x00; Byte.x00; Byte.x00;
     Byte.x00; Byte.x00; Byte.x01; Byte.x00] in
  let s := mkStreams new_writer new_writer [] in
  ProcessDockerAttach
    (mkReader (frame_bytes frame ++ header ++ b "cut") (Err "connection reset"))
    s
  = Some (mkStreams (mkWriter (b "cut") true) (mkWriter (b "no") true)
            ["error reading docker logs: connection reset"])
  /\ ProcessDockerAttach
       (mkReader (frame_bytes frame ++ [Byte.x01; Byte.x00; Byte.x00]) EOF) s
     = Some (mkStreams (mkWriter [] true) (mkWriter (b "no") true)
               ["error reading docker logs: unexpected EOF"]).
Proof.
  intros b frame header s.
  assert (Hwf : Forall well_formed [frame]).
  { repeat constructor. }
  split.
  - apply (proj1 (ProcessDockerAttach_truncated [frame] header (b "cut")
                    (Err "connection reset") s Hwf));
      [reflexivity|vm_compute; reflexivity].
  - apply (proj2 (ProcessDockerAttach_truncated [frame]
                    [Byte.x01; Byte.x00; Byte.x00] [] EOF s Hwf)).
    cbn. lia.
Defined.

End AttachProofs.

(** * Properties of the mounts *)

Module MountsProofs.
Import OS Mounts.

Section WithHost.
Variable MkTempDir : nat -> string -> string -> goerror + string.
Variable GetAuth : goerror + string.
Variable fs : filesystem.
Variable Marshal : string -> goerror + string.
Variable WriteFile : string -> string -> error.
Variable extractTree : Mount -> string -> string -> error.
Variable RunArvMount : list string -> string -> error.
Variable copyfile : string -> string -> error.
Variable MkdirAll : string -> error.
Variable Clean : string -> string.
Variable pathJoin : string -> string -> string.
Variable CertFiles : list string.

Ltac split_if H :=
  match type of H with
  | (if ?c then _ else _) = _ => destruct c eqn:?
  | match ?c with _ => _ end = _ => destruct c eqn:?
  | (let '(_, _) := ?c in _) = _ => destruct c eqn:?
  end.

Lemma eqb_false_neq (a b : string) : String.eqb a b = false -> a <> b.
Proof. apply String.eqb_neq. Qed.

Ltac added_binds :=
  let E := fresh in
  first
    [ exists []; split;
      [rewrite app_nil_r; reflexivity
      |intros E; first [discriminate E | congruence | eexists; reflexivity]]
    | eexists; split;
      [reflexivity
      |intros E; first [discriminate E | congruence | eexists; reflexivity]] ].

Ltac finish H :=
  inversion H; subst; clear H;
  cbn [fst snd ArvMountPoint HostOutputDir Binds ContainerMounts OutputPath
       KeepCacheRAM wantAPI parentTemp statInterval token ArvMount temps
       pdhOnly tmpcount arvMountCmd collectionPaths copyFiles needCertMount
       set_ArvMountPoint set_HostOutputDir set_Binds set_ContainerMounts
       set_token set_ArvMount set_temps add_Bind
       Kind Writable PortableDataHash UUID Path Content];
  repeat split; auto; try congruence;
  try (rewrite ?andb_true_r, ?andb_false_r; reflexivity);
  try added_binds;
  try (exists []; rewrite app_nil_r; reflexivity);
  try (eexists; reflexivity).

Lemma collection_src_ok (bind : string) (mnt : Mount)
    (r : runner) (l : locals) (r' : runner) (l' : locals) (src : string) :
  collection_src Clean bind mnt (r, l) = inr (r', l', src) ->
  ((UUID mnt = "" \/ PortableDataHash mnt = "")
   /\ (UUID mnt <> "" -> Writable mnt = false)
   /\ (PortableDataHash mnt <> "" -> Writable mnt = true ->
       HasPrefix bind (OutputPath r +:+ "/") = true))
  /\ OutputPath r' = OutputPath r
  /\ ArvMountPoint r' = ArvMountPoint r
  /\ wantAPI r' = wantAPI r
  /\ HostOutputDir r' = HostOutputDir r
  /\ Binds r' = Binds r
  /\ (forall k, k <> bind -> ContainerMounts r' !! k = ContainerMounts r !! k)
  /\ pdhOnly l' = pdhOnly l && String.eqb (UUID mnt) ""
  /\ (exists more, arvMountCmd l' = (arvMountCmd l ++ more)%list).
Proof.
  intros H. unfold collection_src in H.
  destruct (String.eqb_spec (UUID mnt) "") as [Eu|Eu],
           (String.eqb_spec (PortableDataHash mnt) "") as [Ep|Ep];
    cbn [negb andb] in H; try discriminate H.
  - finish H.
  - destruct (Writable mnt) eqn:Ew.
    + destruct (HasPrefix bind (OutputPath r +:+ "/")) eqn:Ep';
        cbn [negb andb] in H; [|discriminate H].
      destruct (String.index 0 "/" (PortableDataHash mnt)) as [[|i]|];
        finish H.
      intros k Hk. apply lookup_insert_ne. congruence.
    + cbn [andb] in H.
      destruct (String.index 0 "/" (PortableDataHash mnt)) as [[|i]|];
        finish H.
      intros k Hk. apply lookup_insert_ne. congruence.
  - destruct (Writable mnt) eqn:Ew; [discriminate H|]. finish H.
Qed.

Lemma collection_bind_ok (bind : string) (writable : bool) (src : string)
    (r : runner) (l : locals) (st' : runner * locals) :
  collection_bind bind writable src (r, l) = st' ->
  OutputPath (fst st') = OutputPath r
  /\ ArvMountPoint (fst st') = ArvMountPoint r
  /\ wantAPI (fst st') = wantAPI r
  /\ ContainerMounts (fst st') = ContainerMounts r
  /\ (exists added, Binds (fst st') = (Binds r ++ added)%list
      /\ (writable = false ->
          exists src, added = [src +:+ ":" +:+ bind +:+ ":ro"]))
  /\ (HostOutputDir (fst st') = HostOutputDir r
      \/ (bind = OutputPath r /\ writable = true))
  /\ pdhOnly (snd st') = pdhOnly l
  /\ arvMountCmd (snd st') = arvMountCmd l.
Proof.
  intros H. unfold collection_bind in H. destruct writable.
  - destruct (String.eqb_spec bind (OutputPath r)) as [Eb|Eb].
    + subst st'. cbn [fst snd OutputPath ArvMountPoint wantAPI ContainerMounts
                      Binds HostOutputDir pdhOnly arvMountCmd add_Bind
                      set_Binds set_HostOutputDir].
      repeat split; auto. added_binds.
    + destruct (HasPrefix bind (OutputPath r +:+ "/")); subst st';
        cbn [fst snd OutputPath ArvMountPoint wantAPI ContainerMounts
             Binds HostOutputDir pdhOnly arvMountCmd add_Bind
             set_Binds set_HostOutputDir];
        repeat split; auto; added_binds.
  - subst st'. cbn [fst snd OutputPath ArvMountPoint wantAPI ContainerMounts
                    Binds HostOutputDir pdhOnly arvMountCmd add_Bind
                    set_Binds set_HostOutputDir].
    repeat split; auto. added_binds.
Qed.

Lemma checks_mount_ok (outputPath bind : string) (mnt : Mount) :
  (String.eqb bind "stdout" || String.eqb bind "stderr")
  && negb (String.eqb (Kind mnt) "file") = false ->
  (String.eqb bind "stdout" || String.eqb bind "stderr")
  && negb (HasPrefix (Path mnt)
             (if HasSuffix outputPath "/" then outputPath
              else outputPath +:+ "/")) = false ->
  String.eqb bind "stdin" && negb (String.eqb (Kind mnt) "collection")
  && negb (String.eqb (Kind mnt) "json") = false ->
  HasPrefix bind (outputPath +:+ "/")
  && negb (String.eqb bind (outputPath +:+ "/"))
  && negb (String.eqb (Kind mnt) "collection") = false ->
  (Kind mnt = "collection" -> bind <> "stdin" ->
   (UUID mnt = "" \/ PortableDataHash mnt = "")
   /\ (UUID mnt <> "" -> Writable mnt = false)
   /\ (PortableDataHash mnt <> "" -> Writable mnt = true ->
       HasPrefix bind (outputPath +:+ "/") = true)) ->
  mount_ok outputPath bind mnt.
Proof.
  intros C1 C2 C3 C4 C5. unfold mount_ok. split; [|split; [|split]].
  - intros Hb.
    assert (Eb : String.eqb bind "stdout" || String.eqb bind "stderr" = true).
    { destruct Hb as [-> | ->]; reflexivity. }
    rewrite Eb in C1, C2. cbn [andb] in C1, C2.
    apply negb_false_iff in C1, C2. apply String.eqb_eq in C1. auto.
  - intros ->. cbn [String.eqb Ascii.eqb Bool.eqb andb] in C3.
    destruct (String.eqb_spec (Kind mnt) "collection"); [auto|].
    destruct (String.eqb_spec (Kind mnt) "json"); [auto|discriminate C3].
  - intros Hp Hne. rewrite Hp in C4.
    destruct (String.eqb_spec bind (outputPath +:+ "/")); [contradiction|].
    cbn [andb negb] in C4. apply negb_false_iff, String.eqb_eq in C4. exact C4.
  - exact C5.
Qed.

Ltac simpl_state :=
  cbn [fst snd ArvMountPoint HostOutputDir Binds ContainerMounts OutputPath
       KeepCacheRAM wantAPI parentTemp statInterval token ArvMount temps
       pdhOnly tmpcount arvMountCmd collectionPaths copyFiles needCertMount
       set_ArvMountPoint set_HostOutputDir set_Binds set_ContainerMounts
       set_token set_ArvMount set_temps add_Bind mktemp] in *.

Lemma setup_bind_ok (tok bind : string) (st st' : runner * locals) :
  setup_bind MkTempDir fs Marshal WriteFile extractTree Clean tok st bind
  = inr st' ->
  step_ok bind st st'.
Proof.
  destruct st as [r l]. unfold setup_bind, step_ok. cbn [fst snd].
  set (mnt := default zeroMount (ContainerMounts r !! bind)).
  intros H.
  destruct ((String.eqb bind "stdout" || String.eqb bind "stderr")
            && negb (String.eqb (Kind mnt) "file")) eqn:C1; [discriminate H|].
  destruct ((String.eqb bind "stdout" || String.eqb bind "stderr")
            && negb (HasPrefix (Path mnt)
                       (if HasSuffix (OutputPath r) "/" then OutputPath r
                        else OutputPath r +:+ "/"))) eqn:C2; [discriminate H|].
  destruct (String.eqb bind "stdin" && negb (String.eqb (Kind mnt) "collection")
            && negb (String.eqb (Kind mnt) "json")) eqn:C3; [discriminate H|].
  destruct (HasPrefix bind (OutputPath r +:+ "/")
            && negb (String.eqb bind (OutputPath r +:+ "/"))
            && negb (String.eqb (Kind mnt) "collection")) eqn:C4;
    [discriminate H|].
  set (l1 := if String.eqb bind "/etc/arvados/ca-certificates.crt"
             then _ else l) in H.
  assert (Hl1 : pdhOnly l1 = pdhOnly l /\ arvMountCmd l1 = arvMountCmd l).
  { unfold l1.
    destruct (String.eqb bind "/etc/arvados/ca-certificates.crt");
      split; reflexivity. }
  destruct Hl1 as [Hp1 Hc1].
  destruct (String.eqb (Kind mnt) "collection" && negb (String.eqb bind "stdin"))
    eqn:K1.
  - (* collection *)
    unfold collection_mount in H.
    destruct (collection_src Clean bind mnt (r, l1)) as [e|[[r1 l2] src]] eqn:Es;
      [discriminate H|].
    injection H as H.
    destruct (collection_src_ok _ _ _ _ _ _ _ Es)
      as (S1 & S2 & S3 & S4 & S5 & S6 & S7 & S8 & more & S9).
    destruct (collection_bind_ok _ _ _ _ _ _ H)
      as (B1 & B2 & B3 & B4 & (added & B5 & B5') & B6 & B7 & B8).
    apply andb_prop in K1. destruct K1 as [Kc Ks].
    apply String.eqb_eq in Kc.
    split; [apply checks_mount_ok; auto|].
    split; [congruence|]. split; [congruence|]. split; [congruence|].
    split; [intros k Hk; rewrite B4; auto|].
    split; [exists added; split; [congruence|auto]|].
    split.
    { destruct B6 as [B6|[B6 B6']]; [left; congruence|].
      right. split; [congruence|]. right.
      split; [exact Kc|]. split; [|exact B6'].
      apply negb_true_iff, String.eqb_neq in Ks. exact Ks. }
    split.
    { rewrite B7, S8, Hp1. unfold by_uuid. rewrite Kc, Ks. cbn.
      rewrite negb_involutive. reflexivity. }
    exists more. congruence.
  - (* the other kinds *)
    assert (Hnc : Kind mnt = "collection" -> bind <> "stdin" -> False).
    { intros Hk Hs. rewrite Hk in K1. apply String.eqb_neq in Hs.
      rewrite Hs in K1. discriminate K1. }
    assert (Hok : mount_ok (OutputPath r) bind mnt).
    { apply checks_mount_ok; auto. intros Hk Hs. destruct (Hnc Hk Hs). }
    assert (Hby : by_uuid bind mnt = false).
    { unfold by_uuid. rewrite K1. reflexivity. }
    rewrite Hby, andb_true_r.
    destruct (String.eqb_spec (Kind mnt) "tmp") as [Kt|Kt].
    { unfold mktemp in H.
      destruct (MkTempDir (temps r) (parentTemp r) "tmp") as [e|tmpdir];
        [discriminate H|].
      destruct (Stat fs tmpdir); [discriminate H|].
      injection H as H. subst st'. simpl_state.
      split; [exact Hok|].
      destruct (String.eqb_spec bind (OutputPath r)) as [Eb|Eb]; simpl_state;
        repeat split; auto;
        try (eexists; split; [reflexivity|intros Hk Hs; destruct (Hnc Hk Hs)]);
        try (exists []; symmetry; apply app_nil_r);
        try (exists []; rewrite app_nil_r; assumption). }
    destruct (String.eqb (Kind mnt) "json").
    { destruct (Marshal (Content mnt)); [discriminate H|].
      unfold mktemp in H.
      destruct (MkTempDir (temps r) (parentTemp r) "json") as [e|tmpdir];
        [discriminate H|].
      destruct (WriteFile _ _); [discriminate H|].
      injection H as H. subst st'. simpl_state.
      split; [exact Hok|].
      repeat split; auto;
        try (eexists; split; [reflexivity|intros Hk Hs; destruct (Hnc Hk Hs)]);
        try (exists []; symmetry; apply app_nil_r);
        try (exists []; rewrite app_nil_r; assumption). }
    destruct (String.eqb (Kind mnt) "git_tree").
    { unfold mktemp in H.
      destruct (MkTempDir (temps r) (parentTemp r) "git_tree") as [e|tmpdir];
        [discriminate H|].
      destruct (extractTree _ _ _); [discriminate H|].
      injection H as H. subst st'. simpl_state.
      split; [exact Hok|].
      repeat split; auto;
        try (eexists; split; [reflexivity|intros Hk Hs; destruct (Hnc Hk Hs)]);
        try (exists []; symmetry; apply app_nil_r);
        try (exists []; rewrite app_nil_r; assumption). }
    injection H as H. subst st'. simpl_state.
    split; [exact Hok|].
    repeat split; auto;
      try (exists []; split; [symmetry; apply app_nil_r
                             |intros Hk Hs; destruct (Hnc Hk Hs)]);
      try (exists []; symmetry; apply app_nil_r);
      try (exists []; rewrite app_nil_r; assumption).
Qed.


Lemma insert_sorted_perm (x : string) (l : list string) :
  Permutation (x :: l) (Output.insert_sorted x l).
Proof.
  induction l as [|y l IH]; cbn [Output.insert_sorted]; [reflexivity|].
  destruct (String.leb x y); [reflexivity|].
  etransitivity; [apply perm_swap|apply perm_skip, IH].
Qed.

Lemma sort_strings_perm (l : list string) :
  Permutation l (Output.sort_strings l).
Proof.
  induction l as [|x l IH]; [constructor|].
  change (Output.sort_strings (x :: l))
    with (Output.insert_sorted x (Output.sort_strings l)).
  etransitivity; [apply perm_skip, IH|apply insert_sorted_perm].
Qed.

Lemma sorted_binds_NoDup (r : runner) : NoDup (sorted_binds r).
Proof.
  unfold sorted_binds. rewrite <- sort_strings_perm.
  apply NoDup_fst_map_to_list.
Qed.

Lemma sorted_binds_elem (r : runner) (bind : string) :
  bind ∈ sorted_binds r <-> is_Some (ContainerMounts r !! bind).
Proof.
  unfold sorted_binds. rewrite <- sort_strings_perm.
  rewrite list_elem_of_fmap. split.
  - intros [[k m] [-> Hk]]. apply elem_of_map_to_list in Hk. eauto.
  - intros [m Hm]. exists (bind, m). split; [reflexivity|].
    apply elem_of_map_to_list. exact Hm.
Qed.

Lemma forallb_ext_elem {A : Type} (f g : A -> bool) (l : list A) :
  (forall x, x ∈ l -> f x = g x) -> forallb f l = forallb g l.
Proof.
  induction l as [|a l IH]; intros H; [reflexivity|].
  cbn [forallb]. rewrite (H a), IH; [reflexivity| |left].
  intros x Hx. apply H. right. exact Hx.
Qed.

(** What the whole loop does to the state, when it ends without error. *)
Lemma each_bind_ok (tok : string) (binds : list string) :
  NoDup binds ->
  forall st st' : runner * locals,
  each_bind MkTempDir fs Marshal WriteFile extractTree Clean tok binds st
  = inr st' ->
  OutputPath (fst st') = OutputPath (fst st)
  /\ ArvMountPoint (fst st') = ArvMountPoint (fst st)
  /\ wantAPI (fst st') = wantAPI (fst st)
  /\ (forall k, k ∉ binds ->
        ContainerMounts (fst st') !! k = ContainerMounts (fst st) !! k)
  /\ (forall b, b ∈ binds ->
        mount_ok (OutputPath (fst st)) b
                 (default zeroMount (ContainerMounts (fst st) !! b)))
  /\ (exists added, Binds (fst st') = (Binds (fst st) ++ added)%list
      /\ forall b, b ∈ binds ->
           let mnt := default zeroMount (ContainerMounts (fst st) !! b) in
           Kind mnt = "collection" -> b <> "stdin" -> Writable mnt = false ->
           exists src, (src +:+ ":" +:+ b +:+ ":ro") ∈ added)
  /\ (HostOutputDir (fst st') = HostOutputDir (fst st)
      \/ (OutputPath (fst st) ∈ binds
          /\ let mnt := default zeroMount
                          (ContainerMounts (fst st) !! OutputPath (fst st)) in
             Kind mnt = "tmp"
             \/ (Kind mnt = "collection" /\ OutputPath (fst st) <> "stdin"
                 /\ Writable mnt = true)))
  /\ pdhOnly (snd st')
     = pdhOnly (snd st)
       && forallb (fun b => negb (by_uuid b
                     (default zeroMount (ContainerMounts (fst st) !! b))))
                  binds
  /\ (exists more, arvMountCmd (snd st') = (arvMountCmd (snd st) ++ more)%list).
Proof.
  induction 1 as [|bind rest Hnot Hnd IH]; intros st st' H.
  - cbn [each_bind] in H. injection H as <-.
    split; [reflexivity|]. split; [reflexivity|]. split; [reflexivity|].
    split; [reflexivity|].
    split; [intros b Hb; inversion Hb|].
    split.
    { exists []. split; [symmetry; apply app_nil_r|].
      intros b Hb. inversion Hb. }
    split; [left; reflexivity|].
    split; [cbn [forallb]; symmetry; apply andb_true_r|].
    exists []. symmetry. apply app_nil_r.
  - cbn [each_bind] in H.
    destruct (setup_bind MkTempDir fs Marshal WriteFile extractTree Clean
                tok st bind) as [e|st1] eqn:E1; [discriminate H|].
    apply setup_bind_ok in E1.
    destruct E1 as (A1 & A2 & A3 & A4 & A5 & (added1 & A6 & A6') & A7 & A8
                    & more1 & A9).
    destruct (IH _ _ H) as (B1 & B2 & B3 & B4 & B5 & (added2 & B6 & B6') & B7
                            & B8 & more2 & B9).
    assert (Hsame : forall b, b ∈ rest ->
              ContainerMounts (fst st1) !! b = ContainerMounts (fst st) !! b).
    { intros b Hb. apply A5. intros ->. contradiction. }
    split; [congruence|]. split; [congruence|]. split; [congruence|].
    split.
    { intros k Hk. apply not_elem_of_cons in Hk. destruct Hk as [Hk1 Hk2].
      rewrite B4 by exact Hk2. apply A5. exact Hk1. }
    split.
    { intros b Hb. apply elem_of_cons in Hb. destruct Hb as [->|Hb].
      - exact A1.
      - rewrite <- A2, <- (Hsame b Hb). apply B5. exact Hb. }
    split.
    { exists (added1 ++ added2)%list. split.
      - rewrite B6, A6. symmetry. apply app_assoc.
      - intros b Hb mnt Hk Hs Hw.
        apply elem_of_cons in Hb. destruct Hb as [->|Hb].
        + destruct (A6' Hk Hs Hw) as [src ->]. exists src.
          apply elem_of_app. left. left.
        + subst mnt. rewrite <- (Hsame b Hb) in Hk, Hw.
          destruct (B6' b Hb Hk Hs Hw) as [src Hsrc]. exists src.
          apply elem_of_app. right. exact Hsrc. }
    split.
    { destruct B7 as [B7|[B7 B7']].
      - destruct A7 as [A7|[A7 A7']]; [left; congruence|].
        right. split; [rewrite <- A7; left|]. rewrite <- A7. exact A7'.
      - right. rewrite A2 in B7, B7'.
        split; [right; exact B7|].
        rewrite (Hsame _ B7) in B7'. exact B7'. }
    split.
    { rewrite B8, A8. cbn [forallb]. rewrite <- andb_assoc. f_equal. f_equal.
      apply forallb_ext_elem. intros b Hb. rewrite (Hsame b Hb). reflexivity. }
    exists (more1 ++ more2)%list. rewrite B9, A9. symmetry. apply app_assoc.
Qed.

Lemma cert_bind_Binds (files : list string) (r : runner) :
  OutputPath (cert_bind fs files r) = OutputPath r
  /\ ArvMountPoint (cert_bind fs files r) = ArvMountPoint r
  /\ HostOutputDir (cert_bind fs files r) = HostOutputDir r
  /\ ContainerMounts (cert_bind fs files r) = ContainerMounts r
  /\ exists certs, Binds (cert_bind fs files r) = (Binds r ++ certs)%list.
Proof.
  induction files as [|f files IH]; cbn [cert_bind].
  - repeat split. exists []. symmetry. apply app_nil_r.
  - destruct (Stat fs f); [exact IH|].
    repeat split. eexists. reflexivity.
Qed.

(** A run of [SetupMounts] that succeeds went through the loop. *)
Lemma SetupMounts_loop (depth : nat) (r r' : runner) (done : list staged) :
  SetupMounts MkTempDir GetAuth fs Marshal WriteFile extractTree RunArvMount
              copyfile MkdirAll Clean pathJoin CertFiles depth r
  = Some (inr (r', done)) ->
  exists (tok : string) (r0 : runner) (l0 : locals) (st' : runner * locals),
    ContainerMounts r0 = ContainerMounts r
    /\ OutputPath r0 = OutputPath r
    /\ HostOutputDir r0 = HostOutputDir r
    /\ pdhOnly l0 = true
    /\ each_bind MkTempDir fs Marshal WriteFile extractTree Clean tok
                 (sorted_binds r0) (r0, l0) = inr st'
    /\ HostOutputDir (fst st') <> ""
    /\ HostOutputDir r' = HostOutputDir (fst st')
    /\ ArvMountPoint r' = ArvMountPoint (fst st')
    /\ (exists certs, Binds r' = (Binds (fst st') ++ certs)%list)
    /\ ArvMount r'
       = Some (arvMountCmd (snd st')
               ++ (if pdhOnly (snd st') then ["--mount-by-pdh"; "by_id"]
                   else ["--mount-by-id"; "by_id"])
               ++ [ArvMountPoint r'])%list.
Proof.
  unfold SetupMounts. intros H.
  destruct (SetupArvMountPoint MkTempDir r "keep") as [r1 [e|]] eqn:E1;
    [discriminate H|].
  destruct (ContainerToken GetAuth r1) as [r2 [e|tok]] eqn:E2;
    [discriminate H|].
  assert (F1 : ContainerMounts r1 = ContainerMounts r
               /\ OutputPath r1 = OutputPath r
               /\ HostOutputDir r1 = HostOutputDir r).
  { unfold SetupArvMountPoint, mktemp in E1.
    destruct (String.eqb (ArvMountPoint r) "").
    - destruct (MkTempDir (temps r) (parentTemp r) "keep");
        [discriminate E1|]. injection E1 as <-. repeat split.
    - injection E1 as <-. repeat split. }
  assert (F2 : ContainerMounts r2 = ContainerMounts r1
               /\ OutputPath r2 = OutputPath r1
               /\ HostOutputDir r2 = HostOutputDir r1).
  { unfold ContainerToken in E2.
    destruct (negb (String.eqb (token r1) "")).
    - injection E2 as <- _. repeat split.
    - remember GetAuth as auth eqn:Eauth. clear Eauth.
      destruct auth; [discriminate E2|].
      injection E2 as <- _. repeat split. }
  destruct F1 as (F11 & F12 & F13). destruct F2 as (F21 & F22 & F23).
  match type of H with
  | match ?x with _ => _ end = _ =>
      destruct x as [e|[r3 l3]] eqn:E3; [discriminate H|]
  end.
  destruct (String.eqb_spec (HostOutputDir r3) "") as [|Hout];
    [discriminate H|].
  match type of H with
  | match RunArvMount ?c _ with _ => _ end = _ =>
      destruct (RunArvMount c tok); [discriminate H|]
  end.
  destruct (check_paths fs (collectionPaths l3)); [discriminate H|].
  destruct (stage fs copyfile MkdirAll pathJoin depth (copyFiles l3) [])
    as [[done' [e|]]|]; try discriminate H.
  injection H as <- <-.
  match type of E3 with
  | each_bind _ _ _ _ _ _ _ _ (?r0, ?l0) = _ => exists tok, r0, l0, (r3, l3)
  end.
  cbn [fst snd].
  assert (C : let r4 := if needCertMount l3 && wantAPI r3
                        then cert_bind fs CertFiles r3 else r3 in
              OutputPath r4 = OutputPath r3
              /\ ArvMountPoint r4 = ArvMountPoint r3
              /\ HostOutputDir r4 = HostOutputDir r3
              /\ ContainerMounts r4 = ContainerMounts r3
              /\ exists certs, Binds r4 = (Binds r3 ++ certs)%list).
  { cbv zeta. destruct (needCertMount l3 && wantAPI r3).
    - apply cert_bind_Binds.
    - repeat split. exists []. symmetry. apply app_nil_r. }
  cbv zeta in C. destruct C as (C1 & C2 & C3 & C4 & C5).
  cbn [ContainerMounts OutputPath HostOutputDir set_Binds set_ArvMount
       ArvMountPoint Binds ArvMount pdhOnly].
  repeat split; try congruence; auto.
Qed.


Lemma prefix_own_slash (s : string) : HasPrefix s (s +:+ "/") = false.
Proof.
  unfold HasPrefix. induction s as [|a s IH]; [reflexivity|].
  simpl. destruct (ascii_dec a a); [exact IH|reflexivity].
Qed.

Lemma forallb_false_elem {A : Type} (f : A -> bool) (l : list A) :
  forallb f l = false -> exists x, x ∈ l /\ f x = false.
Proof.
  induction l as [|a l IH]; [discriminate|].
  cbn [forallb]. destruct (f a) eqn:Ea.
  - intros H. destruct (IH H) as (x & Hx & Hf).
    exists x. split; [right; exact Hx|exact Hf].
  - intros _. exists a. split; [left|exact Ea].
Qed.

(** X18: a run of SetupMounts that starts without a host output directory
    and succeeds has found, at the output path of the container, a mount of
    kind tmp or a writable collection that names neither a UUID nor a
    portable data hash; the host output directory is then set. *)
Theorem SetupMounts_output_mount (depth : nat) (r r' : runner)
    (done : list staged) :
  HostOutputDir r = "" ->
  SetupMounts MkTempDir GetAuth fs Marshal WriteFile extractTree RunArvMount
              copyfile MkdirAll Clean pathJoin CertFiles depth r
  = Some (inr (r', done)) ->
  HostOutputDir r' <> ""
  /\ exists mnt, ContainerMounts r !! OutputPath r = Some mnt
     /\ (Kind mnt = "tmp"
         \/ (Kind mnt = "collection" /\ Writable mnt = true
             /\ UUID mnt = "" /\ PortableDataHash mnt = "")).
Proof.
  intros Hempty H.
  destruct (SetupMounts_loop _ _ _ _ H)
    as (tok & r0 & l0 & st' & M & O & HO & P & E & Hne & HO' & _).
  destruct (each_bind_ok tok _ (sorted_binds_NoDup r0) _ _ E)
    as (_ & _ & _ & _ & B5 & _ & B7 & _).
  cbn [fst snd] in B5, B7.
  split; [congruence|].
  destruct B7 as [B7|[B7 B7']]; [congruence|].
  pose proof (B5 _ B7) as Hok.
  apply sorted_binds_elem in B7. destruct B7 as [mnt Hm].
  rewrite Hm in B7', Hok. cbn [default] in B7', Hok.
  rewrite M, O in Hm. exists mnt. split; [exact Hm|].
  destruct B7' as [Ht|(Hc & Hs & Hw)]; [left; exact Ht|].
  right. destruct Hok as (_ & _ & _ & Hcol).
  destruct (Hcol Hc Hs) as (_ & Hu & Hp).
  split; [exact Hc|]. split; [exact Hw|]. split.
  - destruct (String.eqb_spec (UUID mnt) "") as [|Hu']; [assumption|].
    rewrite (Hu Hu') in Hw. discriminate Hw.
  - destruct (String.eqb_spec (PortableDataHash mnt) "") as [|Hp'];
      [assumption|].
    rewrite prefix_own_slash in Hp. discriminate (Hp Hp' Hw).
Qed.

(** X19: when SetupMounts succeeds, every mount of the container has passed
    the checks of its loop: stdout and stderr are files below the output
    path, stdin is a collection or JSON, only collections lie below the
    output path, and no collection names both a UUID and a portable data
    hash, is writable by UUID, or is writable by hash outside the output
    path. *)
Theorem SetupMounts_validates_mounts (depth : nat) (r r' : runner)
    (done : list staged) (bind : string) (mnt : Mount) :
  SetupMounts MkTempDir GetAuth fs Marshal WriteFile extractTree RunArvMount
              copyfile MkdirAll Clean pathJoin CertFiles depth r
  = Some (inr (r', done)) ->
  ContainerMounts r !! bind = Some mnt ->
  mount_ok (OutputPath r) bind mnt.
Proof.
  intros H Hm.
  destruct (SetupMounts_loop _ _ _ _ H)
    as (tok & r0 & l0 & st' & M & O & HO & P & E & _).
  destruct (each_bind_ok tok _ (sorted_binds_NoDup r0) _ _ E)
    as (_ & _ & _ & _ & B5 & _).
  cbn [fst snd] in B5.
  assert (Hin : bind ∈ sorted_binds r0).
  { apply sorted_binds_elem. rewrite M, Hm. eauto. }
  specialize (B5 _ Hin). rewrite M, O, Hm in B5. exact B5.
Qed.

(** X20: when SetupMounts succeeds, every collection mounted read-only
    (at a mount point other than stdin) has a bind of the form
    src:bind:ro among the binds of the container. *)
Theorem SetupMounts_binds_read_only (depth : nat) (r r' : runner)
    (done : list staged) (bind : string) (mnt : Mount) :
  SetupMounts MkTempDir GetAuth fs Marshal WriteFile extractTree RunArvMount
              copyfile MkdirAll Clean pathJoin CertFiles depth r
  = Some (inr (r', done)) ->
  ContainerMounts r !! bind = Some mnt ->
  Kind mnt = "collection" -> bind <> "stdin" -> Writable mnt = false ->
  exists src, In (src +:+ ":" +:+ bind +:+ ":ro") (Binds r').
Proof.
  intros H Hm Hk Hs Hw.
  destruct (SetupMounts_loop _ _ _ _ H)
    as (tok & r0 & l0 & st' & M & O & HO & P & E & _ & _ & _ & (certs & HB)
        & _).
  destruct (each_bind_ok tok _ (sorted_binds_NoDup r0) _ _ E)
    as (_ & _ & _ & _ & _ & (added & B6 & B6') & _).
  cbn [fst snd] in B6, B6'.
  assert (Hin : bind ∈ sorted_binds r0).
  { apply sorted_binds_elem. rewrite M, Hm. eauto. }
  specialize (B6' _ Hin). rewrite M, Hm in B6'. cbn [default] in B6'.
  destruct (B6' Hk Hs Hw) as [src Hsrc]. exists src.
  apply list_elem_of_In. rewrite HB, B6.
  apply elem_of_app. left. apply elem_of_app. right. exact Hsrc.
Qed.

(** X21: when SetupMounts succeeds, arv-mount was started with arguments
    that end in a mount flag, by_id and the mount point; the flag is
    --mount-by-id when some collection mount (other than stdin) names a
    UUID, and --mount-by-pdh when none does. *)
Theorem SetupMounts_mount_flag (depth : nat) (r r' : runner)
    (done : list staged) :
  SetupMounts MkTempDir GetAuth fs Marshal WriteFile extractTree RunArvMount
              copyfile MkdirAll Clean pathJoin CertFiles depth r
  = Some (inr (r', done)) ->
  exists (pre : list string) (flag : string),
    ArvMount r' = Some (pre ++ [flag; "by_id"; ArvMountPoint r'])%list
    /\ ((flag = "--mount-by-id"
         /\ exists bind mnt, ContainerMounts r !! bind = Some mnt
                             /\ by_uuid bind mnt = true)
        \/ (flag = "--mount-by-pdh"
            /\ forall bind mnt, ContainerMounts r !! bind = Some mnt ->
                                by_uuid bind mnt = false)).
Proof.
  intros H.
  destruct (SetupMounts_loop _ _ _ _ H)
    as (tok & r0 & l0 & st' & M & O & HO & P & E & _ & _ & _ & _ & HA).
  destruct (each_bind_ok tok _ (sorted_binds_NoDup r0) _ _ E)
    as (_ & _ & _ & _ & _ & _ & _ & B8 & _).
  cbn [fst snd] in B8. rewrite P in B8. cbn [andb] in B8.
  exists (arvMountCmd (snd st')).
  destruct (pdhOnly (snd st')).
  - exists "--mount-by-pdh". split; [exact HA|]. right.
    split; [reflexivity|]. intros bind mnt Hm.
    symmetry in B8. rewrite forallb_forall in B8.
    assert (Hin : bind ∈ sorted_binds r0).
    { apply sorted_binds_elem. rewrite M, Hm. eauto. }
    apply list_elem_of_In, B8 in Hin. rewrite M, Hm in Hin.
    apply negb_true_iff in Hin. exact Hin.
  - exists "--mount-by-id". split; [exact HA|]. left.
    split; [reflexivity|]. symmetry in B8.
    apply forallb_false_elem in B8. destruct B8 as (bind & Hin & Hby).
    apply sorted_binds_elem in Hin. destruct Hin as [mnt Hm].
    rewrite Hm in Hby. cbn [default] in Hby.
    apply negb_false_iff in Hby. rewrite M in Hm. eauto.
Qed.

End WithHost.

Lemma prefix_app (p t : string) : HasPrefix (p +:+ t) p = true.
Proof.
  unfold HasPrefix. induction p as [|a p IH]; [destruct t; reflexivity|].
  simpl. destruct (ascii_dec a a); [exact IH|contradiction].
Qed.

Lemma environ_fold (environ acc : list string) :
  fold_left (fun env s =>
               if negb (HasPrefix s "ARVADOS_API_TOKEN=")
               then (env ++ [s])%list else env)
            environ acc
  = (acc ++ List.filter (fun s => negb (HasPrefix s "ARVADOS_API_TOKEN="))
                        environ)%list.
Proof.
  revert acc. induction environ as [|s environ IH]; intros acc.
  - symmetry. apply app_nil_r.
  - cbn [fold_left List.filter]. rewrite IH.
    destruct (negb (HasPrefix s "ARVADOS_API_TOKEN=")); [|reflexivity].
    rewrite <- app_assoc. reflexivity.
Qed.

(** X22: of the environment that ArvMountCmd gives to arv-mount, exactly
    one entry sets ARVADOS_API_TOKEN, it is the last one and carries the
    token of the container; the other variables of the runner are passed
    on unchanged and in order.  The token of the runner itself is never
    passed on. *)
Theorem ArvMountCmd_Env_token (environ : list string) (token : string) :
  List.filter (fun s => HasPrefix s "ARVADOS_API_TOKEN=")
              (ArvMountCmd_Env environ token)
  = ["ARVADOS_API_TOKEN=" +:+ token]
  /\ ArvMountCmd_Env environ token
     = (List.filter (fun s => negb (HasPrefix s "ARVADOS_API_TOKEN=")) environ
        ++ ["ARVADOS_API_TOKEN=" +:+ token])%list.
Proof.
  unfold ArvMountCmd_Env. rewrite environ_fold. cbn [app].
  split; [|reflexivity].
  rewrite List.filter_app. cbn [List.filter].
  rewrite (prefix_app "ARVADOS_API_TOKEN=" token).
  assert (H : List.filter (fun s => HasPrefix s "ARVADOS_API_TOKEN=")
                (List.filter
                   (fun s => negb (HasPrefix s "ARVADOS_API_TOKEN=")) environ)
              = []).
  { induction environ as [|s environ IH]; [reflexivity|].
    cbn [List.filter].
    destruct (HasPrefix s "ARVADOS_API_TOKEN=") eqn:E; cbn [negb]; [exact IH|].
    cbn [List.filter]. rewrite E. exact IH. }
  rewrite H. reflexivity.
Qed.

Lemma SetupMounts_output_mount_witness :
  HostOutputDir (fst example_final) = "/tmp/tmp1"
  /\ exists mnt, example_mounts !! "/out" = Some mnt
     /\ (Kind mnt = "tmp"
         \/ (Kind mnt = "collection" /\ Writable mnt = true
             /\ UUID mnt = "" /\ PortableDataHash mnt = "")).
Proof.
  split; [vm_compute; reflexivity|].
  apply (SetupMounts_output_mount example_MkTempDir (inr "token") example_host
           (fun c => inr c) (fun _ _ => None) (fun _ _ _ => None)
           (fun _ _ => None) (fun _ _ => None) (fun _ => None)
           (fun p => p) (fun a b => a +:+ b) [] 5 example_runner
           (fst example_final) (snd example_final));
    [reflexivity|vm_compute; reflexivity].
Defined.

Lemma SetupMounts_validates_mounts_witness :
  mount_ok "/out" "/in"
    (mkMount "collection" false
             "59389a8f9ee9d399be35462a0f92541c+53/sub" "" "" "").
Proof.
  apply (SetupMounts_validates_mounts example_MkTempDir (inr "token")
           example_host
           (fun c => inr c) (fun _ _ => None) (fun _ _ _ => None)
           (fun _ _ => None) (fun _ _ => None) (fun _ => None)
           (fun p => p) (fun a b => a +:+ b) [] 5 example_runner
           (fst example_final) (snd example_final));
    vm_compute; reflexivity.
Defined.

Lemma SetupMounts_binds_read_only_witness :
  Binds (fst example_final)
  = ["/tmp/keep0/by_id/59389a8f9ee9d399be35462a0f92541c+53/sub:/in:ro";
     "/tmp/tmp1:/out";
     "/tmp/keep0/by_id/zzzzz-4zz18-000000000000000:/ref:ro"]
  /\ exists src, In (src +:+ ":" +:+ "/ref" +:+ ":ro")
                    (Binds (fst example_final)).
Proof.
  split; [vm_compute; reflexivity|].
  apply (SetupMounts_binds_read_only example_MkTempDir (inr "token")
           example_host
           (fun c => inr c) (fun _ _ => None) (fun _ _ _ => None)
           (fun _ _ => None) (fun _ _ => None) (fun _ => None)
           (fun p => p) (fun a b => a +:+ b) [] 5 example_runner
           (fst example_final) (snd example_final) "/ref"
           (mkMount "collection" false "" "zzzzz-4zz18-000000000000000"
                    "" ""));
    [vm_compute; reflexivity|vm_compute; reflexivity|reflexivity
    |discriminate|reflexivity].
Defined.

Lemma SetupMounts_mount_flag_witness :
  ArvMount (fst example_final)
  = Some ["--foreground"; "--allow-other"; "--read-write";
          "--crunchstat-interval=10"; "--mount-by-id"; "by_id";
          "/tmp/keep0"]
  /\ exists (pre : list string) (flag : string),
       ArvMount (fst example_final)
       = Some (pre ++ [flag; "by_id"; ArvMountPoint (fst example_final)])%list
       /\ ((flag = "--mount-by-id"
            /\ exists bind mnt, example_mounts !! bind = Some mnt
                                /\ by_uuid bind mnt = true)
           \/ (flag = "--mount-by-pdh"
               /\ forall bind mnt, example_mounts !! bind = Some mnt ->
                                   by_uuid bind mnt = false)).
Proof.
  split; [vm_compute; reflexivity|].
  apply (SetupMounts_mount_flag example_MkTempDir (inr "token") example_host
           (fun c => inr c) (fun _ _ => None) (fun _ _ _ => None)
           (fun _ _ => None) (fun _ _ => None) (fun _ => None)
           (fun p => p) (fun a b => a +:+ b) [] 5 example_runner
           (fst example_final) (snd example_final)).
  vm_compute. reflexivity.
Defined.

End MountsProofs.

